(** * AirDarwin ground station: telemetry decoder, serial link and HUD safety analysis

    A shallow embedding of the decoding-and-analysis pipeline of [index.py]:
    [SerialCommunication._parse_telemetry] and [SerialCommunication.disconnect],
    and [ModernHUD.update_from_telemetry], [_check_connection_status],
    [_analyze_real_data] and [_analyze_smart_telemetry]; and of what stands
    around it: the rest of [SerialCommunication] ([connect], [send_command],
    [_read_data]), the choice of the lists [ModernHUD.paintEvent] draws,
    [MainWindow._on_port_changed], [_handle_telemetry_data] and
    [_handle_user_message], [ModernComposer._handle_tab_completion],
    [StreamingMessage._type_next_char] and [LocalLLM._fallback_response].

    Python values are modelled as follows.
    - [float] is the kernel's binary64 [PrimFloat.float]: comparisons and
      arithmetic are the IEEE ones Python uses, NaN and the infinities included.
    - [int] is [Z]; [bool] is [bool]; a list of strings is [list string].
    - [str] is [string], read as the UTF-8 bytes of the text.  The program
      searches for and splits on whole texts, which gives the same result on
      the bytes as on the code points; [strip()] and [lower()], which do not,
      are left to the interpreter, and the text a message is typed from is
      the list of its characters.
    - An exception is a value of [exn]; code that can raise returns a [result],
      and a method of the HUD, whose attributes keep the values assigned before
      a raise, is a function from the object to an outcome and the object. *)

From Stdlib Require Import ZArith String Ascii List Bool Lia.
From Stdlib Require Import DecimalString.
From Stdlib Require Import Floats.
Import ListNotations.

Set Warnings "-inexact-float".
Local Open Scope string_scope.

(** ** Python's built-in behaviour *)

Module Py.

(** The exceptions the modelled code can meet: [float(str)], [int(str)],
    [int(nan)] and a [math] domain error raise [ValueError]; [int(inf)] raises
    [OverflowError].  Both are subclasses of [Exception]. *)
Inductive exn : Type :=
| ValueError
| OverflowError.

Inductive result (A : Type) : Type :=
| Ok (a : A)
| Raise (e : exn).

Arguments Ok {A} a.
Arguments Raise {A} e.

Definition bind {A B : Type} (r : result A) (k : A -> result B) : result B :=
  match r with
  | Ok a => k a
  | Raise e => Raise e
  end.

(** [try: body / except Exception as e: handler]. *)
Definition try_except {A : Type} (body : result A) (handler : exn -> result A) : result A :=
  match body with
  | Ok a => Ok a
  | Raise e => handler e
  end.

(** A built-in that signals failure by [ValueError]. *)
Definition or_value_error {A : Type} (o : option A) : result A :=
  match o with
  | Some a => Ok a
  | None => Raise ValueError
  end.

(** *** Strings *)

(** [needle in hay]. *)
Fixpoint str_contains (needle hay : string) : bool :=
  String.prefix needle hay
  || match hay with
     | EmptyString => false
     | String _ rest => str_contains needle rest
     end.

(** [s[n:]]. *)
Fixpoint str_drop (n : nat) (s : string) : string :=
  match n, s with
  | O, _ => s
  | S _, EmptyString => EmptyString
  | S k, String _ rest => str_drop k rest
  end.

(** [s.split(sep)] for a one-character separator: never the empty list. *)
Fixpoint str_split (sep : ascii) (s : string) : list string :=
  match s with
  | EmptyString => [EmptyString]
  | String c rest =>
      if Ascii.eqb c sep then EmptyString :: str_split sep rest
      else match str_split sep rest with
           | [] => [String c EmptyString]
           | w :: ws => String c w :: ws
           end
  end.

(** [s.split(sep, 1)] when [sep in s]: the text before the first separator and
    the text after it; [None] when the separator does not occur. *)
Fixpoint str_split_first (sep : ascii) (s : string) : option (string * string) :=
  match s with
  | EmptyString => None
  | String c rest =>
      if Ascii.eqb c sep then Some (EmptyString, rest)
      else match str_split_first sep rest with
           | Some (k, v) => Some (String c k, v)
           | None => None
           end
  end.

(** [str(n)] of an [int]. *)
Definition str_int (n : Z) : string := NilZero.string_of_int (Z.to_int n).

(** *** Floats *)

Local Open Scope float_scope.

(** [a < b], [a > b], [a <= b] on floats (an [int] operand is an exactly
    representable small constant everywhere in the program). *)
Definition flt (a b : float) : bool := PrimFloat.ltb a b.
Definition fgt (a b : float) : bool := PrimFloat.ltb b a.
Definition fle (a b : float) : bool := PrimFloat.leb a b.

(** [max(a, b)]: the first argument unless the second is greater. *)
Definition fmax (a b : float) : float := if fgt b a then b else a.

Definition is_finite (x : float) : bool := negb (is_nan x) && negb (is_infinity x).

(** [int(x)] of a float: truncation toward zero; NaN raises [ValueError], an
    infinity [OverflowError]. *)
Definition int_of_float (x : float) : result Z :=
  match Prim2SF x with
  | S754_nan => Raise ValueError
  | S754_infinity _ => Raise OverflowError
  | S754_zero _ => Ok 0%Z
  | S754_finite s m e =>
      let a := if (0 <=? e)%Z then (Zpos m * 2 ^ e)%Z else (Zpos m / 2 ^ (- e))%Z in
      Ok (if s then (- a)%Z else a)
  end.

(** [n / d] rounded to the nearest integer, ties to the even one
    ([0 <= n], [0 < d]). *)
Definition round_half_even (n d : Z) : Z :=
  let q := (n / d)%Z in
  let r := (n mod d)%Z in
  if (2 * r <? d)%Z then q
  else if (d <? 2 * r)%Z then (q + 1)%Z
  else if Z.even q then q else (q + 1)%Z.

(** The digits of [n] written with at least [width] digits. *)
Fixpoint zero_pad (width : nat) (s : string) : string :=
  match width with
  | O => s
  | S w => if (String.length s <=? w)%nat then zero_pad w ("0" ++ s) else s
  end.

(** [n] read as a fixed-point number with [digits] decimals ([0 <= n]). *)
Definition fixed_point (digits : nat) (n : Z) : string :=
  let p := (10 ^ Z.of_nat digits)%Z in
  match digits with
  | O => str_int n
  | S _ => str_int (n / p) ++ "." ++ zero_pad digits (str_int (n mod p))
  end.

(** [f"{x:.0f}"] and [f"{x:.1f}"]: the exact value rounded half-even to
    [digits] decimals. *)
Definition format_fixed (digits : nat) (x : float) : string :=
  match Prim2SF x with
  | S754_nan => "nan"
  | S754_infinity s => if s then "-inf" else "inf"
  | S754_zero s => (if s then "-" else EmptyString) ++ fixed_point digits 0
  | S754_finite s m e =>
      let num := (Zpos m * 10 ^ Z.of_nat digits)%Z in
      let n := if (0 <=? e)%Z then (num * 2 ^ e)%Z else round_half_even num (2 ^ (- e)) in
      (if s then "-" else EmptyString) ++ fixed_point digits n
  end.

(** [math.radians(x)]: [x * (pi / 180)]. *)
Definition radians (x : float) : float := x * 0.017453292519943295.

(** What the interpreter and the C library supply: the text-to-number
    conversions [float(str)] and [int(str)] ([None] for [ValueError]), [sin]
    and [cos] of the platform's libm, and the float power [x ** y], which calls
    libm's [pow] and raises [OverflowError] when the result is out of range. *)
Class Runtime : Type := {
  float_of_str : string -> option float;
  int_of_str : string -> option Z;
  libm_sin : float -> float;
  libm_cos : float -> float;
  float_pow : float -> float -> result float
}.

(** [math.sin] and [math.cos]: the libm result, with the domain check the
    [math] module wraps around it (a NaN result of a non-NaN argument, or an
    infinite result of a finite one, raises [ValueError]). *)
Definition math_1 (f : float -> float) (x : float) : result float :=
  let r := f x in
  if is_nan r && negb (is_nan x) then Raise ValueError
  else if is_infinity r && is_finite x then Raise ValueError
  else Ok r.

Definition sin `{Runtime} (x : float) : result float := math_1 libm_sin x.
Definition cos `{Runtime} (x : float) : result float := math_1 libm_cos x.

End Py.

Import Py.

Declare Scope py_scope.
Notation "x <- r ;; k" := (Py.bind r (fun x => k))
  (at level 61, r at next level, right associativity) : py_scope.

Local Open Scope py_scope.

(** ** The serial link: [class SerialCommunication] *)

(** The dictionary [_parse_telemetry] builds and [update_from_telemetry] reads:
    a key that is not in the dictionary is [None]. *)
Record Frame : Type := mkFrame {
  f_airspeed : option float;  (* data['airspeed'] *)
  f_altitude : option float;  (* data['altitude'] *)
  f_heading : option float;  (* data['heading'] *)
  f_roll : option float;  (* data['roll'] *)
  f_pitch : option float;  (* data['pitch'] *)
  f_throttle : option Z;  (* data['throttle'] *)
  f_waypoint : option Z;  (* data['waypoint'] *)
  f_safety_state : option string;  (* data['safety_state'] *)
  f_gps_ok : option bool;  (* data['gps_ok'] *)
  f_imu_ok : option bool;  (* data['imu_ok'] *)
  f_link_ok : option bool;  (* data['link_ok'] *)
  f_motor_armed : option bool;  (* data['motor_armed'] *)
  f_mode : option string;  (* data['mode'] *)
  f_battery : option float  (* data['battery']: read by the HUD, never written by the decoder *)
}.

Definition set_f_airspeed (v : option float) (d : Frame) : Frame :=
  {| f_airspeed := v; f_altitude := f_altitude d; f_heading := f_heading d; f_roll :=
  f_roll d; f_pitch := f_pitch d; f_throttle := f_throttle d; f_waypoint := f_waypoint d;
  f_safety_state := f_safety_state d; f_gps_ok := f_gps_ok d; f_imu_ok := f_imu_ok d;
  f_link_ok := f_link_ok d; f_motor_armed := f_motor_armed d; f_mode := f_mode d;
  f_battery := f_battery d |}.

Definition set_f_altitude (v : option float) (d : Frame) : Frame :=
  {| f_airspeed := f_airspeed d; f_altitude := v; f_heading := f_heading d; f_roll :=
  f_roll d; f_pitch := f_pitch d; f_throttle := f_throttle d; f_waypoint := f_waypoint d;
  f_safety_state := f_safety_state d; f_gps_ok := f_gps_ok d; f_imu_ok := f_imu_ok d;
  f_link_ok := f_link_ok d; f_motor_armed := f_motor_armed d; f_mode := f_mode d;
  f_battery := f_battery d |}.

Definition set_f_heading (v : option float) (d : Frame) : Frame :=
  {| f_airspeed := f_airspeed d; f_altitude := f_altitude d; f_heading := v; f_roll :=
  f_roll d; f_pitch := f_pitch d; f_throttle := f_throttle d; f_waypoint := f_waypoint d;
  f_safety_state := f_safety_state d; f_gps_ok := f_gps_ok d; f_imu_ok := f_imu_ok d;
  f_link_ok := f_link_ok d; f_motor_armed := f_motor_armed d; f_mode := f_mode d;
  f_battery := f_battery d |}.

Definition set_f_roll (v : option float) (d : Frame) : Frame :=
  {| f_airspeed := f_airspeed d; f_altitude := f_altitude d; f_heading := f_heading d;
  f_roll := v; f_pitch := f_pitch d; f_throttle := f_throttle d; f_waypoint := f_waypoint
  d; f_safety_state := f_safety_state d; f_gps_ok := f_gps_ok d; f_imu_ok := f_imu_ok d;
  f_link_ok := f_link_ok d; f_motor_armed := f_motor_armed d; f_mode := f_mode d;
  f_battery := f_battery d |}.

Definition set_f_pitch (v : option float) (d : Frame) : Frame :=
  {| f_airspeed := f_airspeed d; f_altitude := f_altitude d; f_heading := f_heading d;
  f_roll := f_roll d; f_pitch := v; f_throttle := f_throttle d; f_waypoint := f_waypoint
  d; f_safety_state := f_safety_state d; f_gps_ok := f_gps_ok d; f_imu_ok := f_imu_ok d;
  f_link_ok := f_link_ok d; f_motor_armed := f_motor_armed d; f_mode := f_mode d;
  f_battery := f_battery d |}.

Definition set_f_throttle (v : option Z) (d : Frame) : Frame :=
  {| f_airspeed := f_airspeed d; f_altitude := f_altitude d; f_heading := f_heading d;
  f_roll := f_roll d; f_pitch := f_pitch d; f_throttle := v; f_waypoint := f_waypoint d;
  f_safety_state := f_safety_state d; f_gps_ok := f_gps_ok d; f_imu_ok := f_imu_ok d;
  f_link_ok := f_link_ok d; f_motor_armed := f_motor_armed d; f_mode := f_mode d;
  f_battery := f_battery d |}.

Definition set_f_waypoint (v : option Z) (d : Frame) : Frame :=
  {| f_airspeed := f_airspeed d; f_altitude := f_altitude d; f_heading := f_heading d;
  f_roll := f_roll d; f_pitch := f_pitch d; f_throttle := f_throttle d; f_waypoint := v;
  f_safety_state := f_safety_state d; f_gps_ok := f_gps_ok d; f_imu_ok := f_imu_ok d;
  f_link_ok := f_link_ok d; f_motor_armed := f_motor_armed d; f_mode := f_mode d;
  f_battery := f_battery d |}.

Definition set_f_safety_state (v : option string) (d : Frame) : Frame :=
  {| f_airspeed := f_airspeed d; f_altitude := f_altitude d; f_heading := f_heading d;
  f_roll := f_roll d; f_pitch := f_pitch d; f_throttle := f_throttle d; f_waypoint :=
  f_waypoint d; f_safety_state := v; f_gps_ok := f_gps_ok d; f_imu_ok := f_imu_ok d;
  f_link_ok := f_link_ok d; f_motor_armed := f_motor_armed d; f_mode := f_mode d;
  f_battery := f_battery d |}.

Definition set_f_gps_ok (v : option bool) (d : Frame) : Frame :=
  {| f_airspeed := f_airspeed d; f_altitude := f_altitude d; f_heading := f_heading d;
  f_roll := f_roll d; f_pitch := f_pitch d; f_throttle := f_throttle d; f_waypoint :=
  f_waypoint d; f_safety_state := f_safety_state d; f_gps_ok := v; f_imu_ok := f_imu_ok d;
  f_link_ok := f_link_ok d; f_motor_armed := f_motor_armed d; f_mode := f_mode d;
  f_battery := f_battery d |}.

Definition set_f_imu_ok (v : option bool) (d : Frame) : Frame :=
  {| f_airspeed := f_airspeed d; f_altitude := f_altitude d; f_heading := f_heading d;
  f_roll := f_roll d; f_pitch := f_pitch d; f_throttle := f_throttle d; f_waypoint :=
  f_waypoint d; f_safety_state := f_safety_state d; f_gps_ok := f_gps_ok d; f_imu_ok := v;
  f_link_ok := f_link_ok d; f_motor_armed := f_motor_armed d; f_mode := f_mode d;
  f_battery := f_battery d |}.

Definition set_f_link_ok (v : option bool) (d : Frame) : Frame :=
  {| f_airspeed := f_airspeed d; f_altitude := f_altitude d; f_heading := f_heading d;
  f_roll := f_roll d; f_pitch := f_pitch d; f_throttle := f_throttle d; f_waypoint :=
  f_waypoint d; f_safety_state := f_safety_state d; f_gps_ok := f_gps_ok d; f_imu_ok :=
  f_imu_ok d; f_link_ok := v; f_motor_armed := f_motor_armed d; f_mode := f_mode d;
  f_battery := f_battery d |}.

Definition set_f_motor_armed (v : option bool) (d : Frame) : Frame :=
  {| f_airspeed := f_airspeed d; f_altitude := f_altitude d; f_heading := f_heading d;
  f_roll := f_roll d; f_pitch := f_pitch d; f_throttle := f_throttle d; f_waypoint :=
  f_waypoint d; f_safety_state := f_safety_state d; f_gps_ok := f_gps_ok d; f_imu_ok :=
  f_imu_ok d; f_link_ok := f_link_ok d; f_motor_armed := v; f_mode := f_mode d; f_battery
  := f_battery d |}.

Definition set_f_mode (v : option string) (d : Frame) : Frame :=
  {| f_airspeed := f_airspeed d; f_altitude := f_altitude d; f_heading := f_heading d;
  f_roll := f_roll d; f_pitch := f_pitch d; f_throttle := f_throttle d; f_waypoint :=
  f_waypoint d; f_safety_state := f_safety_state d; f_gps_ok := f_gps_ok d; f_imu_ok :=
  f_imu_ok d; f_link_ok := f_link_ok d; f_motor_armed := f_motor_armed d; f_mode := v;
  f_battery := f_battery d |}.

(** [data = {}]. *)
Definition empty_frame : Frame :=
  {| f_airspeed := None; f_altitude := None; f_heading := None; f_roll := None;
     f_pitch := None; f_throttle := None; f_waypoint := None; f_safety_state := None;
     f_gps_ok := None; f_imu_ok := None; f_link_ok := None; f_motor_armed := None;
     f_mode := None; f_battery := None |}.

Section Decoder.

Context `{Runtime}.

(** One turn of [for part in parts]: the body of the loop, with [parts] for
    the [len(parts) > 0] test and [parts[0]].  [":" in part] and
    [key, value = part.split(":", 1)] are one [str_split_first], and
    [len(roll_pitch) == 2] is the match on a two-element list. *)
Definition parse_part (parts : list string) (part : string) (data : Frame) : result Frame :=
  match str_split_first ":" part with
  | None => Ok data
  | Some (key, value) =>
      if key =? "AS" then
        v <- or_value_error (float_of_str value) ;;
        Ok (set_f_airspeed (Some v) data)
      else if key =? "Alt" then
        v <- or_value_error (float_of_str value) ;;
        Ok (set_f_altitude (Some v) data)
      else if key =? "Hdg" then
        v <- or_value_error (float_of_str value) ;;
        Ok (set_f_heading (Some v) data)
      else if key =? "Att" then
        match str_split "," value with
        | [r; p] =>
            roll <- or_value_error (float_of_str r) ;;
            let data := set_f_roll (Some roll) data in
            pitch <- or_value_error (float_of_str p) ;;
            Ok (set_f_pitch (Some pitch) data)
        | _ => Ok data
        end
      else if key =? "Thr" then
        v <- or_value_error (int_of_str value) ;;
        Ok (set_f_throttle (Some v) data)
      else if key =? "WP" then
        v <- or_value_error (int_of_str value) ;;
        Ok (set_f_waypoint (Some v) data)
      else if key =? "Saf" then
        Ok (set_f_safety_state (Some value) data)
      else if key =? "Sys" then
        let data := set_f_gps_ok (Some (str_contains "G" value)) data in
        let data := set_f_imu_ok (Some (str_contains "I" value)) data in
        let data := set_f_link_ok (Some (str_contains "L" value)) data in
        Ok (set_f_motor_armed (Some (str_contains "M" value)) data)
      else
        match parts with
        | first :: _ => Ok (set_f_mode (Some first) data)
        | [] => Ok data
        end
  end.

(** [for part in todo: ...], stopping at the first exception. *)
Fixpoint parse_parts (parts todo : list string) (data : Frame) : result Frame :=
  match todo with
  | [] => Ok data
  | part :: rest =>
      data <- parse_part parts part data ;;
      parse_parts parts rest data
  end.

(** The [try] block of [_parse_telemetry]: [Ok None] stands for falling out of
    the [if] without a [return]. *)
Definition parse_body (line : string) : result (option Frame) :=
  if String.prefix "SUM:" line then
    let parts := str_split "|" (str_drop 4 line) in
    data <- parse_parts parts parts empty_frame ;;
    Ok (Some data)
  else Ok None.

(** [_parse_telemetry(line)]: the dictionary, or [None]; the handler prints
    the exception and falls through to [return None]. *)
Definition _parse_telemetry (line : string) : result (option Frame) :=
  try_except (parse_body line) (fun _ => Ok None).

End Decoder.

(** [serial.Serial]: the device handle.  A handle is a true value. *)
Record Serial : Type := mkSerial {
  port : string;
  is_open : bool
}.

(** What a method does to its surroundings, in order. *)
Inductive effect : Type :=
| TimerStart (msec : Z)                          (* self.read_timer.start(msec) *)
| TimerStop                                      (* self.read_timer.stop() *)
| PortClose (name : string)                      (* self.serial_port.close() *)
| ConnectionStatus (connected : bool) (message : string).
                                                 (* self.connection_status.emit(..) *)

Record SerialCommunication : Type := mkSerialCommunication {
  serial_port : option Serial;
  current_port : string;
  read_timer_active : bool
}.

(** [__init__]. *)
Definition new_link : SerialCommunication :=
  {| serial_port := None; current_port := EmptyString; read_timer_active := false |}.

Definition is_connected (self : SerialCommunication) : bool :=
  match serial_port self with
  | Some p => is_open p
  | None => false
  end.

(** [disconnect()]: everything happens under [if self.serial_port:]. *)
Definition disconnect (self : SerialCommunication) : SerialCommunication * list effect :=
  match serial_port self with
  | Some p =>
      ({| serial_port := None; current_port := EmptyString; read_timer_active := false |},
       [TimerStop; PortClose (port p); ConnectionStatus false "Disconnected"])
  | None => (self, [])
  end.

(** [connect(port_name)]; [opened] is what [serial.Serial(...)] does: the
    message of the exception it raises, or nothing when the device opens. *)
Definition connect (port_name : string) (opened : option string) (self : SerialCommunication)
  : SerialCommunication * list effect * bool :=
  let '(self, closing) := if is_connected self then disconnect self else (self, []) in
  if (port_name =? EmptyString) || (port_name =? "No Connection") then (self, closing, false)
  else
    match opened with
    | None =>
        ({| serial_port := Some (mkSerial port_name true); current_port := port_name;
            read_timer_active := true |},
         (closing ++ [TimerStart 100; ConnectionStatus true ("Connected to " ++ port_name)])%list,
         true)
    | Some err =>
        (self, (closing ++ [ConnectionStatus false ("Failed to connect: " ++ err)])%list, false)
    end.

(** ** The head-up display: [class ModernHUD] *)

(** The attributes the modelled methods read or assign.  [flight_time] and
    [last_data_time] start as the [int] 0 and are only used in float
    arithmetic; they are floats here. *)
Record ModernHUD : Type := mkModernHUD {
  airspeed : float;
  altitude : float;
  heading : float;
  battery : float;
  mode : string;
  armed : bool;
  roll : float;
  pitch : float;
  gps_sats : Z;
  hdop : float;
  safety_state : string;
  throttle : Z;
  wind_speed : float;
  connection_status : string;
  last_data_time : float;
  data_timeout : float;
  rssi : Z;
  cpu_load : Z;
  memory_usage : Z;
  temperature : float;
  flight_time : float;
  distance_traveled : float;
  avg_speed : float;
  wind_direction : float;
  crosswind_component : float;
  headwind_component : float;
  ground_speed : float;
  max_speed : float;
  min_speed : float;
  total_energy : float;
  warnings : list string;
  critical_alerts : list string;
  smart_recommendations : list string;
  performance_tips : list string;
  system_status : list string
}.

(** [self.<attribute> = v]. *)

Definition set_airspeed (v : float) (self : ModernHUD) : ModernHUD :=
  {| airspeed := v; altitude := altitude self; heading := heading self; battery := battery
  self; mode := mode self; armed := armed self; roll := roll self; pitch := pitch self;
  gps_sats := gps_sats self; hdop := hdop self; safety_state := safety_state self;
  throttle := throttle self; wind_speed := wind_speed self; connection_status :=
  connection_status self; last_data_time := last_data_time self; data_timeout :=
  data_timeout self; rssi := rssi self; cpu_load := cpu_load self; memory_usage :=
  memory_usage self; temperature := temperature self; flight_time := flight_time self;
  distance_traveled := distance_traveled self; avg_speed := avg_speed self; wind_direction
  := wind_direction self; crosswind_component := crosswind_component self;
  headwind_component := headwind_component self; ground_speed := ground_speed self;
  max_speed := max_speed self; min_speed := min_speed self; total_energy := total_energy
  self; warnings := warnings self; critical_alerts := critical_alerts self;
  smart_recommendations := smart_recommendations self; performance_tips :=
  performance_tips self; system_status := system_status self |}.

Definition set_altitude (v : float) (self : ModernHUD) : ModernHUD :=
  {| airspeed := airspeed self; altitude := v; heading := heading self; battery := battery
  self; mode := mode self; armed := armed self; roll := roll self; pitch := pitch self;
  gps_sats := gps_sats self; hdop := hdop self; safety_state := safety_state self;
  throttle := throttle self; wind_speed := wind_speed self; connection_status :=
  connection_status self; last_data_time := last_data_time self; data_timeout :=
  data_timeout self; rssi := rssi self; cpu_load := cpu_load self; memory_usage :=
  memory_usage self; temperature := temperature self; flight_time := flight_time self;
  distance_traveled := distance_traveled self; avg_speed := avg_speed self; wind_direction
  := wind_direction self; crosswind_component := crosswind_component self;
  headwind_component := headwind_component self; ground_speed := ground_speed self;
  max_speed := max_speed self; min_speed := min_speed self; total_energy := total_energy
  self; warnings := warnings self; critical_alerts := critical_alerts self;
  smart_recommendations := smart_recommendations self; performance_tips :=
  performance_tips self; system_status := system_status self |}.

Definition set_heading (v : float) (self : ModernHUD) : ModernHUD :=
  {| airspeed := airspeed self; altitude := altitude self; heading := v; battery :=
  battery self; mode := mode self; armed := armed self; roll := roll self; pitch := pitch
  self; gps_sats := gps_sats self; hdop := hdop self; safety_state := safety_state self;
  throttle := throttle self; wind_speed := wind_speed self; connection_status :=
  connection_status self; last_data_time := last_data_time self; data_timeout :=
  data_timeout self; rssi := rssi self; cpu_load := cpu_load self; memory_usage :=
  memory_usage self; temperature := temperature self; flight_time := flight_time self;
  distance_traveled := distance_traveled self; avg_speed := avg_speed self; wind_direction
  := wind_direction self; crosswind_component := crosswind_component self;
  headwind_component := headwind_component self; ground_speed := ground_speed self;
  max_speed := max_speed self; min_speed := min_speed self; total_energy := total_energy
  self; warnings := warnings self; critical_alerts := critical_alerts self;
  smart_recommendations := smart_recommendations self; performance_tips :=
  performance_tips self; system_status := system_status self |}.

Definition set_battery (v : float) (self : ModernHUD) : ModernHUD :=
  {| airspeed := airspeed self; altitude := altitude self; heading := heading self;
  battery := v; mode := mode self; armed := armed self; roll := roll self; pitch := pitch
  self; gps_sats := gps_sats self; hdop := hdop self; safety_state := safety_state self;
  throttle := throttle self; wind_speed := wind_speed self; connection_status :=
  connection_status self; last_data_time := last_data_time self; data_timeout :=
  data_timeout self; rssi := rssi self; cpu_load := cpu_load self; memory_usage :=
  memory_usage self; temperature := temperature self; flight_time := flight_time self;
  distance_traveled := distance_traveled self; avg_speed := avg_speed self; wind_direction
  := wind_direction self; crosswind_component := crosswind_component self;
  headwind_component := headwind_component self; ground_speed := ground_speed self;
  max_speed := max_speed self; min_speed := min_speed self; total_energy := total_energy
  self; warnings := warnings self; critical_alerts := critical_alerts self;
  smart_recommendations := smart_recommendations self; performance_tips :=
  performance_tips self; system_status := system_status self |}.

Definition set_mode (v : string) (self : ModernHUD) : ModernHUD :=
  {| airspeed := airspeed self; altitude := altitude self; heading := heading self;
  battery := battery self; mode := v; armed := armed self; roll := roll self; pitch :=
  pitch self; gps_sats := gps_sats self; hdop := hdop self; safety_state := safety_state
  self; throttle := throttle self; wind_speed := wind_speed self; connection_status :=
  connection_status self; last_data_time := last_data_time self; data_timeout :=
  data_timeout self; rssi := rssi self; cpu_load := cpu_load self; memory_usage :=
  memory_usage self; temperature := temperature self; flight_time := flight_time self;
  distance_traveled := distance_traveled self; avg_speed := avg_speed self; wind_direction
  := wind_direction self; crosswind_component := crosswind_component self;
  headwind_component := headwind_component self; ground_speed := ground_speed self;
  max_speed := max_speed self; min_speed := min_speed self; total_energy := total_energy
  self; warnings := warnings self; critical_alerts := critical_alerts self;
  smart_recommendations := smart_recommendations self; performance_tips :=
  performance_tips self; system_status := system_status self |}.

Definition set_armed (v : bool) (self : ModernHUD) : ModernHUD :=
  {| airspeed := airspeed self; altitude := altitude self; heading := heading self;
  battery := battery self; mode := mode self; armed := v; roll := roll self; pitch :=
  pitch self; gps_sats := gps_sats self; hdop := hdop self; safety_state := safety_state
  self; throttle := throttle self; wind_speed := wind_speed self; connection_status :=
  connection_status self; last_data_time := last_data_time self; data_timeout :=
  data_timeout self; rssi := rssi self; cpu_load := cpu_load self; memory_usage :=
  memory_usage self; temperature := temperature self; flight_time := flight_time self;
  distance_traveled := distance_traveled self; avg_speed := avg_speed self; wind_direction
  := wind_direction self; crosswind_component := crosswind_component self;
  headwind_component := headwind_component self; ground_speed := ground_speed self;
  max_speed := max_speed self; min_speed := min_speed self; total_energy := total_energy
  self; warnings := warnings self; critical_alerts := critical_alerts self;
  smart_recommendations := smart_recommendations self; performance_tips :=
  performance_tips self; system_status := system_status self |}.

Definition set_roll (v : float) (self : ModernHUD) : ModernHUD :=
  {| airspeed := airspeed self; altitude := altitude self; heading := heading self;
  battery := battery self; mode := mode self; armed := armed self; roll := v; pitch :=
  pitch self; gps_sats := gps_sats self; hdop := hdop self; safety_state := safety_state
  self; throttle := throttle self; wind_speed := wind_speed self; connection_status :=
  connection_status self; last_data_time := last_data_time self; data_timeout :=
  data_timeout self; rssi := rssi self; cpu_load := cpu_load self; memory_usage :=
  memory_usage self; temperature := temperature self; flight_time := flight_time self;
  distance_traveled := distance_traveled self; avg_speed := avg_speed self; wind_direction
  := wind_direction self; crosswind_component := crosswind_component self;
  headwind_component := headwind_component self; ground_speed := ground_speed self;
  max_speed := max_speed self; min_speed := min_speed self; total_energy := total_energy
  self; warnings := warnings self; critical_alerts := critical_alerts self;
  smart_recommendations := smart_recommendations self; performance_tips :=
  performance_tips self; system_status := system_status self |}.

Definition set_pitch (v : float) (self : ModernHUD) : ModernHUD :=
  {| airspeed := airspeed self; altitude := altitude self; heading := heading self;
  battery := battery self; mode := mode self; armed := armed self; roll := roll self;
  pitch := v; gps_sats := gps_sats self; hdop := hdop self; safety_state := safety_state
  self; throttle := throttle self; wind_speed := wind_speed self; connection_status :=
  connection_status self; last_data_time := last_data_time self; data_timeout :=
  data_timeout self; rssi := rssi self; cpu_load := cpu_load self; memory_usage :=
  memory_usage self; temperature := temperature self; flight_time := flight_time self;
  distance_traveled := distance_traveled self; avg_speed := avg_speed self; wind_direction
  := wind_direction self; crosswind_component := crosswind_component self;
  headwind_component := headwind_component self; ground_speed := ground_speed self;
  max_speed := max_speed self; min_speed := min_speed self; total_energy := total_energy
  self; warnings := warnings self; critical_alerts := critical_alerts self;
  smart_recommendations := smart_recommendations self; performance_tips :=
  performance_tips self; system_status := system_status self |}.

Definition set_gps_sats (v : Z) (self : ModernHUD) : ModernHUD :=
  {| airspeed := airspeed self; altitude := altitude self; heading := heading self;
  battery := battery self; mode := mode self; armed := armed self; roll := roll self;
  pitch := pitch self; gps_sats := v; hdop := hdop self; safety_state := safety_state
  self; throttle := throttle self; wind_speed := wind_speed self; connection_status :=
  connection_status self; last_data_time := last_data_time self; data_timeout :=
  data_timeout self; rssi := rssi self; cpu_load := cpu_load self; memory_usage :=
  memory_usage self; temperature := temperature self; flight_time := flight_time self;
  distance_traveled := distance_traveled self; avg_speed := avg_speed self; wind_direction
  := wind_direction self; crosswind_component := crosswind_component self;
  headwind_component := headwind_component self; ground_speed := ground_speed self;
  max_speed := max_speed self; min_speed := min_speed self; total_energy := total_energy
  self; warnings := warnings self; critical_alerts := critical_alerts self;
  smart_recommendations := smart_recommendations self; performance_tips :=
  performance_tips self; system_status := system_status self |}.

Definition set_safety_state (v : string) (self : ModernHUD) : ModernHUD :=
  {| airspeed := airspeed self; altitude := altitude self; heading := heading self;
  battery := battery self; mode := mode self; armed := armed self; roll := roll self;
  pitch := pitch self; gps_sats := gps_sats self; hdop := hdop self; safety_state := v;
  throttle := throttle self; wind_speed := wind_speed self; connection_status :=
  connection_status self; last_data_time := last_data_time self; data_timeout :=
  data_timeout self; rssi := rssi self; cpu_load := cpu_load self; memory_usage :=
  memory_usage self; temperature := temperature self; flight_time := flight_time self;
  distance_traveled := distance_traveled self; avg_speed := avg_speed self; wind_direction
  := wind_direction self; crosswind_component := crosswind_component self;
  headwind_component := headwind_component self; ground_speed := ground_speed self;
  max_speed := max_speed self; min_speed := min_speed self; total_energy := total_energy
  self; warnings := warnings self; critical_alerts := critical_alerts self;
  smart_recommendations := smart_recommendations self; performance_tips :=
  performance_tips self; system_status := system_status self |}.

Definition set_throttle (v : Z) (self : ModernHUD) : ModernHUD :=
  {| airspeed := airspeed self; altitude := altitude self; heading := heading self;
  battery := battery self; mode := mode self; armed := armed self; roll := roll self;
  pitch := pitch self; gps_sats := gps_sats self; hdop := hdop self; safety_state :=
  safety_state self; throttle := v; wind_speed := wind_speed self; connection_status :=
  connection_status self; last_data_time := last_data_time self; data_timeout :=
  data_timeout self; rssi := rssi self; cpu_load := cpu_load self; memory_usage :=
  memory_usage self; temperature := temperature self; flight_time := flight_time self;
  distance_traveled := distance_traveled self; avg_speed := avg_speed self; wind_direction
  := wind_direction self; crosswind_component := crosswind_component self;
  headwind_component := headwind_component self; ground_speed := ground_speed self;
  max_speed := max_speed self; min_speed := min_speed self; total_energy := total_energy
  self; warnings := warnings self; critical_alerts := critical_alerts self;
  smart_recommendations := smart_recommendations self; performance_tips :=
  performance_tips self; system_status := system_status self |}.

Definition set_connection_status (v : string) (self : ModernHUD) : ModernHUD :=
  {| airspeed := airspeed self; altitude := altitude self; heading := heading self;
  battery := battery self; mode := mode self; armed := armed self; roll := roll self;
  pitch := pitch self; gps_sats := gps_sats self; hdop := hdop self; safety_state :=
  safety_state self; throttle := throttle self; wind_speed := wind_speed self;
  connection_status := v; last_data_time := last_data_time self; data_timeout :=
  data_timeout self; rssi := rssi self; cpu_load := cpu_load self; memory_usage :=
  memory_usage self; temperature := temperature self; flight_time := flight_time self;
  distance_traveled := distance_traveled self; avg_speed := avg_speed self; wind_direction
  := wind_direction self; crosswind_component := crosswind_component self;
  headwind_component := headwind_component self; ground_speed := ground_speed self;
  max_speed := max_speed self; min_speed := min_speed self; total_energy := total_energy
  self; warnings := warnings self; critical_alerts := critical_alerts self;
  smart_recommendations := smart_recommendations self; performance_tips :=
  performance_tips self; system_status := system_status self |}.

Definition set_last_data_time (v : float) (self : ModernHUD) : ModernHUD :=
  {| airspeed := airspeed self; altitude := altitude self; heading := heading self;
  battery := battery self; mode := mode self; armed := armed self; roll := roll self;
  pitch := pitch self; gps_sats := gps_sats self; hdop := hdop self; safety_state :=
  safety_state self; throttle := throttle self; wind_speed := wind_speed self;
  connection_status := connection_status self; last_data_time := v; data_timeout :=
  data_timeout self; rssi := rssi self; cpu_load := cpu_load self; memory_usage :=
  memory_usage self; temperature := temperature self; flight_time := flight_time self;
  distance_traveled := distance_traveled self; avg_speed := avg_speed self; wind_direction
  := wind_direction self; crosswind_component := crosswind_component self;
  headwind_component := headwind_component self; ground_speed := ground_speed self;
  max_speed := max_speed self; min_speed := min_speed self; total_energy := total_energy
  self; warnings := warnings self; critical_alerts := critical_alerts self;
  smart_recommendations := smart_recommendations self; performance_tips :=
  performance_tips self; system_status := system_status self |}.

Definition set_rssi (v : Z) (self : ModernHUD) : ModernHUD :=
  {| airspeed := airspeed self; altitude := altitude self; heading := heading self;
  battery := battery self; mode := mode self; armed := armed self; roll := roll self;
  pitch := pitch self; gps_sats := gps_sats self; hdop := hdop self; safety_state :=
  safety_state self; throttle := throttle self; wind_speed := wind_speed self;
  connection_status := connection_status self; last_data_time := last_data_time self;
  data_timeout := data_timeout self; rssi := v; cpu_load := cpu_load self; memory_usage :=
  memory_usage self; temperature := temperature self; flight_time := flight_time self;
  distance_traveled := distance_traveled self; avg_speed := avg_speed self; wind_direction
  := wind_direction self; crosswind_component := crosswind_component self;
  headwind_component := headwind_component self; ground_speed := ground_speed self;
  max_speed := max_speed self; min_speed := min_speed self; total_energy := total_energy
  self; warnings := warnings self; critical_alerts := critical_alerts self;
  smart_recommendations := smart_recommendations self; performance_tips :=
  performance_tips self; system_status := system_status self |}.

Definition set_cpu_load (v : Z) (self : ModernHUD) : ModernHUD :=
  {| airspeed := airspeed self; altitude := altitude self; heading := heading self;
  battery := battery self; mode := mode self; armed := armed self; roll := roll self;
  pitch := pitch self; gps_sats := gps_sats self; hdop := hdop self; safety_state :=
  safety_state self; throttle := throttle self; wind_speed := wind_speed self;
  connection_status := connection_status self; last_data_time := last_data_time self;
  data_timeout := data_timeout self; rssi := rssi self; cpu_load := v; memory_usage :=
  memory_usage self; temperature := temperature self; flight_time := flight_time self;
  distance_traveled := distance_traveled self; avg_speed := avg_speed self; wind_direction
  := wind_direction self; crosswind_component := crosswind_component self;
  headwind_component := headwind_component self; ground_speed := ground_speed self;
  max_speed := max_speed self; min_speed := min_speed self; total_energy := total_energy
  self; warnings := warnings self; critical_alerts := critical_alerts self;
  smart_recommendations := smart_recommendations self; performance_tips :=
  performance_tips self; system_status := system_status self |}.

Definition set_memory_usage (v : Z) (self : ModernHUD) : ModernHUD :=
  {| airspeed := airspeed self; altitude := altitude self; heading := heading self;
  battery := battery self; mode := mode self; armed := armed self; roll := roll self;
  pitch := pitch self; gps_sats := gps_sats self; hdop := hdop self; safety_state :=
  safety_state self; throttle := throttle self; wind_speed := wind_speed self;
  connection_status := connection_status self; last_data_time := last_data_time self;
  data_timeout := data_timeout self; rssi := rssi self; cpu_load := cpu_load self;
  memory_usage := v; temperature := temperature self; flight_time := flight_time self;
  distance_traveled := distance_traveled self; avg_speed := avg_speed self; wind_direction
  := wind_direction self; crosswind_component := crosswind_component self;
  headwind_component := headwind_component self; ground_speed := ground_speed self;
  max_speed := max_speed self; min_speed := min_speed self; total_energy := total_energy
  self; warnings := warnings self; critical_alerts := critical_alerts self;
  smart_recommendations := smart_recommendations self; performance_tips :=
  performance_tips self; system_status := system_status self |}.

Definition set_crosswind_component (v : float) (self : ModernHUD) : ModernHUD :=
  {| airspeed := airspeed self; altitude := altitude self; heading := heading self;
  battery := battery self; mode := mode self; armed := armed self; roll := roll self;
  pitch := pitch self; gps_sats := gps_sats self; hdop := hdop self; safety_state :=
  safety_state self; throttle := throttle self; wind_speed := wind_speed self;
  connection_status := connection_status self; last_data_time := last_data_time self;
  data_timeout := data_timeout self; rssi := rssi self; cpu_load := cpu_load self;
  memory_usage := memory_usage self; temperature := temperature self; flight_time :=
  flight_time self; distance_traveled := distance_traveled self; avg_speed := avg_speed
  self; wind_direction := wind_direction self; crosswind_component := v;
  headwind_component := headwind_component self; ground_speed := ground_speed self;
  max_speed := max_speed self; min_speed := min_speed self; total_energy := total_energy
  self; warnings := warnings self; critical_alerts := critical_alerts self;
  smart_recommendations := smart_recommendations self; performance_tips :=
  performance_tips self; system_status := system_status self |}.

Definition set_headwind_component (v : float) (self : ModernHUD) : ModernHUD :=
  {| airspeed := airspeed self; altitude := altitude self; heading := heading self;
  battery := battery self; mode := mode self; armed := armed self; roll := roll self;
  pitch := pitch self; gps_sats := gps_sats self; hdop := hdop self; safety_state :=
  safety_state self; throttle := throttle self; wind_speed := wind_speed self;
  connection_status := connection_status self; last_data_time := last_data_time self;
  data_timeout := data_timeout self; rssi := rssi self; cpu_load := cpu_load self;
  memory_usage := memory_usage self; temperature := temperature self; flight_time :=
  flight_time self; distance_traveled := distance_traveled self; avg_speed := avg_speed
  self; wind_direction := wind_direction self; crosswind_component := crosswind_component
  self; headwind_component := v; ground_speed := ground_speed self; max_speed := max_speed
  self; min_speed := min_speed self; total_energy := total_energy self; warnings :=
  warnings self; critical_alerts := critical_alerts self; smart_recommendations :=
  smart_recommendations self; performance_tips := performance_tips self; system_status :=
  system_status self |}.

Definition set_ground_speed (v : float) (self : ModernHUD) : ModernHUD :=
  {| airspeed := airspeed self; altitude := altitude self; heading := heading self;
  battery := battery self; mode := mode self; armed := armed self; roll := roll self;
  pitch := pitch self; gps_sats := gps_sats self; hdop := hdop self; safety_state :=
  safety_state self; throttle := throttle self; wind_speed := wind_speed self;
  connection_status := connection_status self; last_data_time := last_data_time self;
  data_timeout := data_timeout self; rssi := rssi self; cpu_load := cpu_load self;
  memory_usage := memory_usage self; temperature := temperature self; flight_time :=
  flight_time self; distance_traveled := distance_traveled self; avg_speed := avg_speed
  self; wind_direction := wind_direction self; crosswind_component := crosswind_component
  self; headwind_component := headwind_component self; ground_speed := v; max_speed :=
  max_speed self; min_speed := min_speed self; total_energy := total_energy self; warnings
  := warnings self; critical_alerts := critical_alerts self; smart_recommendations :=
  smart_recommendations self; performance_tips := performance_tips self; system_status :=
  system_status self |}.

Definition set_max_speed (v : float) (self : ModernHUD) : ModernHUD :=
  {| airspeed := airspeed self; altitude := altitude self; heading := heading self;
  battery := battery self; mode := mode self; armed := armed self; roll := roll self;
  pitch := pitch self; gps_sats := gps_sats self; hdop := hdop self; safety_state :=
  safety_state self; throttle := throttle self; wind_speed := wind_speed self;
  connection_status := connection_status self; last_data_time := last_data_time self;
  data_timeout := data_timeout self; rssi := rssi self; cpu_load := cpu_load self;
  memory_usage := memory_usage self; temperature := temperature self; flight_time :=
  flight_time self; distance_traveled := distance_traveled self; avg_speed := avg_speed
  self; wind_direction := wind_direction self; crosswind_component := crosswind_component
  self; headwind_component := headwind_component self; ground_speed := ground_speed self;
  max_speed := v; min_speed := min_speed self; total_energy := total_energy self; warnings
  := warnings self; critical_alerts := critical_alerts self; smart_recommendations :=
  smart_recommendations self; performance_tips := performance_tips self; system_status :=
  system_status self |}.

Definition set_min_speed (v : float) (self : ModernHUD) : ModernHUD :=
  {| airspeed := airspeed self; altitude := altitude self; heading := heading self;
  battery := battery self; mode := mode self; armed := armed self; roll := roll self;
  pitch := pitch self; gps_sats := gps_sats self; hdop := hdop self; safety_state :=
  safety_state self; throttle := throttle self; wind_speed := wind_speed self;
  connection_status := connection_status self; last_data_time := last_data_time self;
  data_timeout := data_timeout self; rssi := rssi self; cpu_load := cpu_load self;
  memory_usage := memory_usage self; temperature := temperature self; flight_time :=
  flight_time self; distance_traveled := distance_traveled self; avg_speed := avg_speed
  self; wind_direction := wind_direction self; crosswind_component := crosswind_component
  self; headwind_component := headwind_component self; ground_speed := ground_speed self;
  max_speed := max_speed self; min_speed := v; total_energy := total_energy self; warnings
  := warnings self; critical_alerts := critical_alerts self; smart_recommendations :=
  smart_recommendations self; performance_tips := performance_tips self; system_status :=
  system_status self |}.

Definition set_total_energy (v : float) (self : ModernHUD) : ModernHUD :=
  {| airspeed := airspeed self; altitude := altitude self; heading := heading self;
  battery := battery self; mode := mode self; armed := armed self; roll := roll self;
  pitch := pitch self; gps_sats := gps_sats self; hdop := hdop self; safety_state :=
  safety_state self; throttle := throttle self; wind_speed := wind_speed self;
  connection_status := connection_status self; last_data_time := last_data_time self;
  data_timeout := data_timeout self; rssi := rssi self; cpu_load := cpu_load self;
  memory_usage := memory_usage self; temperature := temperature self; flight_time :=
  flight_time self; distance_traveled := distance_traveled self; avg_speed := avg_speed
  self; wind_direction := wind_direction self; crosswind_component := crosswind_component
  self; headwind_component := headwind_component self; ground_speed := ground_speed self;
  max_speed := max_speed self; min_speed := min_speed self; total_energy := v; warnings :=
  warnings self; critical_alerts := critical_alerts self; smart_recommendations :=
  smart_recommendations self; performance_tips := performance_tips self; system_status :=
  system_status self |}.

Definition set_warnings (v : list string) (self : ModernHUD) : ModernHUD :=
  {| airspeed := airspeed self; altitude := altitude self; heading := heading self;
  battery := battery self; mode := mode self; armed := armed self; roll := roll self;
  pitch := pitch self; gps_sats := gps_sats self; hdop := hdop self; safety_state :=
  safety_state self; throttle := throttle self; wind_speed := wind_speed self;
  connection_status := connection_status self; last_data_time := last_data_time self;
  data_timeout := data_timeout self; rssi := rssi self; cpu_load := cpu_load self;
  memory_usage := memory_usage self; temperature := temperature self; flight_time :=
  flight_time self; distance_traveled := distance_traveled self; avg_speed := avg_speed
  self; wind_direction := wind_direction self; crosswind_component := crosswind_component
  self; headwind_component := headwind_component self; ground_speed := ground_speed self;
  max_speed := max_speed self; min_speed := min_speed self; total_energy := total_energy
  self; warnings := v; critical_alerts := critical_alerts self; smart_recommendations :=
  smart_recommendations self; performance_tips := performance_tips self; system_status :=
  system_status self |}.

Definition set_critical_alerts (v : list string) (self : ModernHUD) : ModernHUD :=
  {| airspeed := airspeed self; altitude := altitude self; heading := heading self;
  battery := battery self; mode := mode self; armed := armed self; roll := roll self;
  pitch := pitch self; gps_sats := gps_sats self; hdop := hdop self; safety_state :=
  safety_state self; throttle := throttle self; wind_speed := wind_speed self;
  connection_status := connection_status self; last_data_time := last_data_time self;
  data_timeout := data_timeout self; rssi := rssi self; cpu_load := cpu_load self;
  memory_usage := memory_usage self; temperature := temperature self; flight_time :=
  flight_time self; distance_traveled := distance_traveled self; avg_speed := avg_speed
  self; wind_direction := wind_direction self; crosswind_component := crosswind_component
  self; headwind_component := headwind_component self; ground_speed := ground_speed self;
  max_speed := max_speed self; min_speed := min_speed self; total_energy := total_energy
  self; warnings := warnings self; critical_alerts := v; smart_recommendations :=
  smart_recommendations self; performance_tips := performance_tips self; system_status :=
  system_status self |}.

Definition set_smart_recommendations (v : list string) (self : ModernHUD) : ModernHUD :=
  {| airspeed := airspeed self; altitude := altitude self; heading := heading self;
  battery := battery self; mode := mode self; armed := armed self; roll := roll self;
  pitch := pitch self; gps_sats := gps_sats self; hdop := hdop self; safety_state :=
  safety_state self; throttle := throttle self; wind_speed := wind_speed self;
  connection_status := connection_status self; last_data_time := last_data_time self;
  data_timeout := data_timeout self; rssi := rssi self; cpu_load := cpu_load self;
  memory_usage := memory_usage self; temperature := temperature self; flight_time :=
  flight_time self; distance_traveled := distance_traveled self; avg_speed := avg_speed
  self; wind_direction := wind_direction self; crosswind_component := crosswind_component
  self; headwind_component := headwind_component self; ground_speed := ground_speed self;
  max_speed := max_speed self; min_speed := min_speed self; total_energy := total_energy
  self; warnings := warnings self; critical_alerts := critical_alerts self;
  smart_recommendations := v; performance_tips := performance_tips self; system_status :=
  system_status self |}.

Definition set_performance_tips (v : list string) (self : ModernHUD) : ModernHUD :=
  {| airspeed := airspeed self; altitude := altitude self; heading := heading self;
  battery := battery self; mode := mode self; armed := armed self; roll := roll self;
  pitch := pitch self; gps_sats := gps_sats self; hdop := hdop self; safety_state :=
  safety_state self; throttle := throttle self; wind_speed := wind_speed self;
  connection_status := connection_status self; last_data_time := last_data_time self;
  data_timeout := data_timeout self; rssi := rssi self; cpu_load := cpu_load self;
  memory_usage := memory_usage self; temperature := temperature self; flight_time :=
  flight_time self; distance_traveled := distance_traveled self; avg_speed := avg_speed
  self; wind_direction := wind_direction self; crosswind_component := crosswind_component
  self; headwind_component := headwind_component self; ground_speed := ground_speed self;
  max_speed := max_speed self; min_speed := min_speed self; total_energy := total_energy
  self; warnings := warnings self; critical_alerts := critical_alerts self;
  smart_recommendations := smart_recommendations self; performance_tips := v;
  system_status := system_status self |}.

Definition set_system_status (v : list string) (self : ModernHUD) : ModernHUD :=
  {| airspeed := airspeed self; altitude := altitude self; heading := heading self;
  battery := battery self; mode := mode self; armed := armed self; roll := roll self;
  pitch := pitch self; gps_sats := gps_sats self; hdop := hdop self; safety_state :=
  safety_state self; throttle := throttle self; wind_speed := wind_speed self;
  connection_status := connection_status self; last_data_time := last_data_time self;
  data_timeout := data_timeout self; rssi := rssi self; cpu_load := cpu_load self;
  memory_usage := memory_usage self; temperature := temperature self; flight_time :=
  flight_time self; distance_traveled := distance_traveled self; avg_speed := avg_speed
  self; wind_direction := wind_direction self; crosswind_component := crosswind_component
  self; headwind_component := headwind_component self; ground_speed := ground_speed self;
  max_speed := max_speed self; min_speed := min_speed self; total_energy := total_energy
  self; warnings := warnings self; critical_alerts := critical_alerts self;
  smart_recommendations := smart_recommendations self; performance_tips :=
  performance_tips self; system_status := v |}.

Local Open Scope float_scope.

(** [__init__]. *)
Definition new_hud : ModernHUD :=
  {| airspeed := 0; altitude := 0; heading := 0; battery := 0; mode := "NO DATA";
     armed := false; roll := 0; pitch := 0; gps_sats := 0; hdop := 99;
     safety_state := "UNKNOWN"; throttle := 1000; wind_speed := 0;
     connection_status := "DISCONNECTED"; last_data_time := 0; data_timeout := 5;
     rssi := (-45); cpu_load := 15; memory_usage := 45; temperature := 25;
     flight_time := 0; distance_traveled := 0; avg_speed := 0;
     wind_direction := 270; crosswind_component := 0; headwind_component := 0;
     ground_speed := 0; max_speed := 0; min_speed := 999; total_energy := 0;
     warnings := []; critical_alerts := []; smart_recommendations := [];
     performance_tips := []; system_status := [] |}.

(** *** Methods: the object goes in, an outcome and the object come out *)

Definition M (A : Type) : Type := ModernHUD -> result A * ModernHUD.

Definition ret {A : Type} (a : A) : M A := fun self => (Ok a, self).

Definition mbind {A B : Type} (m : M A) (k : A -> M B) : M B :=
  fun self =>
    match m self with
    | (Ok a, self') => k a self'
    | (Raise e, self') => (Raise e, self')
    end.

(** Reading an expression over the attributes, one that may raise, and an
    assignment. *)
Definition get {A : Type} (f : ModernHUD -> A) : M A := fun self => (Ok (f self), self).
Definition try_get {A : Type} (f : ModernHUD -> result A) : M A := fun self => (f self, self).
Definition assign (f : ModernHUD -> ModernHUD) : M unit := fun self => (Ok tt, f self).

(** [if cond: body] and [if cond: a / else: b]. *)
Definition when (cond : ModernHUD -> bool) (body : M unit) : M unit :=
  fun self => if cond self then body self else (Ok tt, self).
Definition if_else (cond : ModernHUD -> bool) (a b : M unit) : M unit :=
  fun self => if cond self then a self else b self.

(** The outcome and the object a method leaves. *)
Definition outcome (m : M unit) (self : ModernHUD) : result unit := fst (m self).
Definition after (m : M unit) (self : ModernHUD) : ModernHUD := snd (m self).

Declare Scope hud_scope.
Notation "x <-- m ;; k" := (mbind m (fun x => k))
  (at level 61, m at next level, right associativity) : hud_scope.
Notation "m ;; k" := (mbind m (fun _ => k))
  (at level 61, right associativity) : hud_scope.
Local Open Scope hud_scope.

(** [self.<list>.append(msg)]. *)
Definition append_critical (msg : ModernHUD -> string) : M unit :=
  assign (fun self => set_critical_alerts (critical_alerts self ++ [msg self])%list self).
Definition append_warning (msg : ModernHUD -> string) : M unit :=
  assign (fun self => set_warnings (warnings self ++ [msg self])%list self).
Definition append_recommendation (msg : string) : M unit :=
  assign (fun self => set_smart_recommendations (smart_recommendations self ++ [msg])%list self).
Definition append_tip (msg : string) : M unit :=
  assign (fun self => set_performance_tips (performance_tips self ++ [msg])%list self).
Definition append_status (msg : ModernHUD -> string) : M unit :=
  assign (fun self => set_system_status (system_status self ++ [msg self])%list self).

(** [data.get(key, default)]. *)
Definition dict_get {A : Type} (entry : option A) (default : A) : A :=
  match entry with
  | Some v => v
  | None => default
  end.

(** The safety constants of [_analyze_real_data] and [_analyze_smart_telemetry]. *)
Definition CRITICAL_MIN_AIRSPEED : float := 28.
Definition STALL_WARNING_SPEED : float := 33.
Definition CRITICAL_MAX_AIRSPEED : float := 110.
Definition CRITICAL_MAX_ROLL : float := 30.
Definition GPS_MIN_SATELLITES : Z := 6.
Definition GPS_MAX_HDOP : float := 1.8.

(** The alert texts that do not depend on the state. *)
Definition NO_TELEMETRY : string := "🚨 NO TELEMETRY DATA - Check connection".
Definition GPS_CRITICAL : string := "🛰️ GPS CRITICAL: <4 sats - Manual control only".
Definition ATTITUDE_CRITICAL : string := "🔄 ATTITUDE CRITICAL: Roll limit exceeded".
Definition STALL_CRITICAL : string := "🚨 STALL CRITICAL: Speed below Vs - Recovery needed".

(** [any("GPS CRITICAL" in alert for alert in self.critical_alerts)]. *)
Definition any_gps_critical (self : ModernHUD) : bool :=
  existsb (str_contains "GPS CRITICAL") (critical_alerts self).

(** [_check_connection_status()], run every second; [now] is [time.time()]. *)
Definition _check_connection_status (now : float) : M unit :=
  if_else (fun self => fgt (now - last_data_time self) (data_timeout self))
    (assign (set_connection_status "NO DATA"))
    (assign (set_connection_status "RECEIVING")).

(** [_analyze_real_data()]. *)
Definition _analyze_real_data : M unit :=
  assign (set_warnings []) ;;
  assign (set_critical_alerts []) ;;
  if_else (fun self => String.eqb (connection_status self) "NO DATA")
    (append_critical (fun _ => NO_TELEMETRY))
    (if_else (fun self => flt (battery self) 15)
       (append_critical (fun self =>
          "🚨 CRITICAL BATTERY: " ++ format_fixed 0 (battery self) ++ "% - LAND NOW"))
       (when (fun self => flt (battery self) 25)
          (append_critical (fun self =>
             "⚠️ LOW BATTERY: " ++ format_fixed 0 (battery self) ++ "% - Plan landing"))) ;;
     when (fun self => (gps_sats self <? 4)%Z)
       (append_critical (fun _ => GPS_CRITICAL)) ;;
     when (fun self => fgt (abs (roll self)) CRITICAL_MAX_ROLL)
       (append_critical (fun _ => ATTITUDE_CRITICAL)) ;;
     when (fun self => fle (airspeed self) CRITICAL_MIN_AIRSPEED && armed self)
       (append_critical (fun _ => STALL_CRITICAL)) ;;
     when (fun self => (gps_sats self <? 6)%Z && negb (any_gps_critical self))
       (append_warning (fun self => "🛰️ GPS LIMITED: " ++ str_int (gps_sats self) ++ " sats")) ;;
     if_else (fun self => armed self && flt (airspeed self) STALL_WARNING_SPEED)
       (append_warning (fun _ => "🏃 SPEED LOW: Approaching stall"))
       (when (fun self => fgt (airspeed self) (CRITICAL_MAX_AIRSPEED * 0.9))
          (append_warning (fun _ => "⚡ SPEED HIGH: Approaching VNE"))) ;;
     if_else (fun self => fgt (altitude self) 350)
       (append_warning (fun _ => "📏 HIGH ALTITUDE: Check regulations"))
       (when (fun self => armed self && flt (altitude self) 3)
          (append_warning (fun _ => "⬇️ VERY LOW: Ground collision risk")))).

(** The lines of [_analyze_smart_telemetry] under
    [# System performance simulation (stable)]; [now] is [time.time()]. *)
Definition simulate_system_load `{Runtime} (now : float) : M unit :=
  let time_factor := now * 0.1 in
  s1 <-- try_get (fun _ => Py.sin time_factor) ;;
  load <-- try_get (fun _ => int_of_float (10 * s1)) ;;
  assign (set_cpu_load (25 + load)%Z) ;;
  s2 <-- try_get (fun _ => Py.sin (time_factor * 0.7)) ;;
  usage <-- try_get (fun _ => int_of_float (15 * s2)) ;;
  assign (set_memory_usage (50 + usage)%Z).

(** [_analyze_smart_telemetry()], block by block under the comments that head
    the blocks in the source.  The divisions cannot raise: no divisor is zero
    ([3.6], [3600.0], [60.0], and the two [max(..)] that are at least [0.01]
    and [1]). *)

(** The five [clear()] calls. *)
Definition clear_alerts : M unit :=
  assign (set_warnings []) ;;
  assign (set_critical_alerts []) ;;
  assign (set_smart_recommendations []) ;;
  assign (set_performance_tips []) ;;
  assign (set_system_status []).

(** [# Gelişmiş performans hesaplamaları]: the [if self.armed:] block. *)
Definition performance_calculations `{Runtime} (now : float) : M unit :=
  when armed
    (wind_angle <-- get (fun self => abs (heading self - wind_direction self)) ;;
     s <-- try_get (fun _ => Py.sin (radians wind_angle)) ;;
     assign (fun self => set_crosswind_component (wind_speed self * s) self) ;;
     c <-- try_get (fun _ => Py.cos (radians wind_angle)) ;;
     assign (fun self => set_headwind_component (wind_speed self * c) self) ;;
     assign (fun self =>
       set_ground_speed (fmax 0 (airspeed self - headwind_component self)) self) ;;
     let aircraft_mass := 5 in
     speed_squared <-- try_get (fun self => float_pow (airspeed self / 3.6) 2) ;;
     let kinetic_energy := 0.5 * aircraft_mass * speed_squared in
     potential_energy <-- get (fun self => aircraft_mass * 9.81 * altitude self) ;;
     assign (set_total_energy (kinetic_energy + potential_energy)) ;;
     when (fun self => fgt (airspeed self) (max_speed self))
       (assign (fun self => set_max_speed (airspeed self) self)) ;;
     when (fun self => flt (airspeed self) (min_speed self) && fgt (airspeed self) 5)
       (assign (fun self => set_min_speed (airspeed self) self)) ;;
     simulate_system_load now ;;
     let base_rssi := -45 in
     altitude_factor <-- get (fun self => altitude self * 0.1) ;;
     attitude_factor <-- get (fun self => abs (roll self) * 0.3) ;;
     signal <-- try_get (fun _ => int_of_float (base_rssi + altitude_factor - attitude_factor)) ;;
     assign (set_rssi signal) ;;
     assign (fun self => set_rssi (Z.max (-90) (Z.min (-30) (rssi self))) self)).

(** The texts of the battery alerts and of the satellite warning. *)
Definition critical_battery (remaining_time : Z) : string :=
  "🚨 CRITICAL BATTERY: " ++ str_int remaining_time ++ "min left - LAND NOW".
Definition low_battery (remaining_time : Z) : string :=
  "⚠️ LOW BATTERY: " ++ str_int remaining_time ++ "min - Plan landing".
Definition gps_limited (sats : Z) : string :=
  "🛰️ GPS LIMITED: " ++ str_int sats ++ " sats - Navigation degraded".

(** [# Kritik uyarılar]. *)
Definition critical_tier : M unit :=
  if_else (fun self => flt (battery self) 15)
    (remaining_time <-- try_get (fun self => int_of_float (battery self * 0.3)) ;;
     append_critical (fun _ => critical_battery remaining_time))
    (when (fun self => flt (battery self) 25)
       (remaining_time <-- try_get (fun self => int_of_float (battery self * 0.4)) ;;
        append_critical (fun _ => low_battery remaining_time))) ;;
  when (fun self => (gps_sats self <? 4)%Z)
    (append_critical (fun _ => GPS_CRITICAL)) ;;
  when (fun self => fgt (abs (roll self)) CRITICAL_MAX_ROLL)
    (append_critical (fun _ => ATTITUDE_CRITICAL)) ;;
  when (fun self => fle (airspeed self) CRITICAL_MIN_AIRSPEED && armed self)
    (append_critical (fun _ => STALL_CRITICAL)).

(** [# Normal uyarılar]. *)
Definition warning_tier : M unit :=
  when (fun self => (gps_sats self <? GPS_MIN_SATELLITES)%Z && negb (any_gps_critical self))
    (append_warning (fun self => gps_limited (gps_sats self))) ;;
  when (fun self => fgt (hdop self) GPS_MAX_HDOP)
    (append_warning (fun self => "📍 GPS ACCURACY LOW: HDOP " ++ format_fixed 1 (hdop self))) ;;
  if_else (fun self => armed self && flt (airspeed self) STALL_WARNING_SPEED)
    (append_warning (fun _ => "🏃 SPEED LOW: Approaching stall - Increase throttle"))
    (when (fun self => fgt (airspeed self) (CRITICAL_MAX_AIRSPEED * 0.9))
       (append_warning (fun _ => "⚡ SPEED HIGH: Approaching VNE - Reduce throttle"))) ;;
  if_else (fun self => fgt (altitude self) 350)
    (append_warning (fun _ => "📏 HIGH ALTITUDE: Check local regulations"))
    (when (fun self => armed self && flt (altitude self) 3)
       (append_warning (fun _ => "⬇️ VERY LOW: Ground collision risk"))) ;;
  when (fun self => fgt (abs (crosswind_component self)) 15)
    (append_warning (fun self =>
       "� STRONG CROSSWIND: " ++ format_fixed 0 (crosswind_component self) ++ " km/h")).

(** [# Akıllı öneriler]. *)
Definition recommendation_tier : M unit :=
  if_else (fun self => String.eqb (mode self) "ARMED"
                       && (List.length (critical_alerts self) =? 0)%nat)
    (append_recommendation "✅ Systems ready - Safe for takeoff")
    (if_else (fun self => String.eqb (mode self) "TAKEOFF" && fgt (altitude self) 30)
       (append_recommendation "🎯 Good climb - Consider waypoint navigation")
       (if_else (fun self => flt (battery self) 40 && fgt (altitude self) 80)
          (append_recommendation "🏠 Battery <40% - Consider RTL mode")
          (when (fun self => fgt (wind_speed self) 20)
             (append_recommendation "💨 High wind - Use auto-land for safer landing")))).

(** [# Performans ipuçları]. *)
Definition performance_tips_tier : M unit :=
  when armed
    (efficiency <-- get (fun self =>
       distance_traveled self / fmax 0.01 (flight_time self / 3600)
       / fmax 1 (100 - battery self) * 100) ;;
     if_else (fun _ => fgt efficiency 80)
       (append_tip "🌟 EXCELLENT flight efficiency")
       (when (fun _ => flt efficiency 40)
          (append_tip "💡 TIP: Smoother controls improve efficiency")) ;;
     when (fun self => fgt (avg_speed self) 0)
       (speed_efficiency <-- get (fun self => avg_speed self / 60 * 100) ;;
        if_else (fun _ => fgt speed_efficiency 90)
          (append_tip "⚡ Optimal cruise speed maintained")
          (when (fun _ => flt speed_efficiency 50)
             (append_tip "🎯 TIP: 50-70 km/h is most efficient")))).

(** [# Sistem durumu]. *)
Definition system_status_tier : M unit :=
  append_status (fun self =>
    let signal_strength :=
      if (rssi self >? -40)%Z then "EXCELLENT"
      else if (rssi self >? -60)%Z then "GOOD" else "WEAK" in
    "📡 Signal: " ++ signal_strength ++ " (" ++ str_int (rssi self) ++ " dBm)") ;;
  append_status (fun self =>
    let temp_status :=
      if flt 10 (temperature self) && flt (temperature self) 40 then "NORMAL"
      else "EXTREME" in
    "🌡️ Temp: " ++ temp_status ++ " (" ++ format_fixed 0 (temperature self) ++ "°C)") ;;
  append_status (fun self =>
    let cpu_status := if (cpu_load self <? 80)%Z then "NORMAL" else "HIGH" in
    "🖥️ CPU: " ++ cpu_status ++ " (" ++ str_int (cpu_load self) ++ "%)") ;;
  append_status (fun self =>
    let mem_status := if (memory_usage self <? 85)%Z then "NORMAL" else "HIGH" in
    "💾 Memory: " ++ mem_status ++ " (" ++ str_int (memory_usage self) ++ "%)").

(** [now] is what [time.time()] returns. *)
Definition _analyze_smart_telemetry `{Runtime} (now : float) : M unit :=
  clear_alerts ;;
  performance_calculations now ;;
  critical_tier ;;
  warning_tier ;;
  recommendation_tier ;;
  performance_tips_tier ;;
  system_status_tier.

(** [update_from_telemetry(data)]; [now] is what both calls of [time.time()]
    return.  The closing [self.update()] asks Qt for a repaint and is left out. *)
Definition update_from_telemetry `{Runtime} (now : float) (data : Frame) : M unit :=
  assign (set_last_data_time now) ;;
  assign (fun self => set_airspeed (dict_get (f_airspeed data) (airspeed self)) self) ;;
  assign (fun self => set_altitude (dict_get (f_altitude data) (altitude self)) self) ;;
  assign (fun self => set_heading (dict_get (f_heading data) (heading self)) self) ;;
  assign (fun self => set_battery (dict_get (f_battery data) (battery self)) self) ;;
  assign (fun self => set_mode (dict_get (f_mode data) (mode self)) self) ;;
  assign (fun self => set_armed (dict_get (f_motor_armed data) (armed self)) self) ;;
  assign (fun self => set_roll (dict_get (f_roll data) (roll self)) self) ;;
  assign (fun self => set_pitch (dict_get (f_pitch data) (pitch self)) self) ;;
  assign (fun self => set_throttle (dict_get (f_throttle data) (throttle self)) self) ;;
  assign (fun self =>
    set_safety_state (dict_get (f_safety_state data) (safety_state self)) self) ;;
  match f_gps_ok data with
  | Some ok => assign (set_gps_sats (if ok then 8 else 3)%Z)
  | None => ret tt
  end ;;
  _analyze_real_data ;;
  _analyze_smart_telemetry now.

(** ** A runtime for the worked examples

    The theorems below hold for every [Runtime].  The examples, witnesses and
    counterexamples run the model on this one: [float(str)] and [int(str)] on
    the ASCII decimal texts the examples use (a sign, digits and a fraction,
    and [nan] and [inf]; the quotient is the correctly rounded one), squaring
    for [x ** 2], the only power the program takes, and polynomials standing
    in for libm's [sin] and [cos] (close to them on the arguments the examples
    reach), on whose digits no statement depends. *)

Module Sample.

Definition digit_of (c : ascii) : option Z :=
  let n := Z.of_nat (nat_of_ascii c) in
  if ((48 <=? n) && (n <=? 57))%Z then Some (n - 48)%Z else None.

(** The number a run of digits writes, and how many digits there are. *)
Fixpoint digits_from (acc : Z) (count : nat) (s : string) : option (Z * nat) :=
  match s with
  | EmptyString => Some (acc, count)
  | String c rest =>
      match digit_of c with
      | Some d => digits_from (10 * acc + d)%Z (S count) rest
      | None => None
      end
  end.

Definition unsigned_int (s : string) : option Z :=
  match s with
  | EmptyString => None
  | _ => option_map fst (digits_from 0 0 s)
  end.

Definition signed {A : Type} (negate : A -> A) (read : string -> option A) (s : string)
  : option A :=
  match s with
  | String "-" rest => option_map negate (read rest)
  | String "+" rest => read rest
  | _ => read s
  end.

Definition int_of_str (s : string) : option Z := signed Z.opp unsigned_int s.

(** [num / 10 ^ decimals], rounded to the nearest binary64. *)
Definition decimal_to_float (num : Z) (decimals : nat) : float :=
  match num with
  | Zpos m =>
      SF2Prim (SFdiv prec emax (S754_finite false m 0)
                 (S754_finite false (Z.to_pos (10 ^ Z.of_nat decimals)) 0))
  | _ => 0%float
  end.

Definition unsigned_float (s : string) : option float :=
  if String.eqb s "nan" then Some nan
  else if String.eqb s "inf" || String.eqb s "infinity" then Some infinity
  else
    match str_split_first "." s with
    | None =>
        match unsigned_int s with
        | Some n => Some (decimal_to_float n 0)
        | None => None
        end
    | Some (whole, fraction) =>
        match whole, fraction with
        | EmptyString, EmptyString => None
        | _, _ =>
            match digits_from 0 0 whole with
            | Some (n, _) =>
                match digits_from n 0 fraction with
                | Some (num, count) => Some (decimal_to_float num count)
                | None => None
                end
            | None => None
            end
        end
    end.

Definition float_of_str (s : string) : option float :=
  signed PrimFloat.opp unsigned_float s.

Local Open Scope float_scope.

Definition float_pow (x y : float) : result float :=
  let r := x * x in
  if is_infinity r && is_finite x then Raise OverflowError else Ok r.

(** The argument brought within half a turn of zero, then the Maclaurin
    polynomials of degree 15 and 14. *)
Definition float_of_Z (z : Z) : float :=
  match z with
  | Z0 => 0
  | Zpos _ => of_uint63 (Uint63.of_Z z)
  | Zneg p => - of_uint63 (Uint63.of_Z (Zpos p))
  end.
Definition turn : float := 6.283185307179586.
Definition reduced (x : float) : float :=
  match int_of_float (x / turn + (if PrimFloat.ltb x 0 then -0.5 else 0.5)) with
  | Ok k => x - float_of_Z k * turn
  | Raise _ => x
  end.
Definition sin_poly (x : float) : float :=
  let x := reduced x in
  let x2 := x * x in
  x * (1 - x2 / 6 * (1 - x2 / 20 * (1 - x2 / 42 * (1 - x2 / 72 * (1 - x2 / 110 *
      (1 - x2 / 156 * (1 - x2 / 210))))))).
Definition cos_poly (x : float) : float :=
  let x := reduced x in
  let x2 := x * x in
  1 - x2 / 2 * (1 - x2 / 12 * (1 - x2 / 30 * (1 - x2 / 56 * (1 - x2 / 90 *
      (1 - x2 / 132 * (1 - x2 / 182)))))).

Definition runtime : Runtime :=
  {| Py.float_of_str := float_of_str;
     Py.int_of_str := int_of_str;
     Py.libm_sin := sin_poly;
     Py.libm_cos := cos_poly;
     Py.float_pow := float_pow |}.

End Sample.

(** ** What the claims speak of *)

(** A part of the line whose value the grammar of its key rejects by raising:
    a text [float()] refuses behind [AS], [Alt] or [Hdg], a text [int()]
    refuses behind [Thr] or [WP], or an [Att] of two components one of which
    [float()] refuses. *)
Definition rejected `{Runtime} (part : string) : Prop :=
  exists key value,
    str_split_first ":" part = Some (key, value) /\
    ((In key ["AS"; "Alt"; "Hdg"] /\ float_of_str value = None) \/
     (In key ["Thr"; "WP"] /\ int_of_str value = None) \/
     (key = "Att" /\ exists r p, str_split "," value = [r; p] /\
                                 (float_of_str r = None \/ float_of_str p = None))).

(** An [Att] part that does not have exactly two comma-separated components. *)
Definition wrong_arity (part : string) : Prop :=
  exists value,
    str_split_first ":" part = Some ("Att", value) /\
    List.length (str_split "," value) <> 2%nat.

(** The entries of the alert lists, told apart by the text they start with. *)
Definition is_gps_limited (alert : string) : bool :=
  String.prefix "🛰️ GPS LIMITED: " alert.
Definition is_low_battery (alert : string) : bool :=
  String.prefix "⚠️ LOW BATTERY: " alert.
Definition is_critical_battery (alert : string) : bool :=
  String.prefix "🚨 CRITICAL BATTERY: " alert.

(** The wall-clock readings on which the load simulation of the armed branch
    is defined: [int(10 * math.sin(t))] and [int(15 * math.sin(0.7 * t))] for
    [t = now * 0.1] both have a value, as they do for every finite [now] when
    [math.sin] stays within [-1, 1]. *)
Definition clock_ok `{Runtime} (now : float) : Prop :=
  (exists load, (s <- Py.sin (now * 0.1) ;; int_of_float (10 * s)) = Ok load) /\
  (exists usage, (s <- Py.sin (now * 0.1 * 0.7) ;; int_of_float (15 * s)) = Ok usage).

(** Two objects that differ at most in the simulated load figures and in the
    status lines that print them. *)
Definition forget_load (self : ModernHUD) : ModernHUD :=
  set_cpu_load 0 (set_memory_usage 0 (set_system_status [] self)).
Definition same_but_load (a b : ModernHUD) : Prop := forget_load a = forget_load b.


(** ** Reasoning about methods *)

(** [triple P m Q E]: started in a state of [P], the method [m] either returns
    [a] in a state of [Q a] or raises in a state of [E]. *)
Definition triple {A : Type} (P : ModernHUD -> Prop) (m : M A)
    (Q : A -> ModernHUD -> Prop) (E : ModernHUD -> Prop) : Prop :=
  forall self, P self ->
    match m self with
    | (Ok a, self') => Q a self'
    | (Raise _, self') => E self'
    end.

(** [related m1 m2]: on objects that differ at most in the load figures, the
    two methods have the same outcome and leave such objects. *)
Definition related {A : Type} (m1 m2 : M A) : Prop :=
  forall a b, same_but_load a b ->
    fst (m1 a) = fst (m2 b) /\ same_but_load (snd (m1 a)) (snd (m2 b)).

(** [keeps I E m]: [m] keeps the invariant [I], and raises only in a state of
    [E]. *)
Definition keeps {A : Type} (I E : ModernHUD -> Prop) (m : M A) : Prop :=
  triple I m (fun _ => I) E.

(** [stable I set]: the property [I] does not look at the attribute that
    [set] assigns. *)
Definition stable {V : Type} (I : ModernHUD -> Prop) (set : V -> ModernHUD -> ModernHUD)
  : Prop :=
  forall v self, I self -> I (set v self).

(** The attributes the armed block of [_analyze_smart_telemetry] assigns. *)
Definition ignores_performance (I : ModernHUD -> Prop) : Prop :=
  stable I set_crosswind_component /\ stable I set_headwind_component /\
  stable I set_ground_speed /\ stable I set_total_energy /\
  stable I set_max_speed /\ stable I set_min_speed /\
  stable I set_cpu_load /\ stable I set_memory_usage /\ stable I set_rssi.

(** The object after the five [clear()] calls. *)
Definition cleared (self : ModernHUD) : ModernHUD :=
  set_system_status [] (set_performance_tips [] (set_smart_recommendations []
    (set_critical_alerts [] (set_warnings [] self)))).

(** The object after the assignments that open [update_from_telemetry]. *)
Definition stored (now : float) (data : Frame) (self : ModernHUD) : ModernHUD :=
  let self := set_last_data_time now self in
  let self := set_airspeed (dict_get (f_airspeed data) (airspeed self)) self in
  let self := set_altitude (dict_get (f_altitude data) (altitude self)) self in
  let self := set_heading (dict_get (f_heading data) (heading self)) self in
  let self := set_battery (dict_get (f_battery data) (battery self)) self in
  let self := set_mode (dict_get (f_mode data) (mode self)) self in
  let self := set_armed (dict_get (f_motor_armed data) (armed self)) self in
  let self := set_roll (dict_get (f_roll data) (roll self)) self in
  let self := set_pitch (dict_get (f_pitch data) (pitch self)) self in
  let self := set_throttle (dict_get (f_throttle data) (throttle self)) self in
  let self := set_safety_state (dict_get (f_safety_state data) (safety_state self)) self in
  match f_gps_ok data with
  | Some ok => set_gps_sats (if ok then 8 else 3)%Z self
  | None => self
  end.

(** How the speed records of [self] stand to those of [before]: each is the
    old one, or the vehicle is armed and the record is the current airspeed,
    which beat the old record (and, for the minimum, exceeds 5 km/h). *)
Definition speed_records_follow (before self : ModernHUD) : Prop :=
  (max_speed self = max_speed before \/
   (armed self = true /\ max_speed self = airspeed self /\
    fgt (airspeed self) (max_speed before) = true)) /\
  (min_speed self = min_speed before \/
   (armed self = true /\ min_speed self = airspeed self /\
    flt (airspeed self) (min_speed before) = true /\ fgt (airspeed self) 5 = true)).

(** No entry of the warning list is a satellite warning, a battery alert. *)
Definition no_gps_limited (self : ModernHUD) : Prop :=
  forall alert, In alert (warnings self) -> is_gps_limited alert = false.
Definition no_battery_warning (self : ModernHUD) : Prop :=
  forall alert, In alert (warnings self) ->
    is_low_battery alert = false /\ is_critical_battery alert = false.

(** The critical list does not hold the no-telemetry alert. *)
Definition no_telemetry_free (self : ModernHUD) : Prop :=
  ~ In NO_TELEMETRY (critical_alerts self).


(** The critical list holds the low-battery alert for [battery * 0.4] minutes
    and no critical-battery alert. *)
Definition shows_low_battery (level : float) (self : ModernHUD) : Prop :=
  exists remaining_time,
    int_of_float (level * 0.4) = Ok remaining_time /\
    In (low_battery remaining_time) (critical_alerts self) /\
    forall alert, In alert (critical_alerts self) -> is_critical_battery alert = false.

(** With a satellite alert in the critical list, no satellite warning. *)
Definition suppressed (self : ModernHUD) : Prop :=
  any_gps_critical self = true -> no_gps_limited self.

(** ** Worked inputs *)

(** The frame of the line [SUM:AS:3|Sys:GILM]: armed, at 3 km/h. *)
Definition slow_armed_frame : Frame :=
  set_f_motor_armed (Some true) (set_f_link_ok (Some true) (set_f_imu_ok (Some true)
    (set_f_gps_ok (Some true) (set_f_airspeed (Some 3%float) empty_frame)))).

(** The frame of the line [SUM:AS:50.5|Alt:120]. *)
Definition cruise_frame : Frame :=
  set_f_altitude (Some 120%float) (set_f_airspeed (Some 50.5%float) empty_frame).

(** The frame of the line [SUM:Alt:nan|Sys:M]: armed, no GPS flag, and an
    altitude that is not a number. *)
Definition nan_altitude_frame : Frame :=
  set_f_motor_armed (Some true) (set_f_link_ok (Some false) (set_f_imu_ok (Some false)
    (set_f_gps_ok (Some false) (set_f_altitude (Some nan) empty_frame)))).

(** ** The rest of the serial link *)

(** What [send_command] and [_read_data] do to their surroundings. *)
Inductive io : Type :=
| PortWrite (text : string)                      (* self.serial_port.write(text.encode()) *)
| DataReceived (data : Frame)                    (* self.data_received.emit(data) *)
| Link (e : effect).                             (* what [effect] lists *)

(** The line feed that ends a command. *)
Definition newline : string := String "010" EmptyString.

(** [send_command(command)]; [written] is what [serial_port.write(...)] does:
    the message of the exception it raises, or nothing when the bytes go out.
    The bytes are [f"{command}\n".encode()]: the UTF-8 text a [string] is. *)
Definition send_command (command : string) (written : option string)
    (self : SerialCommunication) : bool * list io :=
  if is_connected self then
    match written with
    | None => (true, [PortWrite (command ++ newline)])
    | Some err => (false, [Link (ConnectionStatus false ("Send error: " ++ err))])
    end
  else (false, []).

(** What the port has for [_read_data]. *)
Inductive incoming : Type :=
| NothingWaiting                  (* in_waiting is 0 *)
| Line (text : string)            (* readline().decode('utf-8').strip() is text *)
| ReadFailed (message : string).  (* in_waiting, readline() or decode() raises *)

(** [not data]: the dictionary has no key. *)
Definition frame_is_empty (d : Frame) : bool :=
  match d with
  | mkFrame None None None None None None None None None None None None None None => true
  | _ => false
  end.

(** [_read_data()], run every 100 ms while the timer is active; [str_exn] is
    [str(e)] of an exception. *)
Definition _read_data `{Runtime} (str_exn : exn -> string) (input : incoming)
    (self : SerialCommunication) : list io :=
  if negb (is_connected self) then []
  else
    match input with
    | NothingWaiting => []
    | ReadFailed err => [Link (ConnectionStatus false ("Read error: " ++ err))]
    | Line line =>
        if String.eqb line EmptyString then []
        else
          match _parse_telemetry line with
          | Ok (Some telemetry_data) =>
              if frame_is_empty telemetry_data then [] else [DataReceived telemetry_data]
          | Ok None => []
          | Raise e => [Link (ConnectionStatus false ("Read error: " ++ str_exn e))]
          end
    end.

(** [MainWindow._on_port_changed(port_name)]: the link, what the link did and
    the message added to the chat. *)
Definition _on_port_changed (port_name : string) (opened : option string)
    (serial_comm : SerialCommunication) : SerialCommunication * list effect * string :=
  if String.eqb port_name "No Connection" then
    let '(serial_comm, effects) := disconnect serial_comm in
    (serial_comm, effects, "📡 Disconnected from COM port")
  else
    let '(serial_comm, effects, success) := connect port_name opened serial_comm in
    (serial_comm, effects,
     if success
     then "📡 Connected to " ++ port_name ++ " - Listening for AirDarwin telemetry"
     else "❌ Failed to connect to " ++ port_name).

(** A call of the link from outside, and a history of calls on a new link. *)
Inductive call : Type :=
| Connect (port_name : string) (opened : option string)
| Disconnect
| PortChanged (port_name : string) (opened : option string).

Definition run_call (self : SerialCommunication) (c : call) : SerialCommunication :=
  match c with
  | Connect port_name opened => fst (fst (connect port_name opened self))
  | Disconnect => fst (disconnect self)
  | PortChanged port_name opened => fst (fst (_on_port_changed port_name opened self))
  end.

Definition run_calls (calls : list call) : SerialCommunication :=
  fold_left run_call calls new_link.

(** The port, the port name and the read timer go together. *)
Definition consistent (self : SerialCommunication) : Prop :=
  match serial_port self with
  | Some p => is_open p = true /\ current_port self = port p /\ read_timer_active self = true
  | None => current_port self = EmptyString /\ read_timer_active self = false
  end.

(** ** The display: what [ModernHUD.paintEvent] draws of the lists *)

(** [header_text]. *)
Definition header_text (self : ModernHUD) : string :=
  match critical_alerts self, warnings self with
  | _ :: _, _ => "🚨 CRITICAL ALERTS"
  | [], _ :: _ => "⚠️ SYSTEM WARNINGS"
  | [], [] => "🧠 SMART TELEMETRY"
  end.

(** The critical alerts that are drawn: [self.critical_alerts[:2]]. *)
Definition drawn_critical_alerts (self : ModernHUD) : list string :=
  firstn 2 (critical_alerts self).

(** The warnings that are drawn, each before it is cut to 35 characters:
    [self.warnings[:3]] under [if self.warnings and not self.critical_alerts]. *)
Definition drawn_warnings (self : ModernHUD) : list string :=
  match critical_alerts self with
  | [] => firstn 3 (warnings self)
  | _ :: _ => []
  end.

(** ** The chat: [LocalLLM], [ModernComposer] and [MainWindow] *)

(** What the interpreter supplies for text: [s.strip()] and [s.lower()]. *)
Class Unicode : Type := {
  str_strip : string -> string;
  str_lower : string -> string
}.

(** [s.endswith(suffix)]. *)
Fixpoint str_ends_with (suffix s : string) : bool :=
  String.eqb s suffix
  || match s with
     | EmptyString => false
     | String _ rest => str_ends_with suffix rest
     end.

(** [any(word in text for word in words)]. *)
Definition any_word_in (words : list string) (text : string) : bool :=
  existsb (fun word => str_contains word text) words.

Definition quote : string := String "034" EmptyString.

(** [self.knowledge_base], each dictionary in the order it is written. *)
Definition flight_modes : list (string * string) :=
  [("ARMED", "Motor çalışıyor ama uçuş başlamadı. Güvenli konum.");
   ("TAKEOFF", "Kalkış modunda. Otomatik yükseliş.");
   ("CRUISE", "Normal uçuş modu. Waypoint navigasyon aktif.");
   ("LANDING", "İniş modu. Otomatik alçalış.");
   ("RTL", "Return to Launch - Ana üsse dönüş.");
   ("EMERGENCY", "Acil durum modu. İmha prosedürü aktif.")].
Definition safety_states : list (string * string) :=
  [("SAFE", "Güvenli durum. Normal operasyon.");
   ("CAUTION", "Dikkat gerektiren durum.");
   ("WARNING", "Uyarı durumu. Pilot müdahalesi öneriliyor.");
   ("CRITICAL", "Kritik durum. Acil müdahale gerekli.");
   ("EMERGENCY", "Acil durum. İmha prosedürü başlatılabilir.")].
Definition command_help : list (string * string) :=
  [("motor_on", "Motoru çalıştırır");
   ("motor_off", "Motoru durdurur");
   ("takeoff_start", "Kalkış prosedürünü başlatır");
   ("landing_start", "İniş prosedürünü başlatır");
   ("go_around", "İnişten vazgeç, yeniden tur at");
   ("reset", "Sistemi sıfırla")].

(** [LocalLLM._fallback_response(question)]: the three loops return at the
    first entry whose name is in the question, then the chain of keywords. *)
Definition _fallback_response `{Unicode} (question : string) : string :=
  let question_lower := str_lower question in
  match find (fun entry => str_contains (str_lower (fst entry)) question_lower) flight_modes with
  | Some (mode, description) => "🎯 " ++ mode ++ ": " ++ description
  | None =>
  match find (fun entry => str_contains (str_lower (fst entry)) question_lower)
             safety_states with
  | Some (state, description) => "🛡️ " ++ state ++ ": " ++ description
  | None =>
  match find (fun entry => str_contains (fst entry) question_lower) command_help with
  | Some (cmd, description) => "🎮 " ++ cmd ++ ": " ++ description
  | None =>
      if any_word_in ["battery"; "batarya"; "pil"] question_lower then
        "🔋 Batarya durumu: %20 altında acil iniş, %40 altında RTL öneriliyor."
      else if any_word_in ["gps"; "satellit"] question_lower then
        "🛰️ GPS: En az 6 uydu güvenli uçuş için gerekli. HDOP <1.8 olmalı."
      else if any_word_in ["speed"; "hız"; "airspeed"] question_lower then
        "🏃 Hız sınırları: Min 28 km/h (Vs), Max 110 km/h (VNE). Optimal: 50-70 km/h"
      else if any_word_in ["altitude"; "irtifa"; "yükseklik"] question_lower then
        "📏 İrtifa: Yasal limit 350m. Güvenli operasyon 50-200m arası."
      else if any_word_in ["wind"; "rüzgar"] question_lower then
        "💨 Rüzgar limitleri: Max 25 km/h genel, 15 km/h yan rüzgar."
      else if any_word_in ["emergency"; "acil"; "kritik"] question_lower then
        "🚨 Acil durumda: Motor durdur, RTL aktif et, manuel kontrol al."
      else
        "❓ AirDarwin hakkında daha spesifik soru sorabilirsiniz. Örnek: battery, gps, speed, altitude"
  end end end.

(** [ModernComposer]: the text of the input line and the completion state. *)
Record ModernComposer : Type := mkModernComposer {
  text_input : string;
  current_completion : string;
  completion_index : Z
}.

(** [self.commands]. *)
Definition commands : list string :=
  ["motor_on"; "motor_off"; "takeoff_start"; "landing_start"; "go_around"; "reset";
   "connect"; "disconnect"; "status"; "help"].

(** [l[i]]: counted from the end when [i] is negative, and no value
    ([IndexError]) out of range. *)
Definition list_index {A : Type} (l : list A) (i : Z) : option A :=
  let n := Z.of_nat (List.length l) in
  if (0 <=? i)%Z then nth_error l (Z.to_nat i)
  else if (- n <=? i)%Z then nth_error l (Z.to_nat (n + i))
  else None.

(** [_handle_tab_completion()]; no value when the indexing raises. *)
Definition _handle_tab_completion `{Unicode} (self : ModernComposer) : option ModernComposer :=
  let current_text := text_input self in
  if String.eqb current_text EmptyString then Some self
  else
    let matches := filter (String.prefix (str_lower current_text)) commands in
    match matches with
    | _ :: _ =>
        let self :=
          if negb (String.eqb (current_completion self) current_text)
          then {| text_input := text_input self; current_completion := current_text;
                  completion_index := 0 |}
          else {| text_input := text_input self;
                  current_completion := current_completion self;
                  completion_index :=
                    ((completion_index self + 1) mod Z.of_nat (List.length matches))%Z |} in
        match list_index matches (completion_index self) with
        | Some text =>
            Some {| text_input := text; current_completion := current_completion self;
                    completion_index := completion_index self |}
        | None => None
        end
    | [] =>
        Some {| text_input := text_input self; current_completion := EmptyString;
                completion_index := -1 |}
    end.

(** [airdarwin_commands], a dictionary that maps each command to itself. *)
Definition airdarwin_commands : list (string * string) :=
  [("motor_on", "motor_on"); ("motor_off", "motor_off");
   ("takeoff_start", "takeoff_start"); ("landing_start", "landing_start");
   ("go_around", "go_around"); ("reset", "reset")].

(** [d.get(key)] of a dictionary written as a list. *)
Definition dict_lookup {A : Type} (key : string) (d : list (string * A)) : option A :=
  option_map snd (find (fun entry => String.eqb key (fst entry)) d).

Definition help_text : string :=
  "� AirDarwin Ground Control Commands:" ++ newline ++ "� connect - Connect to AirDarwin" ++
  newline ++ "� disconnect - Disconnect from AirDarwin  " ++ newline ++
  "� status - Show connection status" ++ newline ++ "❓ help - Show this help" ++ newline ++
  newline ++ "🤖 AI Assistant: Herhangi bir teknik soru sorabilirsiniz!" ++ newline ++
  "Örnek: " ++ quote ++ "batarya durumu nedir?" ++ quote ++ ", " ++ quote ++
  "gps nasıl çalışır?" ++ quote ++ ", " ++ quote ++ "acil durumda ne yapmalı?" ++ quote ++
  newline.

(** [MainWindow._handle_user_message(message)]: the link, what went over it
    and the response that is added to the chat; [ask] is [self.llm.ask] and
    [written] what the port does with a write. *)
Definition _handle_user_message `{Unicode} (ask : string -> string) (message : string)
    (written : option string) (serial_comm : SerialCommunication)
  : SerialCommunication * list io * string :=
  let cmd := str_lower (str_strip message) in
  match dict_lookup cmd airdarwin_commands with
  | Some command =>
      if is_connected serial_comm then
        let '(success, traffic) := send_command command written serial_comm in
        (serial_comm, traffic,
         if success then "✅ Command '" ++ cmd ++ "' sent to AirDarwin autopilot"
         else "❌ Failed to send command '" ++ cmd ++ "'")
      else
        (serial_comm, [],
         "📡 Not connected - Select COM port to connect to AirDarwin first")
  | None =>
      if existsb (String.eqb cmd) ["connect"; "bağlan"] then
        (serial_comm, [],
         "📡 Select COM port from top-right selector to connect to AirDarwin")
      else if existsb (String.eqb cmd) ["disconnect"; "bağlantıyı kes"] then
        let '(serial_comm, effects) := disconnect serial_comm in
        (serial_comm, map Link effects, "📡 Disconnected from AirDarwin")
      else if existsb (String.eqb cmd) ["status"; "durum"] then
        (serial_comm, [],
         if is_connected serial_comm
         then "📡 Connected to " ++ current_port serial_comm ++ " - Receiving telemetry"
         else "📡 Not connected - Select COM port to connect")
      else if existsb (String.eqb cmd) ["help"; "yardım"] then
        (serial_comm, [], help_text)
      else if str_ends_with "?" (str_strip message)
              || any_word_in ["nedir"; "nasıl"; "ne"; "niye"; "hangi"; "kaç"] cmd then
        (serial_comm, [], ask message)
      else
        (serial_comm, [],
         "❓ Command '" ++ message
         ++ "' not recognized. Type 'help' for available commands or ask AI questions.")
  end.

(** A [Unicode] for the examples: [strip] and [lower] as they are on ASCII
    text. *)
Module AsciiText.

Definition is_space (c : ascii) : bool :=
  let n := nat_of_ascii c in
  ((9 <=? n) && (n <=? 13) || (28 <=? n) && (n <=? 32))%nat.

Fixpoint lstrip (s : string) : string :=
  match s with
  | String c rest => if is_space c then lstrip rest else s
  | EmptyString => EmptyString
  end.

Fixpoint rstrip (s : string) : string :=
  match s with
  | String c rest =>
      match rstrip rest with
      | EmptyString => if is_space c then EmptyString else String c EmptyString
      | kept => String c kept
      end
  | EmptyString => EmptyString
  end.

Definition lower_char (c : ascii) : ascii :=
  let n := nat_of_ascii c in
  if ((65 <=? n) && (n <=? 90))%nat then ascii_of_nat (n + 32) else c.

Fixpoint lower (s : string) : string :=
  match s with
  | String c rest => String (lower_char c) (lower rest)
  | EmptyString => EmptyString
  end.

Definition unicode : Unicode :=
  {| str_strip := fun s => rstrip (lstrip s); str_lower := lower |}.

End AsciiText.

(** [MainWindow._handle_telemetry_data(data)]: the outcome, the HUD, the
    attribute [_last_mode] (absent until it is first assigned) and the
    messages added to the chat. *)
Definition _handle_telemetry_data `{Runtime} (now : float) (data : Frame) (hud : ModernHUD)
    (_last_mode : option string)
  : result unit * ModernHUD * option string * list string :=
  match update_from_telemetry now data hud with
  | (Raise e, hud) => (Raise e, hud, _last_mode, [])
  | (Ok _, hud) =>
      match f_mode data with
      | Some mode =>
          if negb (String.eqb mode (dict_get _last_mode EmptyString))
          then (Ok tt, hud, Some mode, ["🎯 Flight mode changed to: " ++ mode])
          else (Ok tt, hud, _last_mode, [])
      | None => (Ok tt, hud, _last_mode, [])
      end
  end.

(** ** The typing of a message: [StreamingMessage] *)

(** A text is the list of its characters, whatever they are. *)
Record StreamingMessage (char : Type) : Type := mkStreamingMessage {
  full_text : list char;
  displayed_text : list char;
  char_index : Z;
  typing_timer_active : bool
}.

Arguments mkStreamingMessage {char}.
Arguments full_text {char}.
Arguments displayed_text {char}.
Arguments char_index {char}.
Arguments typing_timer_active {char}.

(** [s[:k]]: counted from the end when [k] is negative. *)
Definition slice_to {A : Type} (s : list A) (k : Z) : list A :=
  if (0 <=? k)%Z then firstn (Z.to_nat k) s
  else firstn (Z.to_nat (Z.of_nat (List.length s) + k)) s.

(** [__init__(text, is_user)]; the timer of a message that is not the user's
    is started by [_start_typing], 300 ms later. *)
Definition new_message {char : Type} (text : list char) (is_user : bool)
  : StreamingMessage char :=
  {| full_text := text; displayed_text := if is_user then text else [];
     char_index := 0; typing_timer_active := false |}.

Definition _start_typing {char : Type} (self : StreamingMessage char)
  : StreamingMessage char :=
  {| full_text := full_text self; displayed_text := displayed_text self;
     char_index := char_index self; typing_timer_active := true |}.

(** [_type_next_char()], run every 40 ms while the timer is active. *)
Definition _type_next_char {char : Type} (self : StreamingMessage char)
  : StreamingMessage char :=
  if (char_index self <? Z.of_nat (List.length (full_text self)))%Z then
    {| full_text := full_text self;
       displayed_text := slice_to (full_text self) (char_index self + 1);
       char_index := (char_index self + 1)%Z;
       typing_timer_active := typing_timer_active self |}
  else
    {| full_text := full_text self; displayed_text := displayed_text self;
       char_index := char_index self; typing_timer_active := false |}.

(** ** The calls the timers and the link make on the HUD *)

(** The status timer calls [_check_connection_status] and a frame of the link
    calls [update_from_telemetry]; each call leaves the object as it is when
    the call returns or raises. *)
Inductive hud_call : Type :=
| Tick (now : float)
| Telemetry (now : float) (data : Frame).

Definition run_hud_call `{Runtime} (self : ModernHUD) (c : hud_call) : ModernHUD :=
  match c with
  | Tick now => after (_check_connection_status now) self
  | Telemetry now data => after (update_from_telemetry now data) self
  end.

Definition run_hud_calls `{Runtime} (calls : list hud_call) : ModernHUD :=
  fold_left run_hud_call calls new_hud.

(** The recommendation that clears the vehicle for takeoff. *)
Definition SYSTEMS_READY : string := "✅ Systems ready - Safe for takeoff".

(** ** What the further properties speak of *)

(** A part with a colon whose key is none of the eight the decoder knows: the
    parts that reach the last [elif] of the loop. *)
Definition known_keys : list string := ["AS"; "Alt"; "Hdg"; "Att"; "Thr"; "WP"; "Saf"; "Sys"].
Definition unknown_key (part : string) : bool :=
  match str_split_first ":" part with
  | Some (key, _) => negb (existsb (String.eqb key) known_keys)
  | None => false
  end.

(** [reads parts key read v]: some part of the line has the key [key] and a
    value that [read] turns into [v]. *)
Definition reads {A : Type} (parts : list string) (key : string)
    (read : string -> option A) (v : A) : Prop :=
  exists part value,
    In part parts /\ str_split_first ":" part = Some (key, value) /\ read value = Some v.

(** The two components of an [Att] value. *)
Definition roll_of `{Runtime} (value : string) : option float :=
  match str_split "," value with
  | [r; _] => float_of_str r
  | _ => None
  end.
Definition pitch_of `{Runtime} (value : string) : option float :=
  match str_split "," value with
  | [_; p] => float_of_str p
  | _ => None
  end.

(** * Properties *)

(** ** The decoder *)

Section DecoderFacts.

Context `{Runtime}.

Lemma try_except_returns {A : Type} (body : result (option A)) :
  exists r, try_except body (fun _ => Ok None) = Ok r.
Proof.
  destruct body as [r | e]; simpl; eauto.
Qed.

Lemma parse_body_without_prefix (line : string) :
  String.prefix "SUM:" line = false -> parse_body line = Ok None.
Proof.
  intros Hprefix. unfold parse_body. rewrite Hprefix. reflexivity.
Qed.

(** A part with a rejected value raises, whatever was decoded before it. *)
Lemma rejected_raises (parts : list string) (part : string) (data : Frame) :
  rejected part -> parse_part parts part data = Raise ValueError.
Proof.
  intros (key & value & Hsplit & Hcase). unfold parse_part. rewrite Hsplit.
  destruct Hcase as [[Hkey Hval] | [[Hkey Hval] | (Hkey & r & p & Hrp & Hval)]].
  - simpl in Hkey. destruct Hkey as [<- | [<- | [<- | []]]]; simpl;
      rewrite Hval; reflexivity.
  - simpl in Hkey. destruct Hkey as [<- | [<- | []]]; simpl;
      rewrite Hval; reflexivity.
  - subst key. simpl. rewrite Hrp.
    destruct Hval as [Hr | Hp].
    + rewrite Hr. reflexivity.
    + destruct (float_of_str r); simpl; [rewrite Hp|]; reflexivity.
Qed.

(** The loop stops at the first part that raises. *)
Lemma parse_parts_raises (parts todo : list string) (part : string) :
  In part todo -> rejected part ->
  forall data, exists e, parse_parts parts todo data = Raise e.
Proof.
  intros Hin Hrej. induction todo as [| p rest IH]; intros data; [destruct Hin |].
  simpl. destruct Hin as [-> | Hin].
  - rewrite rejected_raises by assumption. simpl. eauto.
  - destruct (parse_part parts p data) as [d | e]; simpl; eauto.
Qed.

(** An [Att] of the wrong arity leaves the dictionary as it is. *)
Lemma wrong_arity_skipped (parts : list string) (part : string) (data : Frame) :
  wrong_arity part -> parse_part parts part data = Ok data.
Proof.
  intros (value & Hsplit & Hlen). unfold parse_part. rewrite Hsplit. simpl.
  destruct (str_split "," value) as [| r [| p [| q rest]]]; try reflexivity.
  exfalso. apply Hlen. reflexivity.
Qed.

Lemma parse_parts_skips (parts before after : list string) (part : string) (data : Frame) :
  wrong_arity part ->
  parse_parts parts (before ++ part :: after) data = parse_parts parts (before ++ after) data.
Proof.
  intros Hwrong. revert data. induction before as [| p rest IH]; intros data; simpl.
  - rewrite wrong_arity_skipped by assumption. reflexivity.
  - destruct (parse_part parts p data) as [d | e]; simpl; [apply IH | reflexivity].
Qed.

(** C8.  The decoder never raises: for every line of text
    [_parse_telemetry] returns, a frame or nothing; and for every line that
    does not begin with the prefix [SUM:] it returns nothing. *)
Theorem parse_telemetry_never_raises (line : string) :
  (exists r, _parse_telemetry line = Ok r) /\
  (String.prefix "SUM:" line = false -> _parse_telemetry line = Ok None).
Proof.
  split.
  - apply try_except_returns.
  - intros Hprefix. unfold _parse_telemetry.
    rewrite parse_body_without_prefix by assumption. reflexivity.
Qed.

(** C2, as the code has it.  On a line with the prefix, a part whose value is
    rejected ([float()] or [int()] raises: a non-numeric text behind [AS],
    [Alt], [Hdg], [Thr] or [WP], or a non-numeric component of a two-part
    [Att]) makes the decoder return nothing for the whole line, whatever the
    other parts hold; an [Att] part of the wrong arity is dropped alone: the
    frame is the one the other parts of the line give, the first part of the
    whole line still being the one a mode is read from. *)
Theorem rejected_value_drops_line_wrong_arity_drops_field (line : string) :
  String.prefix "SUM:" line = true ->
  (forall part,
      In part (str_split "|" (str_drop 4 line)) -> rejected part ->
      _parse_telemetry line = Ok None) /\
  (forall before part after,
      str_split "|" (str_drop 4 line) = (before ++ part :: after)%list ->
      wrong_arity part ->
      _parse_telemetry line =
      try_except (data <- parse_parts (before ++ part :: after) (before ++ after) empty_frame ;;
                  Ok (Some data))
                 (fun _ => Ok None)).
Proof.
  intros Hprefix. split.
  - intros part Hin Hrej. unfold _parse_telemetry, parse_body. rewrite Hprefix.
    destruct (parse_parts_raises (str_split "|" (str_drop 4 line)) _ part Hin Hrej empty_frame)
      as [e He].
    rewrite He. reflexivity.
  - intros before part after Hparts Hwrong. unfold _parse_telemetry, parse_body.
    rewrite Hprefix, Hparts. rewrite parse_parts_skips by assumption. reflexivity.
Qed.

End DecoderFacts.

(** The worked lines, decoded on the sample runtime. *)

Lemma scenario_1_decodes :
  @_parse_telemetry Sample.runtime "SUM:AS:50.5|Alt:120|Hdg:180|Att:2,-1|Thr:1500|Saf:SAFE"
  = Ok (Some (set_f_safety_state (Some "SAFE")
        (set_f_throttle (Some 1500%Z)
        (set_f_pitch (Some (-1)%float)
        (set_f_roll (Some 2%float)
        (set_f_heading (Some 180%float)
        (set_f_altitude (Some 120%float)
        (set_f_airspeed (Some 50.5%float) empty_frame)))))))).
Proof. vm_compute. reflexivity. Qed.

Lemma parse_telemetry_never_raises_witness :
  String.prefix "SUM:" "Alt:120|Hdg:180" = false /\
  @_parse_telemetry Sample.runtime "Alt:120|Hdg:180" = Ok None.
Proof.
  split; [reflexivity |].
  apply (proj2 (@parse_telemetry_never_raises Sample.runtime "Alt:120|Hdg:180")).
  reflexivity.
Defined.

(** C2 as stated fails: [AS] has a non-numeric value and [Alt] a valid one,
    and the decoder returns no frame at all, so the altitude is lost with the
    airspeed. *)
Lemma non_numeric_airspeed_loses_altitude :
  Sample.float_of_str "abc" = None /\
  Sample.float_of_str "120" = Some 120%float /\
  @_parse_telemetry Sample.runtime "SUM:AS:abc|Alt:120" = Ok None.
Proof. vm_compute. repeat split. Qed.

Lemma rejected_value_drops_line_wrong_arity_drops_field_witness :
  @_parse_telemetry Sample.runtime "SUM:Alt:120|Thr:fast|Hdg:180" = Ok None /\
  @_parse_telemetry Sample.runtime "SUM:Alt:120|Att:2|Hdg:180"
  = Ok (Some (set_f_heading (Some 180%float)
             (set_f_altitude (Some 120%float) empty_frame))).
Proof.
  pose proof (@rejected_value_drops_line_wrong_arity_drops_field Sample.runtime
                "SUM:Alt:120|Thr:fast|Hdg:180" eq_refl) as [Hdrop _].
  pose proof (@rejected_value_drops_line_wrong_arity_drops_field Sample.runtime
                "SUM:Alt:120|Att:2|Hdg:180" eq_refl) as [_ Hskip].
  split.
  - apply (Hdrop "Thr:fast").
    + vm_compute. auto.
    + exists "Thr", "fast". split; [reflexivity |].
      right. left. split; [simpl; auto | reflexivity].
  - rewrite (Hskip ["Alt:120"] "Att:2" ["Hdg:180"]).
    + vm_compute. reflexivity.
    + reflexivity.
    + exists "2". split; [reflexivity | vm_compute; discriminate].
Defined.

(** C3: the decoder reads a mode only when some later part has a key it does
    not know.  A line whose first part is the mode and whose other parts are
    all known keys gives a frame without a mode; one unknown key later in the
    line makes the same first part the mode. *)
Lemma mode_token_not_decoded :
  (exists data,
      @_parse_telemetry Sample.runtime "SUM:MANUAL|AS:50.5|Alt:120" = Ok (Some data) /\
      f_mode data = None /\ f_airspeed data = Some 50.5%float /\
      f_altitude data = Some 120%float) /\
  (exists data,
      @_parse_telemetry Sample.runtime "SUM:MANUAL|AS:50.5|Foo:1" = Ok (Some data) /\
      f_mode data = Some "MANUAL").
Proof.
  split; eexists; (split; [vm_compute; reflexivity |]); simpl; repeat split.
Qed.

(** ** The serial link *)

Lemma disconnect_when_open (self : SerialCommunication) (p : Serial) :
  serial_port self = Some p ->
  disconnect self
  = (new_link, [TimerStop; PortClose (port p); ConnectionStatus false "Disconnected"]).
Proof.
  intros Hport. unfold disconnect. rewrite Hport. reflexivity.
Qed.

Lemma disconnect_when_closed (self : SerialCommunication) :
  serial_port self = None -> disconnect self = (self, []).
Proof.
  intros Hport. unfold disconnect. rewrite Hport. reflexivity.
Qed.

(** C9, as the code has it.  [disconnect()] is idempotent: a second call
    changes nothing and has no effect.  With a port held it stops the read
    timer, closes the port, forgets it and emits one status change, in that
    order; called with no port held (already disconnected) it does nothing at
    all: it emits no status change. *)
Theorem disconnect_idempotent_and_guarded (self : SerialCommunication) :
  (disconnect (fst (disconnect self)) = (fst (disconnect self), [])) /\
  serial_port (fst (disconnect self)) = None /\
  is_connected (fst (disconnect self)) = false /\
  (forall p, serial_port self = Some p ->
     fst (disconnect self) = new_link /\
     snd (disconnect self)
     = [TimerStop; PortClose (port p); ConnectionStatus false "Disconnected"]) /\
  (serial_port self = None ->
     fst (disconnect self) = self /\ snd (disconnect self) = []).
Proof.
  destruct (serial_port self) as [p |] eqn:Hport.
  - rewrite (disconnect_when_open self p Hport). simpl.
    split; [reflexivity |]. split; [reflexivity |]. split; [reflexivity |]. split.
    + intros q Hq. injection Hq as <-. split; reflexivity.
    + discriminate.
  - rewrite (disconnect_when_closed self Hport). simpl.
    rewrite (disconnect_when_closed self Hport).
    unfold is_connected. rewrite Hport.
    split; [reflexivity |]. split; [reflexivity |]. split; [reflexivity |]. split.
    + discriminate.
    + intros _. split; reflexivity.
Qed.

(** C9 as stated fails: on a link that was never connected the call emits
    nothing, so not every call emits a status change. *)
Lemma disconnect_while_disconnected_is_silent :
  serial_port new_link = None /\
  snd (disconnect new_link) = [] /\
  ~ In (ConnectionStatus false "Disconnected") (snd (disconnect new_link)).
Proof.
  repeat split. simpl. intros [].
Qed.

Lemma disconnect_idempotent_and_guarded_witness :
  let '(link, _, _) := connect "COM3" None new_link in
  serial_port link = Some (mkSerial "COM3" true) /\
  disconnect link
  = (new_link, [TimerStop; PortClose "COM3"; ConnectionStatus false "Disconnected"]) /\
  disconnect new_link = (new_link, []).
Proof.
  simpl.
  pose proof (disconnect_idempotent_and_guarded
                {| serial_port := Some (mkSerial "COM3" true); current_port := "COM3";
                   read_timer_active := true |}) as (_ & _ & _ & Hopen & _).
  pose proof (disconnect_idempotent_and_guarded new_link) as (_ & _ & _ & _ & Hclosed).
  destruct (Hopen _ eq_refl) as [Hstate Heffects].
  destruct (Hclosed eq_refl) as [Hsame Hnone].
  split; [reflexivity |]. split.
  - rewrite (surjective_pairing (disconnect _)). rewrite Hstate, Heffects. reflexivity.
  - rewrite (surjective_pairing (disconnect new_link)). rewrite Hsame, Hnone. reflexivity.
Defined.

(** ** The rules of the method logic *)

Section Rules.

Context {A : Type}.
Variables (P : ModernHUD -> Prop) (E : ModernHUD -> Prop).

Lemma triple_ret (a : A) (Q : A -> ModernHUD -> Prop) :
  (forall self, P self -> Q a self) -> triple P (ret a) Q E.
Proof. intros HQ self HP. simpl. auto. Qed.

Lemma triple_get (f : ModernHUD -> A) (Q : A -> ModernHUD -> Prop) :
  (forall self, P self -> Q (f self) self) -> triple P (get f) Q E.
Proof. intros HQ self HP. simpl. auto. Qed.

Lemma triple_try_get (f : ModernHUD -> result A) (Q : A -> ModernHUD -> Prop) :
  (forall self, P self -> match f self with Ok a => Q a self | Raise _ => E self end) ->
  triple P (try_get f) Q E.
Proof.
  intros HQ self HP. unfold try_get. specialize (HQ self HP).
  destruct (f self); assumption.
Qed.

Lemma triple_bind {B : Type} (m : M A) (k : A -> M B)
    (Qm : A -> ModernHUD -> Prop) (Q : B -> ModernHUD -> Prop) :
  triple P m Qm E -> (forall a, triple (Qm a) (k a) Q E) -> triple P (mbind m k) Q E.
Proof.
  intros Hm Hk self HP. unfold mbind. specialize (Hm self HP).
  destruct (m self) as [[a | e] self']; [apply Hk |]; assumption.
Qed.

Lemma triple_consequence (P' E' : ModernHUD -> Prop) (m : M A)
    (Q Q' : A -> ModernHUD -> Prop) :
  triple P' m Q' E' ->
  (forall self, P self -> P' self) ->
  (forall a self, Q' a self -> Q a self) ->
  (forall self, E' self -> E self) ->
  triple P m Q E.
Proof.
  intros Hm HP HQ HE self Hself. specialize (Hm self (HP self Hself)).
  destruct (m self) as [[a | e] self']; auto.
Qed.

End Rules.

Section UnitRules.

Variables (P : ModernHUD -> Prop) (Q : unit -> ModernHUD -> Prop) (E : ModernHUD -> Prop).

Lemma triple_assign (f : ModernHUD -> ModernHUD) :
  (forall self, P self -> Q tt (f self)) -> triple P (assign f) Q E.
Proof. intros HQ self HP. simpl. auto. Qed.

Lemma triple_when (cond : ModernHUD -> bool) (body : M unit) :
  triple (fun self => P self /\ cond self = true) body Q E ->
  (forall self, P self -> cond self = false -> Q tt self) ->
  triple P (when cond body) Q E.
Proof.
  intros Hbody Hskip self HP. unfold when.
  destruct (cond self) eqn:Hcond; [apply Hbody | apply Hskip]; auto.
Qed.

Lemma triple_if_else (cond : ModernHUD -> bool) (a b : M unit) :
  triple (fun self => P self /\ cond self = true) a Q E ->
  triple (fun self => P self /\ cond self = false) b Q E ->
  triple P (if_else cond a b) Q E.
Proof.
  intros Ha Hb self HP. unfold if_else.
  destruct (cond self) eqn:Hcond; [apply Ha | apply Hb]; auto.
Qed.

End UnitRules.

Section Keeps.

Variables (I E : ModernHUD -> Prop).

Lemma keeps_ret {A : Type} (a : A) : keeps I E (ret a).
Proof. apply triple_ret. auto. Qed.

Lemma keeps_get {A : Type} (f : ModernHUD -> A) : keeps I E (get f).
Proof. apply triple_get. auto. Qed.

Lemma keeps_try_get {A : Type} (f : ModernHUD -> result A) :
  (forall self, I self -> E self) -> keeps I E (try_get f).
Proof.
  intros HE. apply triple_try_get. intros self HI. destruct (f self); auto.
Qed.

Lemma keeps_bind {A B : Type} (m : M A) (k : A -> M B) :
  keeps I E m -> (forall a, keeps I E (k a)) -> keeps I E (mbind m k).
Proof. intros Hm Hk. eapply triple_bind; [exact Hm | exact Hk]. Qed.

Lemma keeps_assign (f : ModernHUD -> ModernHUD) :
  (forall self, I self -> I (f self)) -> keeps I E (assign f).
Proof. intros Hf. apply triple_assign. exact Hf. Qed.

Lemma keeps_when (cond : ModernHUD -> bool) (body : M unit) :
  keeps I E body -> keeps I E (when cond body).
Proof.
  intros Hbody. apply triple_when; [| auto].
  eapply triple_consequence; [exact Hbody | | auto | auto].
  intros self [HI _]. exact HI.
Qed.

Lemma keeps_when_assign (cond : ModernHUD -> bool) (f : ModernHUD -> ModernHUD) :
  (forall self, I self -> cond self = true -> I (f self)) ->
  keeps I E (when cond (assign f)).
Proof.
  intros Hf. apply triple_when; [| auto].
  apply triple_assign. intros self [HI Hcond]. auto.
Qed.

Lemma keeps_if_else (cond : ModernHUD -> bool) (a b : M unit) :
  keeps I E a -> keeps I E b -> keeps I E (if_else cond a b).
Proof.
  intros Ha Hb. apply triple_if_else.
  - eapply triple_consequence; [exact Ha | | auto | auto]. intros self [HI _]. exact HI.
  - eapply triple_consequence; [exact Hb | | auto | auto]. intros self [HI _]. exact HI.
Qed.

End Keeps.

(** Projections of assignments compute; nothing else is unfolded. *)
Ltac hud_cbn :=
  cbn [airspeed altitude heading battery mode armed roll pitch gps_sats hdop safety_state
       throttle wind_speed connection_status last_data_time data_timeout rssi cpu_load
       memory_usage temperature flight_time distance_traveled avg_speed wind_direction
       crosswind_component headwind_component ground_speed max_speed min_speed total_energy
       warnings critical_alerts smart_recommendations performance_tips system_status
       set_airspeed set_altitude set_heading set_battery set_mode set_armed set_roll
       set_pitch set_gps_sats set_safety_state set_throttle set_connection_status
       set_last_data_time set_rssi set_cpu_load set_memory_usage set_crosswind_component
       set_headwind_component set_ground_speed set_max_speed set_min_speed set_total_energy
       set_warnings set_critical_alerts set_smart_recommendations set_performance_tips
       set_system_status] in *.

(** Assignments to a record whose fields are known, computed in full. *)
Ltac hud_cbv :=
  cbv beta iota delta
      [same_but_load forget_load
       airspeed altitude heading battery mode armed roll pitch gps_sats hdop safety_state
       throttle wind_speed connection_status last_data_time data_timeout rssi cpu_load
       memory_usage temperature flight_time distance_traveled avg_speed wind_direction
       crosswind_component headwind_component ground_speed max_speed min_speed total_energy
       warnings critical_alerts smart_recommendations performance_tips system_status
       set_airspeed set_altitude set_heading set_battery set_mode set_armed set_roll
       set_pitch set_gps_sats set_safety_state set_throttle set_connection_status
       set_last_data_time set_rssi set_cpu_load set_memory_usage set_crosswind_component
       set_headwind_component set_ground_speed set_max_speed set_min_speed set_total_energy
       set_warnings set_critical_alerts set_smart_recommendations set_performance_tips
       set_system_status] in *.

(** One step of an invariant proof, chosen by the shape of the method. *)
Ltac keep1 :=
  lazymatch goal with
  | |- keeps _ _ _ => unfold keeps
  | |- triple _ (mbind _ _) _ _ => apply keeps_bind; [| intros ?]
  | |- triple _ (when _ (assign _)) _ _ => apply keeps_when_assign
  | |- triple _ (when _ _) _ _ => apply keeps_when
  | |- triple _ (if_else _ _ _) _ _ => apply keeps_if_else
  | |- triple _ (get _) _ _ => apply keeps_get
  | |- triple _ (ret _) _ _ => apply keeps_ret
  | |- triple _ (try_get _) _ _ => apply keeps_try_get
  | |- triple _ (assign _) _ _ => apply keeps_assign
  | |- triple _ (append_critical _) _ _ => unfold append_critical
  | |- triple _ (append_warning _) _ _ => unfold append_warning
  | |- triple _ (append_recommendation _) _ _ => unfold append_recommendation
  | |- triple _ (append_tip _) _ _ => unfold append_tip
  | |- triple _ (append_status _) _ _ => unfold append_status
  | |- triple _ (simulate_system_load _) _ _ => unfold simulate_system_load
  end.
Ltac keep := repeat keep1.

(** [m ;; rest]: prove [m] up to the assertion [I], go on from [I]. *)
Ltac seq I := eapply triple_bind with (Qm := fun _ => I); [| intros _].

(** ** The head-up display *)

(** *** The order of floats *)

Lemma SFcompare_antisym (a b : spec_float) (c : comparison) :
  SFcompare a b = Some c -> SFcompare b a = Some (CompOpp c).
Proof.
  destruct a as [sa | sa | | sa ma ea], b as [sb | sb | | sb mb eb]; simpl;
    intros Hc; try discriminate Hc; injection Hc as <-;
    try (destruct sa; reflexivity); try (destruct sb; reflexivity);
    try (destruct sa, sb; reflexivity).
  destruct sa, sb; try reflexivity;
    rewrite (Z.compare_antisym ea eb); destruct (ea ?= eb)%Z; simpl; try reflexivity;
    change (Pos.compare_cont Eq mb ma) with (Pos.compare_cont (CompOpp Eq) mb ma);
    rewrite <- Pos.compare_cont_antisym;
    destruct (Pos.compare_cont Eq ma mb); reflexivity.
Qed.

(** [a <= b] excludes [b < a]. *)
Lemma fle_not_flt (a b : float) : fle a b = true -> flt b a = false.
Proof.
  unfold fle, flt. rewrite leb_spec, ltb_spec. unfold SFleb, SFltb.
  destruct (SFcompare (Prim2SF a) (Prim2SF b)) as [c |] eqn:Hc; [| discriminate].
  rewrite (SFcompare_antisym _ _ _ Hc). destruct c; simpl; congruence.
Qed.

Section MethodFacts.

Context `{Runtime}.

Lemma triple_after (P Q : ModernHUD -> Prop) (m : M unit) (self : ModernHUD) :
  triple P m (fun _ => Q) Q -> P self -> Q (after m self).
Proof.
  intros Hm HP. specialize (Hm self HP). unfold after.
  destruct (m self) as [[a | e] self']; exact Hm.
Qed.

Lemma triple_returns (P E : ModernHUD -> Prop) (Q : unit -> ModernHUD -> Prop)
    (m : M unit) (self : ModernHUD) :
  triple P m Q E -> P self -> outcome m self = Ok tt -> Q tt (after m self).
Proof.
  intros Hm HP. specialize (Hm self HP). unfold after, outcome.
  destruct (m self) as [[[] | e] self']; simpl; [auto | discriminate].
Qed.

Lemma clear_alerts_run (self : ModernHUD) : clear_alerts self = (Ok tt, cleared self).
Proof. reflexivity. Qed.

Lemma update_from_telemetry_run (now : float) (data : Frame) (self : ModernHUD) :
  update_from_telemetry now data self
  = (_analyze_real_data ;; _analyze_smart_telemetry now) (stored now data self).
Proof.
  destruct data as [fa fb fc fd fe ff fg fh fi fj fk fl fm fn].
  destruct fi as [ok |];
    lazy beta iota zeta delta
      [update_from_telemetry stored mbind assign ret f_airspeed f_altitude f_heading
       f_battery f_mode f_motor_armed f_roll f_pitch f_throttle f_safety_state f_gps_ok];
    reflexivity.
Qed.

(** A property that holds once the frame is stored and that both analyses
    keep holds after [update_from_telemetry]. *)
Lemma update_from_telemetry_after (I : ModernHUD -> Prop) (now : float) (data : Frame)
    (self : ModernHUD) :
  I (stored now data self) ->
  keeps I I _analyze_real_data -> keeps I I (_analyze_smart_telemetry now) ->
  I (after (update_from_telemetry now data) self).
Proof.
  intros Hstored Hreal Hsmart. unfold after. rewrite update_from_telemetry_run.
  apply (triple_after I I (_analyze_real_data ;; _analyze_smart_telemetry now)).
  - apply keeps_bind; [exact Hreal | intros _; exact Hsmart].
  - exact Hstored.
Qed.

(** *** What each block leaves alone *)

Section Footprints.

Variables (I E : ModernHUD -> Prop).

Lemma clear_alerts_triple (Q : ModernHUD -> Prop) :
  (forall self, I self -> Q (cleared self)) -> triple I clear_alerts (fun _ => Q) E.
Proof.
  intros HQ self HI. rewrite clear_alerts_run. auto.
Qed.

Lemma performance_calculations_keeps (now : float) :
  ignores_performance I -> (forall self, I self -> E self) ->
  keeps I E (performance_calculations now).
Proof.
  intros (Hcross & Hhead & Hground & Henergy & Hmax & Hmin & Hcpu & Hmem & Hrssi) HE.
  unfold performance_calculations. keep; auto.
Qed.

Lemma critical_tier_keeps :
  stable I set_critical_alerts -> (forall self, I self -> E self) ->
  keeps I E critical_tier.
Proof.
  intros Hcritical HE. unfold critical_tier. keep; auto.
Qed.

Lemma warning_tier_keeps : stable I set_warnings -> keeps I E warning_tier.
Proof.
  intros Hwarnings. unfold warning_tier. keep; auto.
Qed.

Lemma recommendation_tier_keeps :
  stable I set_smart_recommendations -> keeps I E recommendation_tier.
Proof.
  intros Hrec. unfold recommendation_tier. keep; auto.
Qed.

Lemma performance_tips_tier_keeps :
  stable I set_performance_tips -> keeps I E performance_tips_tier.
Proof.
  intros Htips. unfold performance_tips_tier. keep; auto.
Qed.

Lemma system_status_tier_keeps :
  stable I set_system_status -> keeps I E system_status_tier.
Proof.
  intros Hstatus. unfold system_status_tier. keep; auto.
Qed.

(** The three blocks after the warnings. *)
Lemma closing_tiers_keep :
  stable I set_smart_recommendations -> stable I set_performance_tips ->
  stable I set_system_status ->
  keeps I E (recommendation_tier ;; performance_tips_tier ;; system_status_tier).
Proof.
  intros Hrec Htips Hstatus.
  apply keeps_bind; [apply recommendation_tier_keeps; assumption | intros _].
  apply keeps_bind; [apply performance_tips_tier_keeps; assumption | intros _].
  apply system_status_tier_keeps; assumption.
Qed.

Lemma analyze_real_data_keeps :
  stable I set_warnings -> stable I set_critical_alerts -> keeps I E _analyze_real_data.
Proof.
  intros Hwarnings Hcritical. unfold _analyze_real_data. keep; auto.
Qed.

End Footprints.

(** *** The no-telemetry alert *)

Lemma critical_tier_no_telemetry :
  keeps no_telemetry_free no_telemetry_free critical_tier.
Proof.
  unfold critical_tier. keep; try (intros self Hself; exact Hself).
  all: unfold no_telemetry_free; intros self Hself; hud_cbn;
    rewrite in_app_iff; intros [Hin | [Heq | []]];
    [exact (Hself Hin) | discriminate Heq].
Qed.

Lemma smart_telemetry_no_telemetry (now : float) :
  triple (fun _ => True) (_analyze_smart_telemetry now)
    (fun _ => no_telemetry_free) no_telemetry_free.
Proof.
  unfold _analyze_smart_telemetry.
  seq no_telemetry_free.
  { apply clear_alerts_triple. intros self _. unfold no_telemetry_free, cleared.
    hud_cbn. simpl. auto. }
  seq no_telemetry_free.
  { apply performance_calculations_keeps; [| auto].
    repeat split; intros v self; unfold no_telemetry_free; hud_cbn; auto. }
  seq no_telemetry_free; [apply critical_tier_no_telemetry |].
  seq no_telemetry_free.
  { apply warning_tier_keeps. intros v self. unfold no_telemetry_free. hud_cbn. auto. }
  apply closing_tiers_keep; intros v self; unfold no_telemetry_free; hud_cbn; auto.
Qed.

End MethodFacts.

(** *** The speed records *)

Section SpeedRecords.

Context `{Runtime}.

Variable before : ModernHUD.

Let follows := speed_records_follow before.
Let follows_armed := fun self => speed_records_follow before self /\ armed self = true.

Lemma performance_calculations_speed_records (now : float) :
  keeps follows follows (performance_calculations now).
Proof.
  unfold performance_calculations. apply triple_when; [| auto].
  apply (triple_consequence _ _ follows_armed follows_armed _ _ (fun _ => follows_armed)).
  - keep; try (intros self Hself; exact Hself).
    all: try (intros self [Hfollows Harmed]; split;
              [unfold speed_records_follow in *; hud_cbn; exact Hfollows
              | hud_cbn; exact Harmed]).
    + intros self [[Hmax Hmin] Harmed] Hcond. split; [split |]; hud_cbn.
      * right. repeat split; try assumption.
        destruct Hmax as [Hsame | (_ & _ & Hbeat)]; [| exact Hbeat].
        rewrite <- Hsame. exact Hcond.
      * destruct Hmin as [Hsame | Hset]; [left | right]; assumption.
      * assumption.
    + intros self [[Hmax Hmin] Harmed] Hcond.
      apply andb_prop in Hcond as [Hbelow Hfloor].
      split; [split |]; hud_cbn.
      * destruct Hmax as [Hsame | Hset]; [left | right]; assumption.
      * right. repeat split; try assumption.
        destruct Hmin as [Hsame | (_ & _ & Hbeat & _)]; [| exact Hbeat].
        rewrite <- Hsame. exact Hbelow.
      * assumption.
  - intros self [Hfollows Harmed]. split; assumption.
  - intros _ self [Hfollows _]. exact Hfollows.
  - intros self [Hfollows _]. exact Hfollows.
Qed.

Lemma smart_telemetry_speed_records (now : float) :
  keeps follows follows (_analyze_smart_telemetry now).
Proof.
  unfold _analyze_smart_telemetry.
  seq follows.
  { apply clear_alerts_triple. intros self Hself. exact Hself. }
  seq follows; [apply performance_calculations_speed_records |].
  seq follows.
  { apply critical_tier_keeps; [| auto]. intros v self Hself. exact Hself. }
  seq follows.
  { apply warning_tier_keeps. intros v self Hself. exact Hself. }
  apply closing_tiers_keep; intros v self Hself; exact Hself.
Qed.

End SpeedRecords.

Section SpeedRecordsClaim.

Context `{Runtime}.

Lemma stored_speed_records (now : float) (data : Frame) (self : ModernHUD) :
  max_speed (stored now data self) = max_speed self /\
  min_speed (stored now data self) = min_speed self.
Proof.
  unfold stored. cbv zeta. destruct (f_gps_ok data); hud_cbn; split; reflexivity.
Qed.

Lemma update_from_telemetry_speed_records (now : float) (data : Frame) (self : ModernHUD) :
  speed_records_follow self (after (update_from_telemetry now data) self).
Proof.
  apply update_from_telemetry_after.
  - destruct (stored_speed_records now data self) as [Hmax Hmin].
    split; left; assumption.
  - apply analyze_real_data_keeps; intros v s Hs; exact Hs.
  - apply smart_telemetry_speed_records.
Qed.

(** C4, as the code has it.  After a frame is applied, both speed records are
    unchanged when the vehicle is disarmed.  [min_speed] changes only when the
    vehicle is armed and the airspeed exceeds 5 km/h and is below the old
    minimum; it then is the airspeed.  [max_speed] changes only when the
    vehicle is armed and the airspeed exceeds the old maximum, whatever the
    airspeed is: the 5 km/h floor guards the minimum alone. *)
Theorem speed_records_move_only_while_armed (now : float) (data : Frame) (self : ModernHUD) :
  let self' := after (update_from_telemetry now data) self in
  (armed self' = false ->
     max_speed self' = max_speed self /\ min_speed self' = min_speed self) /\
  (min_speed self' <> min_speed self ->
     armed self' = true /\ fgt (airspeed self') 5 = true /\
     flt (airspeed self') (min_speed self) = true /\ min_speed self' = airspeed self') /\
  (max_speed self' <> max_speed self ->
     armed self' = true /\ fgt (airspeed self') (max_speed self) = true /\
     max_speed self' = airspeed self').
Proof.
  intros self'.
  destruct (update_from_telemetry_speed_records now data self) as [Hmax Hmin].
  fold self' in Hmax, Hmin. repeat split.
  - destruct Hmax as [Hsame | (Harmed & _)]; [exact Hsame | congruence].
  - destruct Hmin as [Hsame | (Harmed & _)]; [exact Hsame | congruence].
  - destruct Hmin as [Hsame | (Harmed & _)]; [contradiction | exact Harmed].
  - destruct Hmin as [Hsame | (_ & _ & _ & Hfloor)]; [contradiction | exact Hfloor].
  - destruct Hmin as [Hsame | (_ & _ & Hbelow & _)]; [contradiction | exact Hbelow].
  - destruct Hmin as [Hsame | (_ & Heq & _)]; [contradiction | exact Heq].
  - destruct Hmax as [Hsame | (Harmed & _)]; [contradiction | exact Harmed].
  - destruct Hmax as [Hsame | (_ & _ & Hbeat)]; [contradiction | exact Hbeat].
  - destruct Hmax as [Hsame | (_ & Heq & _)]; [contradiction | exact Heq].
Qed.

End SpeedRecordsClaim.

(** Two floats that a comparison tells apart are different. *)
Lemma float_neq (a b : float) : flt a b = true -> flt a a = false -> b <> a.
Proof.
  intros Hab Haa Heq. rewrite Heq in Hab. congruence.
Qed.


(** C4 as stated fails: armed at 3 km/h, below the 5 km/h floor, the first
    frame moves [max_speed] from 0 to 3. *)
Lemma slow_airspeed_moves_max_speed :
  @_parse_telemetry Sample.runtime "SUM:AS:3|Sys:GILM" = Ok (Some slow_armed_frame) /\
  let self' := after (@update_from_telemetry Sample.runtime 0 slow_armed_frame) new_hud in
  armed self' = true /\ airspeed self' = 3%float /\ fgt (airspeed self') 5 = false /\
  max_speed new_hud = 0%float /\ max_speed self' = 3%float /\
  max_speed self' <> max_speed new_hud.
Proof.
  split; [vm_compute; reflexivity |].
  cbv zeta. repeat split; try (vm_compute; reflexivity).
  apply float_neq; vm_compute; reflexivity.
Qed.

Lemma speed_records_move_only_while_armed_witness :
  let self' := after (@update_from_telemetry Sample.runtime 0 slow_armed_frame) new_hud in
  max_speed self' <> max_speed new_hud /\
  armed self' = true /\ fgt (airspeed self') (max_speed new_hud) = true /\
  max_speed self' = airspeed self'.
Proof.
  cbv zeta.
  assert (Hmoved :
    max_speed (after (@update_from_telemetry Sample.runtime 0 slow_armed_frame) new_hud)
    <> max_speed new_hud) by (apply float_neq; vm_compute; reflexivity).
  split; [exact Hmoved |].
  apply (@speed_records_move_only_while_armed Sample.runtime 0 slow_armed_frame new_hud).
  exact Hmoved.
Defined.

(** The side condition of a guarded assignment: drop the guard. *)
Ltac under_cond :=
  lazymatch goal with
  | |- _ = true -> _ => intros _
  | |- _ => idtac
  end.

(** *** The battery alerts *)

Section Battery.

Context `{Runtime}.

Lemma warning_tier_no_battery_warning :
  keeps no_battery_warning no_battery_warning warning_tier.
Proof.
  unfold warning_tier. keep.
  all: intros self Hself; under_cond; unfold no_battery_warning in *; hud_cbn;
    intros alert Hin; apply in_app_or in Hin as [Hin | [<- | []]];
    [exact (Hself alert Hin) | split; reflexivity].
Qed.

Lemma smart_telemetry_no_battery_warning (now : float) :
  triple (fun _ => True) (_analyze_smart_telemetry now)
    (fun _ => no_battery_warning) no_battery_warning.
Proof.
  unfold _analyze_smart_telemetry.
  seq no_battery_warning.
  { apply clear_alerts_triple. intros self _ alert []. }
  seq no_battery_warning.
  { apply performance_calculations_keeps; [| auto].
    repeat apply conj; intros v self Hself; exact Hself. }
  seq no_battery_warning.
  { apply critical_tier_keeps; [| auto]. intros v self Hself. exact Hself. }
  seq no_battery_warning; [apply warning_tier_no_battery_warning |].
  apply closing_tiers_keep; intros v self Hself; exact Hself.
Qed.


Variable level : float.
Hypothesis at_least_15 : fle 15 level = true.
Hypothesis below_25 : flt level 25 = true.

Let just_cleared := fun self => battery self = level /\ critical_alerts self = [].

Lemma critical_tier_low_battery :
  triple just_cleared critical_tier (fun _ => shows_low_battery level) (fun _ => True).
Proof.
  unfold critical_tier.
  seq (shows_low_battery level).
  - apply triple_if_else.
    + intros self [[Hlevel _] Hcond]. exfalso.
      rewrite Hlevel in Hcond. rewrite (fle_not_flt _ _ at_least_15) in Hcond.
      discriminate.
    + apply triple_when.
      * eapply triple_bind
          with (Qm := fun t self => just_cleared self /\ int_of_float (level * 0.4) = Ok t).
        -- apply triple_try_get. intros self [[[Hlevel Hempty] _] _].
           rewrite Hlevel.
           destruct (int_of_float (level * 0.4)) as [t | e]; [| exact I].
           repeat split; assumption.
        -- intros t. unfold append_critical. apply triple_assign.
           intros self [[_ Hempty] Ht]. exists t. hud_cbn. rewrite Hempty.
           split; [exact Ht |]. split; [left; reflexivity |].
           intros alert [<- | []]. reflexivity.
      * intros self [[Hlevel _] _] Hcond. rewrite Hlevel, below_25 in Hcond.
        discriminate.
  - keep.
    all: intros self (t & Ht & Hin & Hnone); under_cond; exists t; hud_cbn;
      (split; [exact Ht |]); split;
      [apply in_or_app; left; exact Hin
      | intros alert Halert; apply in_app_or in Halert as [Halert | [<- | []]];
        [exact (Hnone alert Halert) | reflexivity]].
Qed.

Lemma smart_telemetry_low_battery (now : float) :
  triple (fun self => battery self = level) (_analyze_smart_telemetry now)
    (fun _ => shows_low_battery level) (fun _ => True).
Proof.
  unfold _analyze_smart_telemetry.
  seq just_cleared.
  { apply clear_alerts_triple. intros self Hlevel. split; [exact Hlevel | reflexivity]. }
  seq just_cleared.
  { apply performance_calculations_keeps; [| auto].
    repeat apply conj; intros v self Hself; exact Hself. }
  seq (shows_low_battery level); [apply critical_tier_low_battery |].
  seq (shows_low_battery level).
  { apply warning_tier_keeps. intros v self Hself. exact Hself. }
  apply closing_tiers_keep; intros v self Hself; exact Hself.
Qed.

End Battery.

Section BatteryClaim.

Context `{Runtime}.

(** C5, as the code has it.  For every state with the battery at least 15 and
    below 25, the analysis puts no battery entry in the warning list, and when
    it runs to its end the critical list holds the low-battery alert (with
    [int(battery * 0.4)] minutes) and no critical-battery alert: the low
    battery is reported in the critical list, not in the warning list. *)
Theorem low_battery_is_reported_as_critical (now : float) (self : ModernHUD) :
  fle 15 (battery self) = true -> flt (battery self) 25 = true ->
  let self' := after (_analyze_smart_telemetry now) self in
  no_battery_warning self' /\
  (outcome (_analyze_smart_telemetry now) self = Ok tt ->
   shows_low_battery (battery self) self').
Proof.
  intros Hlow Hhigh self'. split.
  - apply (triple_after (fun _ => True) no_battery_warning); [| exact I].
    apply smart_telemetry_no_battery_warning.
  - intros Hreturns.
    apply (triple_returns (fun s => battery s = battery self) (fun _ => True)
             (fun _ => shows_low_battery (battery self))); auto.
    apply smart_telemetry_low_battery; assumption.
Qed.

End BatteryClaim.

(** C5 as stated fails: at 20 percent the low-battery alert is the first entry
    of the critical list, and the warning list has no battery entry. *)
Lemma low_battery_is_not_a_warning :
  let self := set_battery 20 new_hud in
  let self' := after (@_analyze_smart_telemetry Sample.runtime 0) self in
  fle 15 (battery self) = true /\ flt (battery self) 25 = true /\
  critical_alerts self' = ["⚠️ LOW BATTERY: 8min - Plan landing"; GPS_CRITICAL] /\
  warnings self' = ["📍 GPS ACCURACY LOW: HDOP 99.0"] /\
  forallb (fun alert => negb (is_low_battery alert)) (warnings self') = true.
Proof. vm_compute. repeat split. Qed.

Lemma low_battery_is_reported_as_critical_witness :
  let self := set_battery 20 new_hud in
  let self' := after (@_analyze_smart_telemetry Sample.runtime 0) self in
  no_battery_warning self' /\ shows_low_battery 20 self'.
Proof.
  cbv zeta.
  destruct (@low_battery_is_reported_as_critical Sample.runtime 0 (set_battery 20 new_hud))
    as [Hwarnings Hcritical]; [vm_compute; reflexivity | vm_compute; reflexivity |].
  split; [exact Hwarnings |].
  apply Hcritical. vm_compute. reflexivity.
Defined.

(** *** The satellite alerts *)

Lemma gps_critical_is_recognised : str_contains "GPS CRITICAL" GPS_CRITICAL = true.
Proof. vm_compute. reflexivity. Qed.

Lemma in_gps_critical_any (self : ModernHUD) :
  In GPS_CRITICAL (critical_alerts self) -> any_gps_critical self = true.
Proof.
  intros Hin. unfold any_gps_critical. apply existsb_exists.
  exists GPS_CRITICAL. split; [exact Hin | exact gps_critical_is_recognised].
Qed.

Lemma gps_limited_is_recognised (sats : Z) : is_gps_limited (gps_limited sats) = true.
Proof.
  unfold is_gps_limited, gps_limited. cbn.
  destruct (str_int sats ++ " sats - Navigation degraded"); reflexivity.
Qed.

Section Satellites.

Context `{Runtime}.


Lemma warning_tier_suppressed :
  triple (fun self => warnings self = []) warning_tier (fun _ => suppressed) suppressed.
Proof.
  unfold warning_tier.
  seq suppressed.
  - unfold append_warning. apply triple_when.
    + apply triple_assign. intros self [_ Hcond].
      apply andb_prop in Hcond as [_ Hnone]. apply negb_true_iff in Hnone.
      unfold suppressed, any_gps_critical in *. hud_cbn. congruence.
    + intros self Hempty _ _ alert Hin. rewrite Hempty in Hin. destruct Hin.
  - keep.
    all: intros self Hself; under_cond; unfold suppressed, any_gps_critical, no_gps_limited in *;
      hud_cbn; intros Hany alert Hin; apply in_app_or in Hin as [Hin | [<- | []]];
      [exact (Hself Hany alert Hin) | reflexivity].
Qed.

Lemma smart_telemetry_suppressed (now : float) :
  triple (fun _ => True) (_analyze_smart_telemetry now) (fun _ => suppressed) suppressed.
Proof.
  unfold _analyze_smart_telemetry.
  assert (Hempty : forall self, warnings self = [] -> suppressed self).
  { intros self Hnone _ alert Hin. rewrite Hnone in Hin. destruct Hin. }
  seq (fun self => warnings self = []).
  { apply clear_alerts_triple. reflexivity. }
  seq (fun self => warnings self = []).
  { apply performance_calculations_keeps; [| exact Hempty].
    repeat apply conj; intros v self Hself; exact Hself. }
  seq (fun self => warnings self = []).
  { apply critical_tier_keeps; [| exact Hempty]. intros v self Hself. exact Hself. }
  seq suppressed; [apply warning_tier_suppressed |].
  apply closing_tiers_keep; intros v self Hself; exact Hself.
Qed.

(** Fewer than four satellites: the states before, in and after the critical
    block. *)
Let few := fun self => (gps_sats self <? 4)%Z = true /\ warnings self = [].
Let alerted := fun self => warnings self = [] /\ In GPS_CRITICAL (critical_alerts self).
Let settled := fun self => no_gps_limited self /\ In GPS_CRITICAL (critical_alerts self).

Lemma critical_tier_alerts_few_satellites :
  triple few critical_tier (fun _ => alerted) no_gps_limited.
Proof.
  assert (Hnone : forall self, warnings self = [] -> no_gps_limited self).
  { intros self Hempty alert Hin. rewrite Hempty in Hin. destruct Hin. }
  unfold critical_tier.
  seq few.
  { keep.
    - intros self [_ Hempty]. auto.
    - intros self Hself. exact Hself.
    - intros self [_ Hempty]. auto.
    - intros self Hself. exact Hself. }
  seq alerted.
  { unfold append_critical. apply triple_when.
    - apply triple_assign. intros self [[_ Hempty] _]. split; [exact Hempty |].
      hud_cbn. apply in_or_app. right. left. reflexivity.
    - intros self [Hfew _] Hcond. congruence. }
  keep.
  all: intros self [Hempty Hin]; under_cond; split; [exact Hempty |]; hud_cbn;
    apply in_or_app; left; exact Hin.
Qed.

Lemma warning_tier_settles :
  triple alerted warning_tier (fun _ => settled) no_gps_limited.
Proof.
  unfold warning_tier.
  seq settled.
  - unfold append_warning. apply triple_when.
    + intros self [[_ Hin] Hcond]. exfalso.
      apply andb_prop in Hcond as [_ Hnone]. apply negb_true_iff in Hnone.
      rewrite (in_gps_critical_any self Hin) in Hnone. discriminate.
    + intros self [Hempty Hin] _. split; [| exact Hin].
      intros alert Halert. rewrite Hempty in Halert. destruct Halert.
  - keep.
    all: intros self [Hnone Hin]; under_cond; split; [| exact Hin];
      unfold no_gps_limited in *; hud_cbn; intros alert Halert;
      apply in_app_or in Halert as [Halert | [<- | []]];
      [exact (Hnone alert Halert) | reflexivity].
Qed.

Lemma smart_telemetry_few_satellites (now : float) :
  triple (fun self => (gps_sats self <? 4)%Z = true) (_analyze_smart_telemetry now)
    (fun _ => settled) no_gps_limited.
Proof.
  assert (Hnone : forall self, few self -> no_gps_limited self).
  { intros self [_ Hempty] alert Hin. rewrite Hempty in Hin. destruct Hin. }
  unfold _analyze_smart_telemetry.
  seq few.
  { apply clear_alerts_triple. intros self Hfew. split; [exact Hfew | reflexivity]. }
  seq few.
  { apply performance_calculations_keeps; [| exact Hnone].
    repeat apply conj; intros v self Hself; exact Hself. }
  seq alerted; [apply critical_tier_alerts_few_satellites |].
  seq settled; [apply warning_tier_settles |].
  eapply triple_consequence.
  - apply (closing_tiers_keep settled settled); intros v self Hself; exact Hself.
  - auto.
  - auto.
  - intros self [Hlimited _]. exact Hlimited.
Qed.

(** X25.  The lists the analysis leaves, returned or raised, never hold both
    the satellite alert in the critical list and a satellite warning in the
    warning list.  Whenever the state has fewer than four satellites the
    warning list holds no satellite warning, and when the analysis runs to
    its end the critical list holds the satellite alert; so it is for a state
    with 3 satellites and the other attributes as [__init__] sets them. *)
Theorem gps_warning_suppressed_by_gps_critical (now : float) (self : ModernHUD) :
  let self' := after (_analyze_smart_telemetry now) self in
  (In GPS_CRITICAL (critical_alerts self') ->
   forall sats, ~ In (gps_limited sats) (warnings self')) /\
  ((gps_sats self <? 4)%Z = true ->
   (forall sats, ~ In (gps_limited sats) (warnings self')) /\
   (outcome (_analyze_smart_telemetry now) self = Ok tt ->
    In GPS_CRITICAL (critical_alerts self'))).
Proof.
  cbv zeta.
  pose proof (triple_after (fun _ => True) suppressed (_analyze_smart_telemetry now) self
                (smart_telemetry_suppressed now) I) as Hsuppressed.
  assert (Hlimited : forall s, no_gps_limited s ->
                               forall sats, ~ In (gps_limited sats) (warnings s)).
  { intros s Hnone sats Hin. apply Hnone in Hin.
    rewrite gps_limited_is_recognised in Hin. discriminate. }
  split.
  - intros Hin. apply Hlimited. apply Hsuppressed.
    apply in_gps_critical_any. exact Hin.
  - intros Hfew.
    pose proof (smart_telemetry_few_satellites now self Hfew) as Hrun.
    unfold after, outcome.
    destruct (_analyze_smart_telemetry now self) as [[[] | e] self']; simpl.
    + destruct Hrun as [Hnone Hin]. split; [apply Hlimited; exact Hnone | auto].
    + split; [apply Hlimited; exact Hrun | discriminate].
Qed.

End Satellites.

Lemma gps_warning_suppressed_by_gps_critical_witness :
  let self := set_gps_sats 3 new_hud in
  let self' := after (@_analyze_smart_telemetry Sample.runtime 0) self in
  In GPS_CRITICAL (critical_alerts self') /\
  forall sats, ~ In (gps_limited sats) (warnings self').
Proof.
  cbv zeta.
  destruct (@gps_warning_suppressed_by_gps_critical Sample.runtime 0 (set_gps_sats 3 new_hud))
    as [_ Hfew].
  destruct (Hfew eq_refl) as [Hnone Halert].
  split; [| exact Hnone].
  apply Halert. vm_compute. reflexivity.
Defined.

(** C6: a state with 3 satellites does not always yield the satellite alert.
    The HUD that has stored the frame of the line [SUM:Alt:nan|Sys:M] has 3
    satellites, is armed and has an altitude that is not a number.  The
    analysis clears the lists and raises in the armed block, at the [int()]
    of the signal strength, before the block that tests the satellites: it
    leaves the critical list empty, without the satellite alert. *)
Lemma three_satellites_without_alert :
  let self := stored 1700000000 nan_altitude_frame new_hud in
  let run := @_analyze_smart_telemetry Sample.runtime 1700000000 self in
  gps_sats self = 3%Z /\ (gps_sats self <? 4)%Z = true /\
  armed self = true /\ is_nan (altitude self) = true /\
  fst run = Raise ValueError /\
  critical_alerts (snd run) = [] /\
  ~ In GPS_CRITICAL (critical_alerts (snd run)) /\
  warnings (snd run) = [].
Proof.
  vm_compute. repeat split. intros [].
Qed.

(** *** Two runs at different times *)

Section Related.

Lemma same_but_load_refl (a : ModernHUD) : same_but_load a a.
Proof. reflexivity. Qed.

Lemma related_ret {A : Type} (x : A) : related (ret x) (ret x).
Proof. intros a b Hab. split; [reflexivity | exact Hab]. Qed.

Lemma related_get {A : Type} (f : ModernHUD -> A) :
  (forall a b, same_but_load a b -> f a = f b) -> related (get f) (get f).
Proof. intros Hf a b Hab. simpl. split; [f_equal; auto | exact Hab]. Qed.

Lemma related_try_get {A : Type} (f : ModernHUD -> result A) :
  (forall a b, same_but_load a b -> f a = f b) -> related (try_get f) (try_get f).
Proof. intros Hf a b Hab. simpl. split; [auto | exact Hab]. Qed.

Lemma related_assign (f g : ModernHUD -> ModernHUD) :
  (forall a b, same_but_load a b -> same_but_load (f a) (g b)) ->
  related (assign f) (assign g).
Proof. intros Hf a b Hab. simpl. split; [reflexivity | auto]. Qed.

Lemma related_bind {A B : Type} (m1 m2 : M A) (k1 k2 : A -> M B) :
  related m1 m2 -> (forall x, related (k1 x) (k2 x)) ->
  related (mbind m1 k1) (mbind m2 k2).
Proof.
  intros Hm Hk a b Hab. unfold mbind. destruct (Hm a b Hab) as [Hout Hstate].
  destruct (m1 a) as [[x | e] a'], (m2 b) as [[y | e'] b']; simpl in *;
    try discriminate Hout.
  - injection Hout as <-. apply Hk. exact Hstate.
  - injection Hout as <-. split; [reflexivity | exact Hstate].
Qed.

Lemma related_when (cond : ModernHUD -> bool) (m1 m2 : M unit) :
  (forall a b, same_but_load a b -> cond a = cond b) ->
  related m1 m2 -> related (when cond m1) (when cond m2).
Proof.
  intros Hcond Hm a b Hab. unfold when. rewrite (Hcond a b Hab).
  destruct (cond b); [apply Hm; exact Hab | split; [reflexivity | exact Hab]].
Qed.

Lemma related_if_else (cond : ModernHUD -> bool) (m1 m2 n1 n2 : M unit) :
  (forall a b, same_but_load a b -> cond a = cond b) ->
  related m1 m2 -> related n1 n2 ->
  related (if_else cond m1 n1) (if_else cond m2 n2).
Proof.
  intros Hcond Hm Hn a b Hab. unfold if_else. rewrite (Hcond a b Hab).
  destruct (cond b); [apply Hm | apply Hn]; exact Hab.
Qed.

End Related.

(** One step of a two-run proof, chosen by the shape of the methods. *)
Ltac relate1 :=
  lazymatch goal with
  | |- related (mbind _ _) (mbind _ _) => apply related_bind; [| intros ?]
  | |- related (when _ _) (when _ _) => apply related_when
  | |- related (if_else _ _ _) (if_else _ _ _) => apply related_if_else
  | |- related (get _) (get _) => apply related_get
  | |- related (ret _) (ret _) => apply related_ret
  | |- related (try_get _) (try_get _) => apply related_try_get
  | |- related (assign _) (assign _) => apply related_assign
  | |- related (append_critical _) _ => unfold append_critical
  | |- related (append_warning _) _ => unfold append_warning
  | |- related (append_recommendation _) _ => unfold append_recommendation
  | |- related (append_tip _) _ => unfold append_tip
  | |- related (append_status _) _ => unfold append_status
  end.
Ltac relate := repeat relate1.


(** What two objects that differ at most in the load figures agree on. *)
Ltac agree :=
  let a := fresh "a" in
  let b := fresh "b" in
  let Hab := fresh "Hab" in
  intros a b Hab; destruct a, b; hud_cbv; injection Hab; intros; subst; reflexivity.

Section Determinism.

Context `{Runtime}.

Lemma simulate_system_load_run (now : float) (load usage : Z) (self : ModernHUD) :
  (s <- Py.sin (now * 0.1) ;; int_of_float (10 * s))%float = Ok load ->
  (s <- Py.sin (now * 0.1 * 0.7) ;; int_of_float (15 * s))%float = Ok usage ->
  simulate_system_load now self
  = (Ok tt, set_memory_usage (50 + usage) (set_cpu_load (25 + load) self)).
Proof.
  intros Hload Husage. unfold simulate_system_load, mbind, try_get, assign.
  destruct (Py.sin (now * 0.1)) as [s1 | e]; simpl in Hload; [| discriminate].
  rewrite Hload.
  destruct (Py.sin (now * 0.1 * 0.7)) as [s2 | e]; simpl in Husage; [| discriminate].
  rewrite Husage. reflexivity.
Qed.

Lemma simulate_system_load_related (now1 now2 : float) :
  clock_ok now1 -> clock_ok now2 ->
  related (simulate_system_load now1) (simulate_system_load now2).
Proof.
  intros [[l1 Hl1] [u1 Hu1]] [[l2 Hl2] [u2 Hu2]] a b Hab.
  rewrite (simulate_system_load_run now1 l1 u1 a Hl1 Hu1).
  rewrite (simulate_system_load_run now2 l2 u2 b Hl2 Hu2).
  split; [reflexivity |]. revert Hab. clear.
  destruct a, b. hud_cbv. intros Hab. injection Hab. intros. subst. reflexivity.
Qed.

Lemma performance_calculations_related (now1 now2 : float) :
  clock_ok now1 -> clock_ok now2 ->
  related (performance_calculations now1) (performance_calculations now2).
Proof.
  intros Hclock1 Hclock2. unfold performance_calculations.
  apply related_when; [agree |].
  do 11 (apply related_bind; [relate; agree | intros ?]).
  apply related_bind; [apply simulate_system_load_related; assumption | intros ?].
  relate; agree.
Qed.

Lemma smart_telemetry_related (now1 now2 : float) :
  clock_ok now1 -> clock_ok now2 ->
  related (_analyze_smart_telemetry now1) (_analyze_smart_telemetry now2).
Proof.
  intros Hclock1 Hclock2. unfold _analyze_smart_telemetry.
  apply related_bind; [unfold clear_alerts; relate; agree | intros _].
  apply related_bind; [apply performance_calculations_related; assumption | intros _].
  apply related_bind; [unfold critical_tier; relate; agree | intros _].
  apply related_bind; [unfold warning_tier; relate; agree | intros _].
  apply related_bind; [unfold recommendation_tier; relate; agree | intros _].
  apply related_bind; [unfold performance_tips_tier; relate; agree | intros _].
  unfold system_status_tier; relate; agree.
Qed.

Lemma same_but_load_lists (a b : ModernHUD) :
  same_but_load a b ->
  critical_alerts a = critical_alerts b /\ warnings a = warnings b /\
  smart_recommendations a = smart_recommendations b /\
  performance_tips a = performance_tips b.
Proof.
  destruct a, b. hud_cbv. intros Hab. injection Hab. intros. subst. repeat split.
Qed.

(** C7.  The analysis is deterministic in the state, and the wall clock
    reaches only the load figures of the status tier: two runs on the same
    state, at any two clock readings on which the load simulation is defined,
    end alike (both return, or both raise the same exception) and leave the
    same critical, warning and recommendation lists (and the same tips). *)
Theorem evaluation_is_deterministic_in_the_state (now1 now2 : float) (self : ModernHUD) :
  clock_ok now1 -> clock_ok now2 ->
  let run1 := after (_analyze_smart_telemetry now1) self in
  let run2 := after (_analyze_smart_telemetry now2) self in
  outcome (_analyze_smart_telemetry now1) self = outcome (_analyze_smart_telemetry now2) self /\
  critical_alerts run1 = critical_alerts run2 /\
  warnings run1 = warnings run2 /\
  smart_recommendations run1 = smart_recommendations run2 /\
  performance_tips run1 = performance_tips run2.
Proof.
  intros Hclock1 Hclock2. cbv zeta.
  pose proof (smart_telemetry_related now1 now2 Hclock1 Hclock2 self self
                (same_but_load_refl self)) as [Hout Hsame].
  apply same_but_load_lists in Hsame.
  destruct Hsame as (Hcritical & Hwarnings & Hrecommendations & Htips).
  unfold outcome, after.
  split; [exact Hout |]. split; [exact Hcritical |]. split; [exact Hwarnings |].
  split; [exact Hrecommendations | exact Htips].
Qed.

End Determinism.

Lemma evaluation_is_deterministic_in_the_state_witness :
  let self := set_armed true new_hud in
  let run1 := after (@_analyze_smart_telemetry Sample.runtime 1700000000) self in
  let run2 := after (@_analyze_smart_telemetry Sample.runtime 1700000025) self in
  critical_alerts run1 = critical_alerts run2 /\
  warnings run1 = warnings run2 /\
  smart_recommendations run1 = smart_recommendations run2 /\
  cpu_load run1 <> cpu_load run2.
Proof.
  cbv zeta.
  assert (Hclock1 : @clock_ok Sample.runtime 1700000000)
    by (split; eexists; vm_compute; reflexivity).
  assert (Hclock2 : @clock_ok Sample.runtime 1700000025)
    by (split; eexists; vm_compute; reflexivity).
  destruct (@evaluation_is_deterministic_in_the_state Sample.runtime
              1700000000 1700000025 (set_armed true new_hud) Hclock1 Hclock2)
    as (_ & Hcritical & Hwarnings & Hrecommendations & _).
  split; [exact Hcritical |]. split; [exact Hwarnings |].
  split; [exact Hrecommendations |].
  vm_compute. discriminate.
Defined.

(** *** The no-telemetry alert on a silent link *)


(** C1 fails on the code.  A HUD whose link has been silent is in the state
    NO DATA, and [_analyze_real_data] then leaves the single no-telemetry
    alert; but [update_from_telemetry] runs [_analyze_smart_telemetry] next,
    which has no such guard and writes the lists anew from the stale state:
    the no-telemetry alert is gone, and battery and satellite alerts, a
    warning and a recommendation stand in its place. *)
Lemma update_overwrites_no_telemetry_alert :
  let silent := after (_check_connection_status 1700000000) new_hud in
  connection_status silent = "NO DATA" /\
  critical_alerts (after _analyze_real_data silent) = [NO_TELEMETRY] /\
  warnings (after _analyze_real_data silent) = [] /\
  @_parse_telemetry Sample.runtime "SUM:AS:50.5|Alt:120" = Ok (Some cruise_frame) /\
  let shown := after (@update_from_telemetry Sample.runtime 1700000000 cruise_frame) silent in
  connection_status shown = "NO DATA" /\
  critical_alerts shown = ["🚨 CRITICAL BATTERY: 0min left - LAND NOW"; GPS_CRITICAL] /\
  warnings shown = ["📍 GPS ACCURACY LOW: HDOP 99.0"] /\
  smart_recommendations shown = ["🏠 Battery <40% - Consider RTL mode"].
Proof. vm_compute. repeat split. Qed.

(** *** A frame that stops the analysis *)


(** C10 fails on the code.  The frame reports [gps_ok] false, and the
    satellite count is set to 3; but the vehicle is armed and the altitude is
    NaN, so [int(base_rssi + altitude_factor - attitude_factor)] raises
    [ValueError] in the armed block, after the lists were cleared and before
    the satellite test: no satellite alert is in the critical list. *)
Lemma nan_altitude_frame_stops_the_analysis :
  @_parse_telemetry Sample.runtime "SUM:Alt:nan|Sys:M" = Ok (Some nan_altitude_frame) /\
  f_gps_ok nan_altitude_frame = Some false /\
  let run := @update_from_telemetry Sample.runtime 1700000000 nan_altitude_frame new_hud in
  fst run = Raise ValueError /\
  gps_sats (snd run) = 3%Z /\
  critical_alerts (snd run) = [] /\
  warnings (snd run) = [].
Proof. vm_compute. repeat split. Qed.

(** * Further properties *)

(** ** Further properties of the head-up display *)

(** As [keep], and a guarded [append] keeps its guard as a hypothesis. *)
Ltac keep_guarded1 :=
  lazymatch goal with
  | |- triple _ (when _ (append_critical _)) _ _ => unfold append_critical
  | |- triple _ (when _ (append_warning _)) _ _ => unfold append_warning
  | |- triple _ (when _ (append_recommendation _)) _ _ => unfold append_recommendation
  | |- triple _ (when _ (append_tip _)) _ _ => unfold append_tip
  | |- _ => keep1
  end.
Ltac keep_guarded := repeat keep_guarded1.

Section WholeAnalysis.

Context `{Runtime}.

Variable I : ModernHUD -> Prop.

(** A property that looks at none of the attributes the analysis assigns
    holds after it, returned or raised, if it held before. *)
Lemma smart_telemetry_keeps (now : float) :
  ignores_performance I ->
  stable I set_warnings -> stable I set_critical_alerts ->
  stable I set_smart_recommendations -> stable I set_performance_tips ->
  stable I set_system_status ->
  keeps I I (_analyze_smart_telemetry now).
Proof.
  intros Hperformance Hwarnings Hcritical Hrecommendations Htips Hstatus.
  unfold _analyze_smart_telemetry.
  seq I.
  { apply clear_alerts_triple. intros self Hself. unfold cleared.
    apply Hstatus, Htips, Hrecommendations, Hcritical, Hwarnings, Hself. }
  seq I; [apply performance_calculations_keeps; auto |].
  seq I; [apply critical_tier_keeps; auto |].
  seq I; [apply warning_tier_keeps; auto |].
  apply closing_tiers_keep; assumption.
Qed.

Lemma update_from_telemetry_keeps (now : float) (data : Frame) (self : ModernHUD) :
  ignores_performance I ->
  stable I set_warnings -> stable I set_critical_alerts ->
  stable I set_smart_recommendations -> stable I set_performance_tips ->
  stable I set_system_status ->
  I (stored now data self) -> I (after (update_from_telemetry now data) self).
Proof.
  intros Hperformance Hwarnings Hcritical Hrecommendations Htips Hstatus Hstored.
  apply update_from_telemetry_after.
  - exact Hstored.
  - apply analyze_real_data_keeps; assumption.
  - apply smart_telemetry_keeps; assumption.
Qed.

End WholeAnalysis.

Section Stored.

Context `{Runtime}.

(** X3.  The attributes a frame is stored in hold the value of the frame, or the
    value they had when the frame has none; the accuracy, the wind speed and
    the link state are not touched, and the time of the frame is recorded.
    So it is after the whole of [update_from_telemetry], whether the analysis
    returns or raises. *)
Theorem frame_values_carried_forward (now : float) (data : Frame) (self : ModernHUD) :
  let self' := after (update_from_telemetry now data) self in
  airspeed self' = dict_get (f_airspeed data) (airspeed self) /\
  altitude self' = dict_get (f_altitude data) (altitude self) /\
  heading self' = dict_get (f_heading data) (heading self) /\
  battery self' = dict_get (f_battery data) (battery self) /\
  mode self' = dict_get (f_mode data) (mode self) /\
  armed self' = dict_get (f_motor_armed data) (armed self) /\
  roll self' = dict_get (f_roll data) (roll self) /\
  pitch self' = dict_get (f_pitch data) (pitch self) /\
  throttle self' = dict_get (f_throttle data) (throttle self) /\
  safety_state self' = dict_get (f_safety_state data) (safety_state self) /\
  hdop self' = hdop self /\ wind_speed self' = wind_speed self /\
  connection_status self' = connection_status self /\
  last_data_time self' = now.
Proof.
  cbv zeta.
  apply (update_from_telemetry_keeps (fun s =>
    airspeed s = dict_get (f_airspeed data) (airspeed self) /\
    altitude s = dict_get (f_altitude data) (altitude self) /\
    heading s = dict_get (f_heading data) (heading self) /\
    battery s = dict_get (f_battery data) (battery self) /\
    mode s = dict_get (f_mode data) (mode self) /\
    armed s = dict_get (f_motor_armed data) (armed self) /\
    roll s = dict_get (f_roll data) (roll self) /\
    pitch s = dict_get (f_pitch data) (pitch self) /\
    throttle s = dict_get (f_throttle data) (throttle self) /\
    safety_state s = dict_get (f_safety_state data) (safety_state self) /\
    hdop s = hdop self /\ wind_speed s = wind_speed self /\
    connection_status s = connection_status self /\
    last_data_time s = now)).
  - repeat apply conj; intros v s Hs; exact Hs.
  - intros v s Hs; exact Hs.
  - intros v s Hs; exact Hs.
  - intros v s Hs; exact Hs.
  - intros v s Hs; exact Hs.
  - intros v s Hs; exact Hs.
  - unfold stored. cbv zeta. destruct (f_gps_ok data) as [ok |]; hud_cbn;
      repeat apply conj; reflexivity.
Qed.

(** X4.  The satellite count after [update_from_telemetry] is 8 for a frame whose
    GPS flag is true, 3 for one whose flag is false, and the count before for
    a frame without the flag, whether the analysis returns or raises. *)
Theorem gps_flag_sets_satellite_count (now : float) (data : Frame) (self : ModernHUD) :
  gps_sats (after (update_from_telemetry now data) self)
  = match f_gps_ok data with
    | Some ok => if ok then 8%Z else 3%Z
    | None => gps_sats self
    end.
Proof.
  apply (update_from_telemetry_keeps (fun s =>
    gps_sats s = match f_gps_ok data with
                 | Some ok => if ok then 8%Z else 3%Z
                 | None => gps_sats self
                 end)).
  - repeat apply conj; intros v s Hs; exact Hs.
  - intros v s Hs; exact Hs.
  - intros v s Hs; exact Hs.
  - intros v s Hs; exact Hs.
  - intros v s Hs; exact Hs.
  - intros v s Hs; exact Hs.
  - unfold stored. cbv zeta. destruct (f_gps_ok data) as [ok |]; reflexivity.
Qed.

End Stored.

(** *** The no-telemetry alert after a frame *)

Section NoTelemetryShown.

Context `{Runtime}.

(** [update_from_telemetry] is the two analyses run on the stored frame. *)
Lemma after_update_from_telemetry (now : float) (data : Frame) (self : ModernHUD) :
  after (update_from_telemetry now data) self
  = after (_analyze_real_data ;; _analyze_smart_telemetry now) (stored now data self).
Proof. unfold after. f_equal. apply update_from_telemetry_run. Qed.

Lemma outcome_update_from_telemetry (now : float) (data : Frame) (self : ModernHUD) :
  outcome (update_from_telemetry now data) self
  = outcome (_analyze_real_data ;; _analyze_smart_telemetry now) (stored now data self).
Proof. unfold outcome. f_equal. apply update_from_telemetry_run. Qed.

(** What the two analyses establish from the stored frame holds after
    [update_from_telemetry]. *)
Lemma update_from_telemetry_then (P Q : ModernHUD -> Prop) (now : float) (data : Frame)
    (self : ModernHUD) :
  P (stored now data self) ->
  triple P (_analyze_real_data ;; _analyze_smart_telemetry now) (fun _ => Q) Q ->
  Q (after (update_from_telemetry now data) self).
Proof.
  intros Hstored Hrun. rewrite after_update_from_telemetry.
  apply (triple_after P Q (_analyze_real_data ;; _analyze_smart_telemetry now)).
  - exact Hrun.
  - exact Hstored.
Qed.

(** The simple analysis first: what it keeps, the smart analysis starts from. *)
Lemma real_then_smart (P Q E : ModernHUD -> Prop) (now : float) :
  stable P set_warnings -> stable P set_critical_alerts ->
  triple P (_analyze_smart_telemetry now) (fun _ => Q) E ->
  triple P (_analyze_real_data ;; _analyze_smart_telemetry now) (fun _ => Q) E.
Proof.
  intros Hwarnings Hcritical Hsmart.
  seq P; [| exact Hsmart].
  apply analyze_real_data_keeps; assumption.
Qed.

(** X1.  Whatever the link state, the frame and the clock, the critical list that
    [update_from_telemetry] leaves does not hold the no-telemetry alert:
    [_analyze_smart_telemetry] clears the list [_analyze_real_data] wrote and
    has no branch that writes the alert.  [_check_connection_status] writes
    no list, so after no history of timer ticks and frames on a new HUD is
    the alert in the list. *)
Theorem no_telemetry_never_shown :
  (forall now data self,
     ~ In NO_TELEMETRY (critical_alerts (after (update_from_telemetry now data) self))) /\
  (forall calls, ~ In NO_TELEMETRY (critical_alerts (run_hud_calls calls))).
Proof.
  assert (Hframe : forall now data self,
            no_telemetry_free (after (update_from_telemetry now data) self)).
  { intros now data self.
    apply (update_from_telemetry_then (fun _ => True) no_telemetry_free); [exact I |].
    apply real_then_smart.
    - intros v s Hs. exact Hs.
    - intros v s Hs. exact Hs.
    - apply smart_telemetry_no_telemetry. }
  split; [exact Hframe |].
  assert (Hall : forall calls self,
            no_telemetry_free self -> no_telemetry_free (fold_left run_hud_call calls self)).
  { induction calls as [| c calls IH]; intros self Hself; simpl; [exact Hself |].
    apply IH. destruct c as [now | now data]; simpl.
    - unfold after, _check_connection_status, if_else, assign.
      destruct (fgt (now - last_data_time self) (data_timeout self)); exact Hself.
    - apply Hframe. }
  intros calls. apply (Hall calls new_hud). intros [].
Qed.

End NoTelemetryShown.

(** *** The simple analysis *)

(** X2.  [_analyze_real_data] returns.  On a silent link it leaves the no-telemetry
    alert as the only critical alert and no warning; on any other link state
    the alert is not in the list.  It does not touch the recommendations, the
    tips and the status lines. *)
Theorem real_data_alerts_silent_link_only (self : ModernHUD) :
  let self' := after _analyze_real_data self in
  outcome _analyze_real_data self = Ok tt /\
  (connection_status self = "NO DATA" ->
   critical_alerts self' = [NO_TELEMETRY] /\ warnings self' = []) /\
  (connection_status self <> "NO DATA" -> ~ In NO_TELEMETRY (critical_alerts self')) /\
  smart_recommendations self' = smart_recommendations self /\
  performance_tips self' = performance_tips self /\
  system_status self' = system_status self.
Proof.
  cbv zeta. split; [| split; [| split]].
  - pose proof (analyze_real_data_keeps (fun _ => True) (fun _ => False)) as Hruns.
    specialize (Hruns (fun _ _ _ => I) (fun _ _ _ => I) self I).
    unfold outcome. destruct (_analyze_real_data self) as [[[] | e] self'].
    + reflexivity.
    + destruct Hruns.
  - intros Hsilent.
    unfold after, _analyze_real_data, mbind, assign, if_else, append_critical.
    hud_cbn. rewrite Hsilent. cbn [String.eqb Ascii.eqb Bool.eqb]. hud_cbn.
    split; reflexivity.
  - intros Hlink.
    apply (triple_after (fun s => connection_status s <> "NO DATA") no_telemetry_free);
      [| exact Hlink].
    unfold _analyze_real_data.
    seq (fun s => connection_status s <> "NO DATA").
    { apply keeps_assign. intros s Hs. exact Hs. }
    seq (fun s => connection_status s <> "NO DATA" /\ critical_alerts s = []).
    { apply triple_assign. intros s Hs. split; [exact Hs | reflexivity]. }
    apply triple_if_else.
    + intros s [[Hs _] Hcond]. apply String.eqb_eq in Hcond. contradiction.
    + eapply triple_consequence with (P' := fun s => no_telemetry_free s)
                                     (Q' := fun _ => no_telemetry_free)
                                     (E' := no_telemetry_free).
      * keep; try (intros s Hs; exact Hs).
        all: unfold no_telemetry_free; intros s Hs; under_cond; hud_cbn;
          rewrite in_app_iff; intros [Hin | [Heq | []]];
          [exact (Hs Hin) | discriminate Heq].
      * intros s [[_ Hempty] _]. unfold no_telemetry_free. rewrite Hempty. intros [].
      * auto.
      * auto.
  - apply (triple_after
             (fun s => smart_recommendations s = smart_recommendations self /\
                       performance_tips s = performance_tips self /\
                       system_status s = system_status self)).
    + apply analyze_real_data_keeps; intros v s Hs; exact Hs.
    + repeat apply conj; reflexivity.
Qed.

(** *** The satellite alerts by the GPS flag *)

Section GpsFlag.

Context `{Runtime}.

(** With six satellites or more the critical block writes no satellite alert. *)
Lemma critical_tier_enough_satellites :
  let enough := fun self =>
    (6 <=? gps_sats self)%Z = true /\ ~ In GPS_CRITICAL (critical_alerts self) /\
    warnings self = [] in
  keeps enough (fun self => ~ In GPS_CRITICAL (critical_alerts self) /\ no_gps_limited self)
    critical_tier.
Proof.
  cbv zeta. unfold critical_tier. keep_guarded.
  - intros self (Hsats & Hnone & Hempty). split; [exact Hnone |].
    intros alert Hin. rewrite Hempty in Hin. destruct Hin.
  - intros self (Hsats & Hnone & Hempty). repeat apply conj; [exact Hsats | | exact Hempty].
    hud_cbn. rewrite in_app_iff. intros [Hin | [Heq | []]];
      [exact (Hnone Hin) | discriminate Heq].
  - intros self (Hsats & Hnone & Hempty). split; [exact Hnone |].
    intros alert Hin. rewrite Hempty in Hin. destruct Hin.
  - intros self (Hsats & Hnone & Hempty). repeat apply conj; [exact Hsats | | exact Hempty].
    hud_cbn. rewrite in_app_iff. intros [Hin | [Heq | []]];
      [exact (Hnone Hin) | discriminate Heq].
  - intros self (Hsats & Hnone & Hempty) Hcond. exfalso.
    apply Z.leb_le in Hsats. apply Z.ltb_lt in Hcond. lia.
  - intros self (Hsats & Hnone & Hempty) _. repeat apply conj; [exact Hsats | | exact Hempty].
    hud_cbn. rewrite in_app_iff. intros [Hin | [Heq | []]];
      [exact (Hnone Hin) | discriminate Heq].
  - intros self (Hsats & Hnone & Hempty) _. repeat apply conj; [exact Hsats | | exact Hempty].
    hud_cbn. rewrite in_app_iff. intros [Hin | [Heq | []]];
      [exact (Hnone Hin) | discriminate Heq].
Qed.

(** With six satellites or more the warning block writes no satellite
    warning. *)
Lemma warning_tier_enough_satellites :
  let enough := fun self =>
    (6 <=? gps_sats self)%Z = true /\ ~ In GPS_CRITICAL (critical_alerts self) /\
    no_gps_limited self in
  keeps enough (fun self => ~ In GPS_CRITICAL (critical_alerts self) /\ no_gps_limited self)
    warning_tier.
Proof.
  cbv zeta. unfold warning_tier. keep_guarded.
  1: { intros self (Hsats & Hnone & Hlimited) Hcond. exfalso.
       apply andb_prop in Hcond as [Hcond _].
       apply Z.leb_le in Hsats. apply Z.ltb_lt in Hcond.
       unfold GPS_MIN_SATELLITES in Hcond. lia. }
  all: intros self (Hsats & Hnone & Hlimited); under_cond;
    repeat apply conj; [exact Hsats | exact Hnone |];
    unfold no_gps_limited in *; hud_cbn; intros alert Hin;
    apply in_app_or in Hin as [Hin | [<- | []]];
    [exact (Hlimited alert Hin) | reflexivity].
Qed.

Lemma smart_telemetry_enough_satellites (now : float) :
  triple (fun self => (6 <=? gps_sats self)%Z = true) (_analyze_smart_telemetry now)
    (fun _ self => ~ In GPS_CRITICAL (critical_alerts self) /\ no_gps_limited self)
    (fun self => ~ In GPS_CRITICAL (critical_alerts self) /\ no_gps_limited self).
Proof.
  unfold _analyze_smart_telemetry.
  seq (fun self => (6 <=? gps_sats self)%Z = true /\
                   ~ In GPS_CRITICAL (critical_alerts self) /\ warnings self = []).
  { apply clear_alerts_triple. intros self Hsats. unfold cleared. hud_cbn.
    repeat apply conj; [exact Hsats | intros [] | reflexivity]. }
  seq (fun self => (6 <=? gps_sats self)%Z = true /\
                   ~ In GPS_CRITICAL (critical_alerts self) /\ warnings self = []).
  { apply performance_calculations_keeps.
    - repeat apply conj; intros v self Hself; exact Hself.
    - intros self (Hsats & Hnone & Hempty). split; [exact Hnone |].
      intros alert Hin. rewrite Hempty in Hin. destruct Hin. }
  seq (fun self => (6 <=? gps_sats self)%Z = true /\
                   ~ In GPS_CRITICAL (critical_alerts self) /\ no_gps_limited self).
  { eapply triple_consequence; [apply critical_tier_enough_satellites | | | ].
    - auto.
    - cbv beta. intros _ self (Hsats & Hnone & Hempty).
      repeat apply conj; [exact Hsats | exact Hnone |].
      intros alert Hin. rewrite Hempty in Hin. destruct Hin.
    - auto. }
  seq (fun self => (6 <=? gps_sats self)%Z = true /\
                   ~ In GPS_CRITICAL (critical_alerts self) /\ no_gps_limited self).
  { apply warning_tier_enough_satellites. }
  eapply triple_consequence.
  - apply (closing_tiers_keep
             (fun self => ~ In GPS_CRITICAL (critical_alerts self) /\ no_gps_limited self)
             (fun self => ~ In GPS_CRITICAL (critical_alerts self) /\ no_gps_limited self));
      intros v self Hself; exact Hself.
  - intros self (_ & Hnone & Hlimited). split; assumption.
  - auto.
  - auto.
Qed.

(** X5.  The GPS flag of a frame decides the satellite alerts of the lists
    [update_from_telemetry] leaves: with the flag true, neither the satellite
    alert nor a satellite warning; with the flag false, no satellite warning
    and, when the analysis runs to its end, the satellite alert in the
    critical list. *)
Theorem gps_flag_decides_satellite_alerts (now : float) (data : Frame) (self : ModernHUD)
    (ok : bool) :
  f_gps_ok data = Some ok ->
  let self' := after (update_from_telemetry now data) self in
  (forall sats, ~ In (gps_limited sats) (warnings self')) /\
  (ok = true -> ~ In GPS_CRITICAL (critical_alerts self')) /\
  (ok = false -> outcome (update_from_telemetry now data) self = Ok tt ->
   In GPS_CRITICAL (critical_alerts self')).
Proof.
  intros Hflag. cbv zeta.
  assert (Hstored : gps_sats (stored now data self) = (if ok then 8 else 3)%Z).
  { unfold stored. cbv zeta. rewrite Hflag. reflexivity. }
  assert (Hlimited : forall s, no_gps_limited s ->
                               forall sats, ~ In (gps_limited sats) (warnings s)).
  { intros s Hnone sats Hin. apply Hnone in Hin.
    rewrite gps_limited_is_recognised in Hin. discriminate. }
  split; [| split].
  - apply Hlimited. destruct ok.
    + apply (update_from_telemetry_then (fun s => (6 <=? gps_sats s)%Z = true)).
      * rewrite Hstored. reflexivity.
      * apply real_then_smart; try (intros v s Hs; exact Hs).
        eapply triple_consequence; [apply smart_telemetry_enough_satellites | | |].
        -- auto.
        -- intros _ s [_ Hnone]. exact Hnone.
        -- intros s [_ Hnone]. exact Hnone.
    + apply (update_from_telemetry_then (fun s => (gps_sats s <? 4)%Z = true)).
      * rewrite Hstored. reflexivity.
      * apply real_then_smart; try (intros v s Hs; exact Hs).
        eapply triple_consequence; [apply smart_telemetry_few_satellites | | |].
        -- auto.
        -- intros _ s [Hnone _]. exact Hnone.
        -- auto.
  - intros ->.
    apply (update_from_telemetry_then (fun s => (6 <=? gps_sats s)%Z = true)
             (fun s => ~ In GPS_CRITICAL (critical_alerts s))).
    + rewrite Hstored. reflexivity.
    + apply real_then_smart; try (intros v s Hs; exact Hs).
      eapply triple_consequence; [apply smart_telemetry_enough_satellites | | |].
      * auto.
      * intros _ s [Hnone _]. exact Hnone.
      * intros s [Hnone _]. exact Hnone.
  - intros -> Hreturns.
    rewrite outcome_update_from_telemetry in Hreturns.
    rewrite after_update_from_telemetry.
    apply (triple_returns (fun s => (gps_sats s <? 4)%Z = true) no_gps_limited
             (fun _ s => no_gps_limited s /\ In GPS_CRITICAL (critical_alerts s))
             (_analyze_real_data ;; _analyze_smart_telemetry now)
             (stored now data self)).
    + apply real_then_smart; try (intros v s Hs; exact Hs).
      apply smart_telemetry_few_satellites.
    + rewrite Hstored. reflexivity.
    + exact Hreturns.
Qed.

End GpsFlag.

Lemma gps_flag_decides_satellite_alerts_witness :
  let self' := after (@update_from_telemetry Sample.runtime 0 slow_armed_frame) new_hud in
  (forall sats, ~ In (gps_limited sats) (warnings self')) /\
  ~ In GPS_CRITICAL (critical_alerts self').
Proof.
  pose proof (@gps_flag_decides_satellite_alerts Sample.runtime 0 slow_armed_frame new_hud
                true eq_refl) as (Hlimited & Hcritical & _).
  split; [exact Hlimited | exact (Hcritical eq_refl)].
Defined.

(** *** The lists are rebuilt *)

(** One step of a proof that counts appended entries. *)
Ltac count1 :=
  lazymatch goal with
  | |- triple _ (when _ _) _ _ => apply triple_when
  | |- triple _ (if_else _ _ _) _ _ => apply triple_if_else
  | |- triple ?P (mbind (get _) _) _ _ =>
      eapply triple_bind with (Qm := fun _ => P);
      [apply triple_get; intros ? Hpre; exact Hpre | intros ?]
  | |- triple _ (append_critical _) _ _ => unfold append_critical; apply triple_assign
  | |- triple _ (append_warning _) _ _ => unfold append_warning; apply triple_assign
  | |- triple _ (append_recommendation _) _ _ =>
      unfold append_recommendation; apply triple_assign
  | |- triple _ (append_tip _) _ _ => unfold append_tip; apply triple_assign
  | |- triple _ (append_status _) _ _ => unfold append_status; apply triple_assign
  end.
Ltac count := repeat count1.

(** The hypotheses of a counting goal, flattened. *)
Ltac counted :=
  intros;
  repeat match goal with
         | H : _ /\ _ |- _ => destruct H
         end;
  hud_cbn; try rewrite length_app; simpl; lia.

Section Rebuilt.

Context `{Runtime}.

Lemma critical_tier_size :
  triple (fun self => critical_alerts self = []) critical_tier
    (fun _ self => (List.length (critical_alerts self) <= 4)%nat)
    (fun self => critical_alerts self = []).
Proof.
  unfold critical_tier.
  seq (fun self => (List.length (critical_alerts self) <= 1)%nat).
  { apply triple_if_else; [| apply triple_when].
    - eapply triple_bind with (Qm := fun _ self => critical_alerts self = []).
      + apply triple_try_get. intros self [Hempty _].
        destruct (int_of_float (battery self * 0.3)); exact Hempty.
      + intros remaining_time. count. intros self Hempty. hud_cbn. rewrite Hempty. simpl. lia.
    - eapply triple_bind with (Qm := fun _ self => critical_alerts self = []).
      + apply triple_try_get. intros self [[Hempty _] _].
        destruct (int_of_float (battery self * 0.4)); exact Hempty.
      + intros remaining_time. count. intros self Hempty. hud_cbn. rewrite Hempty. simpl. lia.
    - intros self [Hempty _] _. rewrite Hempty. simpl. lia. }
  seq (fun self => (List.length (critical_alerts self) <= 2)%nat); [count; counted |].
  seq (fun self => (List.length (critical_alerts self) <= 3)%nat); [count; counted |].
  count; counted.
Qed.

Lemma warning_tier_size (E : ModernHUD -> Prop) :
  triple (fun self => warnings self = []) warning_tier
    (fun _ self => (List.length (warnings self) <= 5)%nat) E.
Proof.
  unfold warning_tier.
  seq (fun self => (List.length (warnings self) <= 1)%nat).
  { count.
    - intros self [Hempty _]. hud_cbn. rewrite Hempty. simpl. lia.
    - intros self Hempty _. rewrite Hempty. simpl. lia. }
  seq (fun self => (List.length (warnings self) <= 2)%nat); [count; counted |].
  seq (fun self => (List.length (warnings self) <= 3)%nat); [count; counted |].
  seq (fun self => (List.length (warnings self) <= 4)%nat); [count; counted |].
  count; counted.
Qed.

Lemma recommendation_tier_size (E : ModernHUD -> Prop) :
  triple (fun self => smart_recommendations self = []) recommendation_tier
    (fun _ self => (List.length (smart_recommendations self) <= 1)%nat) E.
Proof.
  unfold recommendation_tier. count.
  all: intros;
    repeat match goal with
           | H : _ /\ _ |- _ => destruct H
           end;
    hud_cbn;
    match goal with
    | Hempty : smart_recommendations _ = [] |- _ => rewrite Hempty
    end; simpl; lia.
Qed.

Lemma performance_tips_tier_size (E : ModernHUD -> Prop) :
  triple (fun self => performance_tips self = []) performance_tips_tier
    (fun _ self => (List.length (performance_tips self) <= 2)%nat) E.
Proof.
  unfold performance_tips_tier. apply triple_when.
  - eapply triple_bind with (Qm := fun _ self => performance_tips self = []).
    { apply triple_get. intros self [Hempty _]. exact Hempty. }
    intros efficiency.
    seq (fun self => (List.length (performance_tips self) <= 1)%nat).
    { count.
      all: intros;
        repeat match goal with
               | H : _ /\ _ |- _ => destruct H
               end;
        hud_cbn;
        match goal with
        | Hempty : performance_tips _ = [] |- _ => rewrite Hempty
        end; simpl; lia. }
    count; counted.
  - intros self Hempty _. rewrite Hempty. simpl. lia.
Qed.

Lemma system_status_tier_size (E : ModernHUD -> Prop) :
  triple (fun self => system_status self = []) system_status_tier
    (fun _ self => List.length (system_status self) = 4%nat) E.
Proof.
  unfold system_status_tier.
  seq (fun self => List.length (system_status self) = 1%nat).
  { count. intros self Hempty. hud_cbn. rewrite Hempty. reflexivity. }
  seq (fun self => List.length (system_status self) = 2%nat); [count; counted |].
  seq (fun self => List.length (system_status self) = 3%nat); [count; counted |].
  count; counted.
Qed.


(** The performance block and the critical block are where the analysis can
    raise, and they raise before the first entry is appended: an analysis
    that raises leaves the five lists empty. *)
Lemma smart_telemetry_raises_empty (now : float) :
  triple (fun _ => True) (_analyze_smart_telemetry now) (fun _ _ => True)
    (fun self => critical_alerts self = [] /\ warnings self = [] /\
                 smart_recommendations self = [] /\ performance_tips self = [] /\
                 system_status self = []).
Proof.
  set (empty := fun self => critical_alerts self = [] /\ warnings self = [] /\
                            smart_recommendations self = [] /\ performance_tips self = [] /\
                            system_status self = []).
  unfold _analyze_smart_telemetry.
  seq empty.
  { apply clear_alerts_triple. intros self _. repeat apply conj; reflexivity. }
  seq empty.
  { apply performance_calculations_keeps; [| auto].
    repeat apply conj; intros v self Hself; exact Hself. }
  seq (fun _ : ModernHUD => True).
  { unfold critical_tier.
    seq (fun _ : ModernHUD => True).
    { apply triple_if_else; [| apply triple_when; [| intros; exact I]].
      - eapply triple_bind with (Qm := fun _ _ => True).
        + apply triple_try_get. intros self [Hempty _].
          destruct (int_of_float (battery self * 0.3)); [exact I | exact Hempty].
        + intros remaining_time. count. intros; exact I.
      - eapply triple_bind with (Qm := fun _ _ => True).
        + apply triple_try_get. intros self [[Hempty _] _].
          destruct (int_of_float (battery self * 0.4)); [exact I | exact Hempty].
        + intros remaining_time. count. intros; exact I. }
    keep; intros; exact I. }
  seq (fun _ : ModernHUD => True).
  { apply warning_tier_keeps. intros v self Hself. exact Hself. }
  apply closing_tiers_keep; intros v self Hself; exact Hself.
Qed.

(** X6.  Whatever the lists held, after the analysis the critical list has at most
    four entries, the warning list five, the recommendations one, the tips
    two and the status lines four: the lists are rebuilt, and each block
    appends at most once per condition.  An analysis that returns leaves
    exactly four status lines. *)
Theorem alert_lists_are_rebuilt (now : float) (self : ModernHUD) :
  let self' := after (_analyze_smart_telemetry now) self in
  (List.length (critical_alerts self') <= 4)%nat /\
  (List.length (warnings self') <= 5)%nat /\
  (List.length (smart_recommendations self') <= 1)%nat /\
  (List.length (performance_tips self') <= 2)%nat /\
  (List.length (system_status self') <= 4)%nat /\
  (outcome (_analyze_smart_telemetry now) self = Ok tt ->
   List.length (system_status self') = 4%nat).
Proof.
  cbv zeta.
  assert (Hcritical : triple (fun _ => True) (_analyze_smart_telemetry now)
            (fun _ s => (List.length (critical_alerts s) <= 4)%nat)
            (fun s => (List.length (critical_alerts s) <= 4)%nat)).
  { assert (Hnone : forall s, critical_alerts s = [] ->
                              (List.length (critical_alerts s) <= 4)%nat).
    { intros s Hempty. rewrite Hempty. simpl. lia. }
    unfold _analyze_smart_telemetry.
    seq (fun s => critical_alerts s = []).
    { apply clear_alerts_triple. reflexivity. }
    seq (fun s => critical_alerts s = []).
    { apply performance_calculations_keeps; [| exact Hnone].
      repeat apply conj; intros v s Hs; exact Hs. }
    seq (fun s => (List.length (critical_alerts s) <= 4)%nat).
    { eapply triple_consequence; [apply critical_tier_size | | |]; auto. }
    seq (fun s => (List.length (critical_alerts s) <= 4)%nat).
    { apply warning_tier_keeps. intros v s Hs. exact Hs. }
    apply closing_tiers_keep; intros v s Hs; exact Hs. }
  assert (Hwarnings : triple (fun _ => True) (_analyze_smart_telemetry now)
            (fun _ s => (List.length (warnings s) <= 5)%nat)
            (fun s => (List.length (warnings s) <= 5)%nat)).
  { assert (Hnone : forall s, warnings s = [] -> (List.length (warnings s) <= 5)%nat).
    { intros s Hempty. rewrite Hempty. simpl. lia. }
    unfold _analyze_smart_telemetry.
    seq (fun s => warnings s = []).
    { apply clear_alerts_triple. reflexivity. }
    seq (fun s => warnings s = []).
    { apply performance_calculations_keeps; [| exact Hnone].
      repeat apply conj; intros v s Hs; exact Hs. }
    seq (fun s => warnings s = []).
    { apply critical_tier_keeps; [| exact Hnone]. intros v s Hs. exact Hs. }
    seq (fun s => (List.length (warnings s) <= 5)%nat); [apply warning_tier_size |].
    apply closing_tiers_keep; intros v s Hs; exact Hs. }
  assert (Hrecommendations : triple (fun _ => True) (_analyze_smart_telemetry now)
            (fun _ s => (List.length (smart_recommendations s) <= 1)%nat)
            (fun s => (List.length (smart_recommendations s) <= 1)%nat)).
  { assert (Hnone : forall s, smart_recommendations s = [] ->
                              (List.length (smart_recommendations s) <= 1)%nat).
    { intros s Hempty. rewrite Hempty. simpl. lia. }
    unfold _analyze_smart_telemetry.
    seq (fun s => smart_recommendations s = []).
    { apply clear_alerts_triple. reflexivity. }
    seq (fun s => smart_recommendations s = []).
    { apply performance_calculations_keeps; [| exact Hnone].
      repeat apply conj; intros v s Hs; exact Hs. }
    seq (fun s => smart_recommendations s = []).
    { apply critical_tier_keeps; [| exact Hnone]. intros v s Hs. exact Hs. }
    seq (fun s => smart_recommendations s = []).
    { apply warning_tier_keeps. intros v s Hs. exact Hs. }
    seq (fun s => (List.length (smart_recommendations s) <= 1)%nat).
    { apply recommendation_tier_size. }
    seq (fun s => (List.length (smart_recommendations s) <= 1)%nat).
    { apply performance_tips_tier_keeps. intros v s Hs. exact Hs. }
    apply system_status_tier_keeps. intros v s Hs. exact Hs. }
  assert (Htips : triple (fun _ => True) (_analyze_smart_telemetry now)
            (fun _ s => (List.length (performance_tips s) <= 2)%nat)
            (fun s => (List.length (performance_tips s) <= 2)%nat)).
  { assert (Hnone : forall s, performance_tips s = [] ->
                              (List.length (performance_tips s) <= 2)%nat).
    { intros s Hempty. rewrite Hempty. simpl. lia. }
    unfold _analyze_smart_telemetry.
    seq (fun s => performance_tips s = []).
    { apply clear_alerts_triple. reflexivity. }
    seq (fun s => performance_tips s = []).
    { apply performance_calculations_keeps; [| exact Hnone].
      repeat apply conj; intros v s Hs; exact Hs. }
    seq (fun s => performance_tips s = []).
    { apply critical_tier_keeps; [| exact Hnone]. intros v s Hs. exact Hs. }
    seq (fun s => performance_tips s = []).
    { apply warning_tier_keeps. intros v s Hs. exact Hs. }
    seq (fun s => performance_tips s = []).
    { apply recommendation_tier_keeps. intros v s Hs. exact Hs. }
    seq (fun s => (List.length (performance_tips s) <= 2)%nat).
    { apply performance_tips_tier_size. }
    apply system_status_tier_keeps. intros v s Hs. exact Hs. }
  assert (Hstatus : triple (fun _ => True) (_analyze_smart_telemetry now)
            (fun _ s => List.length (system_status s) = 4%nat)
            (fun s => system_status s = [])).
  { unfold _analyze_smart_telemetry.
    seq (fun s => system_status s = []).
    { apply clear_alerts_triple. reflexivity. }
    seq (fun s => system_status s = []).
    { apply performance_calculations_keeps; [| auto].
      repeat apply conj; intros v s Hs; exact Hs. }
    seq (fun s => system_status s = []).
    { apply critical_tier_keeps; [| auto]. intros v s Hs. exact Hs. }
    seq (fun s => system_status s = []).
    { apply warning_tier_keeps. intros v s Hs. exact Hs. }
    seq (fun s => system_status s = []).
    { apply recommendation_tier_keeps. intros v s Hs. exact Hs. }
    seq (fun s => system_status s = []).
    { apply performance_tips_tier_keeps. intros v s Hs. exact Hs. }
    apply system_status_tier_size. }
  specialize (Hcritical self I). specialize (Hwarnings self I).
  specialize (Hrecommendations self I). specialize (Htips self I).
  specialize (Hstatus self I).
  unfold after, outcome.
  destruct (_analyze_smart_telemetry now self) as [[[] | e] self']; simpl.
  - repeat apply conj; try assumption; [lia | intros _; exact Hstatus].
  - repeat apply conj; try assumption; [rewrite Hstatus; simpl; lia | discriminate].
Qed.

(** X7.  When [update_from_telemetry] raises, the five lists are left empty: the
    display shows no alert, no warning, no recommendation, no tip and no
    status line, whatever the frame would have called for. *)
Theorem raising_update_leaves_the_lists_empty (now : float) (data : Frame)
    (self : ModernHUD) (e : exn) :
  outcome (update_from_telemetry now data) self = Raise e ->
  let self' := after (update_from_telemetry now data) self in
  critical_alerts self' = [] /\ warnings self' = [] /\ smart_recommendations self' = [] /\
  performance_tips self' = [] /\ system_status self' = [].
Proof.
  intros Hraises. cbv zeta.
  rewrite outcome_update_from_telemetry in Hraises.
  rewrite after_update_from_telemetry.
  pose proof (real_then_smart (fun _ => True) (fun _ => True) _ now
                (fun _ _ _ => I) (fun _ _ _ => I) (smart_telemetry_raises_empty now)
                (stored now data self) I) as Hrun.
  unfold after, outcome in *.
  destruct ((_analyze_real_data ;; _analyze_smart_telemetry now) (stored now data self))
    as [[[] | e'] self'].
  - discriminate Hraises.
  - exact Hrun.
Qed.

End Rebuilt.

Lemma raising_update_leaves_the_lists_empty_witness :
  let run := @update_from_telemetry Sample.runtime 1700000000 nan_altitude_frame in
  outcome run new_hud = Raise ValueError /\
  critical_alerts (after run new_hud) = [] /\ warnings (after run new_hud) = [] /\
  smart_recommendations (after run new_hud) = [] /\
  performance_tips (after run new_hud) = [] /\ system_status (after run new_hud) = [].
Proof.
  assert (Hraises : outcome (@update_from_telemetry Sample.runtime 1700000000
                               nan_altitude_frame) new_hud = Raise ValueError).
  { vm_compute. reflexivity. }
  split; [exact Hraises |].
  exact (@raising_update_leaves_the_lists_empty Sample.runtime 1700000000
           nan_altitude_frame new_hud ValueError Hraises).
Defined.

(** *** The battery alert heads the critical list *)

Lemma in_tl_app {A : Type} (a x : A) (l : list A) :
  In a (tl (l ++ [x])) -> In a (tl l) \/ a = x.
Proof.
  destruct l as [| b l]; simpl.
  - intros [].
  - intros Hin. apply in_app_or in Hin as [Hin | [Heq | []]]; auto.
Qed.

Lemma hd_error_app {A : Type} (a x : A) (l : list A) :
  hd_error l = Some a -> hd_error (l ++ [x]) = Some a.
Proof. destruct l; simpl; [discriminate | auto]. Qed.

Section BatteryHead.

Context `{Runtime}.

Let not_battery := fun alert =>
  is_low_battery alert = false /\ is_critical_battery alert = false.

(** The three steps of the critical block after the battery step append no
    battery alert, and leave the head of a list that has one. *)
Lemma critical_tier_tail (I : ModernHUD -> Prop) :
  (forall text self, not_battery text -> I self ->
     I (set_critical_alerts (critical_alerts self ++ [text]) self)) ->
  forall E,
  keeps I E
    (when (fun self => (gps_sats self <? 4)%Z)
       (append_critical (fun _ => GPS_CRITICAL)) ;;
     when (fun self => fgt (abs (roll self)) CRITICAL_MAX_ROLL)
       (append_critical (fun _ => ATTITUDE_CRITICAL)) ;;
     when (fun self => fle (airspeed self) CRITICAL_MIN_AIRSPEED && armed self)
       (append_critical (fun _ => STALL_CRITICAL))).
Proof.
  intros Happend E. keep.
  all: intros self Hself; under_cond; apply Happend; [split; reflexivity | exact Hself].
Qed.

Lemma smart_telemetry_battery_tail (now : float) :
  let tail_clean := fun self =>
    forall alert, In alert (tl (critical_alerts self)) -> not_battery alert in
  triple (fun _ => True) (_analyze_smart_telemetry now) (fun _ => tail_clean) tail_clean.
Proof.
  cbv zeta.
  assert (Hnone : forall self, critical_alerts self = [] ->
            forall alert, In alert (tl (critical_alerts self)) -> not_battery alert).
  { intros self Hempty alert Hin. rewrite Hempty in Hin. destruct Hin. }
  unfold _analyze_smart_telemetry.
  seq (fun self => critical_alerts self = []).
  { apply clear_alerts_triple. reflexivity. }
  seq (fun self => critical_alerts self = []).
  { apply performance_calculations_keeps; [| exact Hnone].
    repeat apply conj; intros v self Hself; exact Hself. }
  seq (fun self => forall alert, In alert (tl (critical_alerts self)) -> not_battery alert).
  { unfold critical_tier.
    seq (fun self => forall alert, In alert (tl (critical_alerts self)) -> not_battery alert).
    { apply triple_if_else; [| apply triple_when].
      - eapply triple_bind with (Qm := fun _ self => critical_alerts self = []).
        + apply triple_try_get. intros self [Hempty _].
          destruct (int_of_float (battery self * 0.3));
            [exact Hempty | exact (Hnone self Hempty)].
        + intros remaining_time. unfold append_critical. apply triple_assign.
          intros self Hempty alert. hud_cbn. rewrite Hempty. intros [].
      - eapply triple_bind with (Qm := fun _ self => critical_alerts self = []).
        + apply triple_try_get. intros self [[Hempty _] _].
          destruct (int_of_float (battery self * 0.4));
            [exact Hempty | exact (Hnone self Hempty)].
        + intros remaining_time. unfold append_critical. apply triple_assign.
          intros self Hempty alert. hud_cbn. rewrite Hempty. intros [].
      - intros self [Hempty _] _. exact (Hnone self Hempty). }
    apply critical_tier_tail.
    intros text self Htext Hself alert. hud_cbn. intros Hin.
    apply in_tl_app in Hin as [Hin | ->]; [exact (Hself alert Hin) | exact Htext]. }
  seq (fun self => forall alert, In alert (tl (critical_alerts self)) -> not_battery alert).
  { apply warning_tier_keeps. intros v self Hself. exact Hself. }
  apply closing_tiers_keep; intros v self Hself; exact Hself.
Qed.

Lemma smart_telemetry_critical_battery (now : float) (level : float) :
  flt level 15 = true ->
  triple (fun self => battery self = level) (_analyze_smart_telemetry now)
    (fun _ self => exists remaining_time,
       int_of_float (level * 0.3) = Ok remaining_time /\
       hd_error (critical_alerts self) = Some (critical_battery remaining_time))
    (fun _ => True).
Proof.
  intros Hbelow.
  set (shown := fun self : ModernHUD => exists remaining_time,
         int_of_float (level * 0.3) = Ok remaining_time /\
         hd_error (critical_alerts self) = Some (critical_battery remaining_time)).
  unfold _analyze_smart_telemetry.
  seq (fun self => battery self = level /\ critical_alerts self = []).
  { apply clear_alerts_triple. intros self Hlevel. split; [exact Hlevel | reflexivity]. }
  seq (fun self => battery self = level /\ critical_alerts self = []).
  { apply performance_calculations_keeps; [| auto].
    repeat apply conj; intros v self Hself; exact Hself. }
  seq shown.
  { unfold critical_tier.
    seq shown.
    { apply triple_if_else.
      - eapply triple_bind with
          (Qm := fun r self => int_of_float (level * 0.3) = Ok r /\ critical_alerts self = []).
        + apply triple_try_get. intros self [[Hlevel Hempty] _]. rewrite Hlevel.
          destruct (int_of_float (level * 0.3)); [split; [reflexivity | exact Hempty] | exact I].
        + intros remaining_time. unfold append_critical. apply triple_assign.
          intros self [Hminutes Hempty]. exists remaining_time.
          split; [exact Hminutes |]. hud_cbn. rewrite Hempty. reflexivity.
      - intros self [[Hlevel _] Hcond]. rewrite Hlevel in Hcond. congruence. }
    apply critical_tier_tail.
    intros text self _ (remaining_time & Hminutes & Hhead). exists remaining_time.
    split; [exact Hminutes |]. hud_cbn. apply hd_error_app. exact Hhead. }
  seq shown.
  { apply warning_tier_keeps. intros v self Hself. exact Hself. }
  apply closing_tiers_keep; intros v self Hself; exact Hself.
Qed.

Lemma smart_telemetry_no_battery_alert (now : float) :
  let clean := fun self => forall alert, In alert (critical_alerts self) -> not_battery alert in
  triple (fun self => flt (battery self) 15 = false /\ flt (battery self) 25 = false)
    (_analyze_smart_telemetry now) (fun _ => clean) clean.
Proof.
  cbv zeta.
  set (charged := fun self : ModernHUD =>
         (flt (battery self) 15 = false /\ flt (battery self) 25 = false) /\
         critical_alerts self = []).
  assert (Hnone : forall self, charged self ->
            forall alert, In alert (critical_alerts self) -> not_battery alert).
  { intros self [_ Hempty] alert Hin. rewrite Hempty in Hin. destruct Hin. }
  unfold _analyze_smart_telemetry.
  seq charged.
  { apply clear_alerts_triple. intros self Hlevel. split; [exact Hlevel | reflexivity]. }
  seq charged.
  { apply performance_calculations_keeps; [| exact Hnone].
    repeat apply conj; intros v self Hself; exact Hself. }
  seq (fun self => forall alert, In alert (critical_alerts self) -> not_battery alert).
  { unfold critical_tier.
    seq (fun self => forall alert, In alert (critical_alerts self) -> not_battery alert).
    { apply triple_if_else; [| apply triple_when].
      - intros self [[[Hlevel _] _] Hcond]. congruence.
      - intros self [[[[_ Hlevel] _] _] Hcond]. congruence.
      - intros self [Hcharged _] _. exact (Hnone self Hcharged). }
    apply critical_tier_tail.
    intros text self Htext Hself alert. hud_cbn. intros Hin.
    apply in_app_or in Hin as [Hin | [<- | []]]; [exact (Hself alert Hin) | exact Htext]. }
  seq (fun self => forall alert, In alert (critical_alerts self) -> not_battery alert).
  { apply warning_tier_keeps. intros v self Hself. exact Hself. }
  apply closing_tiers_keep; intros v self Hself; exact Hself.
Qed.

(** X8.  The critical list the analysis leaves has a battery alert at most at its
    head.  Below 15 percent an analysis that runs to its end puts the
    critical-battery alert there, with [int(battery * 0.3)] minutes; when the
    battery is neither below 15 nor below 25 (so also when it is not a
    number) the list holds no battery alert. *)
Theorem battery_alert_heads_the_critical_list (now : float) (self : ModernHUD) :
  let self' := after (_analyze_smart_telemetry now) self in
  (forall alert, In alert (tl (critical_alerts self')) ->
     is_low_battery alert = false /\ is_critical_battery alert = false) /\
  (flt (battery self) 15 = true ->
   outcome (_analyze_smart_telemetry now) self = Ok tt ->
   exists remaining_time,
     int_of_float (battery self * 0.3) = Ok remaining_time /\
     hd_error (critical_alerts self') = Some (critical_battery remaining_time)) /\
  (flt (battery self) 15 = false -> flt (battery self) 25 = false ->
   forall alert, In alert (critical_alerts self') ->
     is_low_battery alert = false /\ is_critical_battery alert = false).
Proof.
  cbv zeta. split; [| split].
  - apply (triple_after (fun _ => True)
             (fun s => forall alert, In alert (tl (critical_alerts s)) -> not_battery alert));
      [apply smart_telemetry_battery_tail | exact I].
  - intros Hbelow Hreturns.
    exact (triple_returns _ _ _ _ self
             (smart_telemetry_critical_battery now (battery self) Hbelow) eq_refl Hreturns).
  - intros Hcritical Hlow.
    apply (triple_after
             (fun s => flt (battery s) 15 = false /\ flt (battery s) 25 = false)
             (fun s => forall alert, In alert (critical_alerts s) -> not_battery alert));
      [apply smart_telemetry_no_battery_alert | split; assumption].
Qed.

End BatteryHead.

Lemma battery_alert_heads_the_critical_list_witness :
  let self' := after (@_analyze_smart_telemetry Sample.runtime 0) (set_battery 10 new_hud) in
  hd_error (critical_alerts self') = Some "🚨 CRITICAL BATTERY: 3min left - LAND NOW" /\
  forall alert, In alert (tl (critical_alerts self')) ->
    is_low_battery alert = false /\ is_critical_battery alert = false.
Proof.
  pose proof (@battery_alert_heads_the_critical_list Sample.runtime 0 (set_battery 10 new_hud))
    as (Htail & Hhead & _).
  split; [| exact Htail].
  destruct (Hhead eq_refl eq_refl) as (remaining_time & Hminutes & Hshown).
  vm_compute in Hminutes. injection Hminutes as <-. exact Hshown.
Defined.

(** *** The clearance for takeoff *)

Section Clearance.

Context `{Runtime}.

(** What the critical block tests, all false. *)
Let calm := fun self =>
  flt (battery self) 15 = false /\ flt (battery self) 25 = false /\
  (gps_sats self <? 4)%Z = false /\
  fgt (abs (roll self)) CRITICAL_MAX_ROLL = false /\
  fle (airspeed self) CRITICAL_MIN_AIRSPEED && armed self = false.

Lemma critical_tier_calm :
  triple (fun self => critical_alerts self = [] /\ smart_recommendations self = [])
    critical_tier
    (fun _ self => (critical_alerts self = [] -> calm self) /\ smart_recommendations self = [])
    (fun self => smart_recommendations self = []).
Proof.
  unfold critical_tier.
  eapply triple_bind with
    (Qm := fun _ self =>
       (critical_alerts self = [] ->
        flt (battery self) 15 = false /\ flt (battery self) 25 = false) /\
       smart_recommendations self = []).
  { apply triple_if_else; [| apply triple_when].
    - eapply triple_bind with (Qm := fun _ self => smart_recommendations self = []).
      + apply triple_try_get. intros self [[_ Hnone] _].
        destruct (int_of_float (battery self * 0.3)); exact Hnone.
      + intros remaining_time. unfold append_critical. apply triple_assign.
        intros self Hnone. split; [| exact Hnone].
        hud_cbn. intros Hempty. destruct (critical_alerts self); discriminate Hempty.
    - eapply triple_bind with (Qm := fun _ self => smart_recommendations self = []).
      + apply triple_try_get. intros self [[[_ Hnone] _] _].
        destruct (int_of_float (battery self * 0.4)); exact Hnone.
      + intros remaining_time. unfold append_critical. apply triple_assign.
        intros self Hnone. split; [| exact Hnone].
        hud_cbn. intros Hempty. destruct (critical_alerts self); discriminate Hempty.
    - intros self [[_ Hnone] Hcritical] Hlow. split; [| exact Hnone].
      intros _. split; assumption. }
  intros _.
  eapply triple_bind with
    (Qm := fun _ self =>
       (critical_alerts self = [] ->
        flt (battery self) 15 = false /\ flt (battery self) 25 = false /\
        (gps_sats self <? 4)%Z = false) /\
       smart_recommendations self = []).
  { unfold append_critical. apply triple_when.
    - apply triple_assign. intros self [[_ Hnone] _]. split; [| exact Hnone].
      hud_cbn. intros Hempty. destruct (critical_alerts self); discriminate Hempty.
    - intros self [Hcalm Hnone] Hcond. split; [| exact Hnone].
      intros Hempty. destruct (Hcalm Hempty). repeat apply conj; assumption. }
  intros _.
  eapply triple_bind with
    (Qm := fun _ self =>
       (critical_alerts self = [] ->
        flt (battery self) 15 = false /\ flt (battery self) 25 = false /\
        (gps_sats self <? 4)%Z = false /\
        fgt (abs (roll self)) CRITICAL_MAX_ROLL = false) /\
       smart_recommendations self = []).
  { unfold append_critical. apply triple_when.
    - apply triple_assign. intros self [[_ Hnone] _]. split; [| exact Hnone].
      hud_cbn. intros Hempty. destruct (critical_alerts self); discriminate Hempty.
    - intros self [Hcalm Hnone] Hcond. split; [| exact Hnone].
      intros Hempty. destruct (Hcalm Hempty) as (H15 & H25 & Hsats).
      repeat apply conj; assumption. }
  intros _.
  unfold append_critical. apply triple_when.
  - apply triple_assign. intros self [[_ Hnone] _]. split; [| exact Hnone].
    hud_cbn. intros Hempty. destruct (critical_alerts self); discriminate Hempty.
  - intros self [Hcalm Hnone] Hcond. split; [| exact Hnone].
    intros Hempty. destruct (Hcalm Hempty) as (H15 & H25 & Hsats & Hroll).
    repeat apply conj; assumption.
Qed.

Let cleared_only_when_calm := fun self =>
  In SYSTEMS_READY (smart_recommendations self) ->
  critical_alerts self = [] /\ mode self = "ARMED" /\ calm self.

Lemma recommendation_tier_clears_when_calm :
  triple (fun self => (critical_alerts self = [] -> calm self) /\
                      smart_recommendations self = [])
    recommendation_tier (fun _ => cleared_only_when_calm) cleared_only_when_calm.
Proof.
  unfold recommendation_tier. apply triple_if_else.
  - unfold append_recommendation. apply triple_assign.
    intros self [[Hcalm Hnone] Hcond] _. hud_cbn.
    apply andb_prop in Hcond as [Hmode Hempty].
    apply String.eqb_eq in Hmode. apply Nat.eqb_eq in Hempty.
    apply length_zero_iff_nil in Hempty. auto.
  - count.
    all: intros; repeat match goal with
                        | Hpre : _ /\ _ |- _ => destruct Hpre
                        end;
      unfold cleared_only_when_calm; hud_cbn;
      match goal with
      | Hnone : smart_recommendations _ = [] |- _ => rewrite Hnone
      end;
      simpl; intros Hin;
      repeat match goal with
             | Hor : _ \/ _ |- _ => destruct Hor
             | Heq : _ = SYSTEMS_READY |- _ => discriminate Heq
             | Hfalse : False |- _ => destruct Hfalse
             end.
Qed.

(** X9.  The recommendation that the systems are ready and takeoff is safe is in
    the list only when the critical list is empty and the mode is [ARMED],
    and then nothing the critical block tests holds: the battery is not
    below 25 percent, there are at least four satellites, the roll is within
    the limit and the vehicle is not armed at stall speed. *)
Theorem takeoff_clearance_needs_a_calm_state (now : float) (self : ModernHUD) :
  let self' := after (_analyze_smart_telemetry now) self in
  In SYSTEMS_READY (smart_recommendations self') ->
  critical_alerts self' = [] /\ mode self' = "ARMED" /\
  flt (battery self') 15 = false /\ flt (battery self') 25 = false /\
  (4 <= gps_sats self')%Z /\
  fgt (abs (roll self')) CRITICAL_MAX_ROLL = false /\
  fle (airspeed self') CRITICAL_MIN_AIRSPEED && armed self' = false.
Proof.
  cbv zeta. intros Hshown.
  assert (Hrun : triple (fun _ => True) (_analyze_smart_telemetry now)
                   (fun _ => cleared_only_when_calm) cleared_only_when_calm).
  { assert (Hnone : forall s, smart_recommendations s = [] -> cleared_only_when_calm s).
    { intros s Hempty Hin. rewrite Hempty in Hin. destruct Hin. }
    unfold _analyze_smart_telemetry.
    seq (fun s => critical_alerts s = [] /\ smart_recommendations s = []).
    { apply clear_alerts_triple. intros s _. split; reflexivity. }
    seq (fun s => critical_alerts s = [] /\ smart_recommendations s = []).
    { apply performance_calculations_keeps.
      - repeat apply conj; intros v s Hs; exact Hs.
      - intros s [_ Hempty]. exact (Hnone s Hempty). }
    seq (fun s => (critical_alerts s = [] -> calm s) /\ smart_recommendations s = []).
    { eapply triple_consequence; [apply critical_tier_calm | | |]; auto. }
    seq (fun s => (critical_alerts s = [] -> calm s) /\ smart_recommendations s = []).
    { apply warning_tier_keeps. intros v s Hs. exact Hs. }
    seq cleared_only_when_calm; [apply recommendation_tier_clears_when_calm |].
    seq cleared_only_when_calm.
    { apply performance_tips_tier_keeps. intros v s Hs. exact Hs. }
    apply system_status_tier_keeps. intros v s Hs. exact Hs. }
  pose proof (triple_after _ _ _ self Hrun I Hshown)
    as (Hempty & Hmode & H15 & H25 & Hsats & Hroll & Hstall).
  repeat apply conj; try assumption.
  apply Z.ltb_ge in Hsats. exact Hsats.
Qed.

End Clearance.

Lemma takeoff_clearance_needs_a_calm_state_witness :
  let self := set_mode "ARMED" (set_battery 80 (set_gps_sats 8 new_hud)) in
  let self' := after (@_analyze_smart_telemetry Sample.runtime 0) self in
  In SYSTEMS_READY (smart_recommendations self') /\ critical_alerts self' = [].
Proof.
  assert (Hshown : In SYSTEMS_READY
            (smart_recommendations
               (after (@_analyze_smart_telemetry Sample.runtime 0)
                  (set_mode "ARMED" (set_battery 80 (set_gps_sats 8 new_hud)))))).
  { vm_compute. left. reflexivity. }
  split; [exact Hshown |].
  exact (proj1 (@takeoff_clearance_needs_a_calm_state Sample.runtime 0 _ Hshown)).
Defined.

(** ** The frames the decoder returns *)

(** The cases of [parse_part] that return. *)
Ltac parse_cases Hpart :=
  unfold parse_part in Hpart;
  repeat match type of Hpart with
         | bind (or_value_error ?x) _ = Ok _ => destruct x eqn:?; simpl in Hpart
         | match ?x with _ => _ end = Ok _ => destruct x eqn:?; simpl in Hpart
         | (if ?c then _ else _) = Ok _ => destruct c eqn:?
         | (let '(_, _) := ?x in _) = Ok _ => destruct x eqn:?
         | Raise _ = Ok _ => discriminate Hpart
         | Ok _ = Ok _ => injection Hpart as <-
         end.

Section Frames.

Context `{Runtime}.

(** What the body of the loop keeps, the loop keeps. *)
Lemma parse_parts_invariant (P : Frame -> Prop) (parts todo : list string) :
  (forall part data data',
     In part todo -> P data -> parse_part parts part data = Ok data' -> P data') ->
  forall data data', P data -> parse_parts parts todo data = Ok data' -> P data'.
Proof.
  induction todo as [| part rest IH]; intros Hstep data data' Hdata Hrun; simpl in Hrun.
  - injection Hrun as <-. exact Hdata.
  - destruct (parse_part parts part data) as [d | e] eqn:Hpart; simpl in Hrun;
      [| discriminate Hrun].
    apply (IH (fun p a b Hin => Hstep p a b (or_intror Hin)) d data'); [| exact Hrun].
    apply (Hstep part data d); [left; reflexivity | exact Hdata | exact Hpart].
Qed.

(** A frame comes from a line with the prefix, by the loop over its parts. *)
Lemma parse_telemetry_frame (line : string) (data : Frame) :
  _parse_telemetry line = Ok (Some data) ->
  String.prefix "SUM:" line = true /\
  let parts := str_split "|" (str_drop 4 line) in
  parse_parts parts parts empty_frame = Ok data.
Proof.
  unfold _parse_telemetry, parse_body.
  destruct (String.prefix "SUM:" line); [| discriminate].
  destruct (parse_parts _ _ empty_frame) as [d | e]; simpl; [| discriminate].
  intros Hdata. injection Hdata as <-. split; reflexivity.
Qed.

(** The decoder has no key for the battery. *)
Lemma decoder_sets_no_battery (line : string) (data : Frame) :
  _parse_telemetry line = Ok (Some data) -> f_battery data = None.
Proof.
  intros Hline. apply parse_telemetry_frame in Hline as [_ Hrun]. cbv zeta in Hrun.
  revert Hrun. apply (parse_parts_invariant (fun d => f_battery d = None)); [| reflexivity].
  intros part d d' _ Hbattery Hpart. parse_cases Hpart; exact Hbattery.
Qed.

(** X11.  The shape of every frame the decoder returns: no battery entry (the
    decoder has no key for it); the four system flags all absent or all
    present, read off one [Sys] value; the roll and the pitch both absent or
    both present. *)
Theorem decoded_frame_shape (line : string) (data : Frame) :
  _parse_telemetry line = Ok (Some data) ->
  f_battery data = None /\
  ((f_gps_ok data = None /\ f_imu_ok data = None /\ f_link_ok data = None /\
    f_motor_armed data = None) \/
   (exists value,
      f_gps_ok data = Some (str_contains "G" value) /\
      f_imu_ok data = Some (str_contains "I" value) /\
      f_link_ok data = Some (str_contains "L" value) /\
      f_motor_armed data = Some (str_contains "M" value))) /\
  (f_roll data = None <-> f_pitch data = None).
Proof.
  intros Hline. apply parse_telemetry_frame in Hline as [_ Hrun]. cbv zeta in Hrun.
  revert Hrun.
  apply (parse_parts_invariant (fun d =>
    f_battery d = None /\
    ((f_gps_ok d = None /\ f_imu_ok d = None /\ f_link_ok d = None /\
      f_motor_armed d = None) \/
     (exists value,
        f_gps_ok d = Some (str_contains "G" value) /\
        f_imu_ok d = Some (str_contains "I" value) /\
        f_link_ok d = Some (str_contains "L" value) /\
        f_motor_armed d = Some (str_contains "M" value))) /\
    (f_roll d = None <-> f_pitch d = None))).
  - intros part d d' _ (Hbattery & Hflags & Hattitude) Hpart.
    parse_cases Hpart; simpl;
      (split; [exact Hbattery | split];
       [first [exact Hflags | right; eexists; repeat apply conj; reflexivity]
       | first [exact Hattitude | split; discriminate]]).
  - split; [reflexivity | split; [left; repeat apply conj; reflexivity | split; reflexivity]].
Qed.


(** X12.  Every entry of a frame is the reading of a part of the line: the decoder
    invents no value.  The number behind [airspeed] is what [float()] makes
    of the value of some [AS] part, and so on for each key; a flag is the
    presence of its letter in some [Sys] value. *)
Theorem decoded_values_come_from_the_line (line : string) (data : Frame) :
  _parse_telemetry line = Ok (Some data) ->
  let parts := str_split "|" (str_drop 4 line) in
  (forall v, f_airspeed data = Some v -> reads parts "AS" float_of_str v) /\
  (forall v, f_altitude data = Some v -> reads parts "Alt" float_of_str v) /\
  (forall v, f_heading data = Some v -> reads parts "Hdg" float_of_str v) /\
  (forall v, f_roll data = Some v -> reads parts "Att" roll_of v) /\
  (forall v, f_pitch data = Some v -> reads parts "Att" pitch_of v) /\
  (forall v, f_throttle data = Some v -> reads parts "Thr" int_of_str v) /\
  (forall v, f_waypoint data = Some v -> reads parts "WP" int_of_str v) /\
  (forall v, f_safety_state data = Some v -> reads parts "Saf" Some v) /\
  (forall v, f_gps_ok data = Some v ->
     reads parts "Sys" (fun value => Some (str_contains "G" value)) v) /\
  (forall v, f_motor_armed data = Some v ->
     reads parts "Sys" (fun value => Some (str_contains "M" value)) v).
Proof.
  intros Hline. apply parse_telemetry_frame in Hline as [_ Hrun]. cbv zeta in *.
  revert Hrun. generalize (str_split "|" (str_drop 4 line)). intros parts.
  apply (parse_parts_invariant (fun d =>
    (forall v, f_airspeed d = Some v -> reads parts "AS" float_of_str v) /\
    (forall v, f_altitude d = Some v -> reads parts "Alt" float_of_str v) /\
    (forall v, f_heading d = Some v -> reads parts "Hdg" float_of_str v) /\
    (forall v, f_roll d = Some v -> reads parts "Att" roll_of v) /\
    (forall v, f_pitch d = Some v -> reads parts "Att" pitch_of v) /\
    (forall v, f_throttle d = Some v -> reads parts "Thr" int_of_str v) /\
    (forall v, f_waypoint d = Some v -> reads parts "WP" int_of_str v) /\
    (forall v, f_safety_state d = Some v -> reads parts "Saf" Some v) /\
    (forall v, f_gps_ok d = Some v ->
       reads parts "Sys" (fun value => Some (str_contains "G" value)) v) /\
    (forall v, f_motor_armed d = Some v ->
       reads parts "Sys" (fun value => Some (str_contains "M" value)) v))).
  - intros part d d' Hin (Has & Halt & Hhdg & Hroll & Hpitch & Hthr & Hwp & Hsaf & Hgps & Harm)
      Hpart.
    parse_cases Hpart;
      repeat match goal with
             | Hkey : (_ =? _)%string = true |- _ => apply String.eqb_eq in Hkey; subst
             end;
      simpl; repeat apply conj; try assumption;
      intros v Hv; injection Hv as <-; exists part; eexists;
      (split; [exact Hin | split; [eassumption |]]);
      try assumption; try reflexivity.
    + unfold roll_of. rewrite Heql. assumption.
    + unfold pitch_of. rewrite Heql. assumption.
  - repeat apply conj; intros v Hv; discriminate Hv.
Qed.

(** X13.  The mode of a frame: the first part of the line when some part of the
    line has a colon and a key the decoder does not know, and absent
    otherwise.  A line of known keys has no mode, whatever its first part. *)
Theorem mode_decoded_iff_unknown_key (line : string) (data : Frame) :
  _parse_telemetry line = Ok (Some data) ->
  let parts := str_split "|" (str_drop 4 line) in
  f_mode data = if existsb unknown_key parts then hd_error parts else None.
Proof.
  intros Hline. apply parse_telemetry_frame in Hline as [_ Hrun]. cbv zeta in *.
  revert Hrun. generalize (str_split "|" (str_drop 4 line)). intros parts.
  assert (Hstep : forall part d d',
            parse_part parts part d = Ok d' ->
            f_mode d' = if unknown_key part then
                          match parts with first :: _ => Some first | [] => f_mode d end
                        else f_mode d).
  { intros part d d' Hpart. unfold unknown_key, known_keys.
    parse_cases Hpart; simpl; try reflexivity;
      repeat match goal with
             | Hkey : (_ =? _)%string = _ |- _ => rewrite Hkey
             end; reflexivity. }
  assert (Hloop : forall todo d d',
            parse_parts parts todo d = Ok d' ->
            f_mode d' = if existsb unknown_key todo then
                          match parts with first :: _ => Some first | [] => f_mode d end
                        else f_mode d).
  { induction todo as [| part rest IH]; intros d d' Hrun; simpl in Hrun.
    - injection Hrun as <-. reflexivity.
    - destruct (parse_part parts part d) as [d1 | e] eqn:Hpart; simpl in Hrun;
        [| discriminate Hrun].
      rewrite (IH d1 d' Hrun). rewrite (Hstep part d d1 Hpart). simpl.
      destruct (unknown_key part), (existsb unknown_key rest), parts; reflexivity. }
  intros Hrun. rewrite (Hloop parts empty_frame data Hrun).
  destruct parts; reflexivity.
Qed.

End Frames.

Lemma decoded_frame_shape_witness :
  exists data,
    @_parse_telemetry Sample.runtime "SUM:AS:3|Att:2,-1|Sys:GILM" = Ok (Some data) /\
    f_battery data = None /\ f_gps_ok data = Some true /\ f_motor_armed data = Some true /\
    f_roll data <> None /\ f_pitch data <> None.
Proof.
  destruct (@_parse_telemetry Sample.runtime "SUM:AS:3|Att:2,-1|Sys:GILM")
    as [[data |] | e] eqn:Hline; try (vm_compute in Hline; discriminate Hline).
  exists data. split; [reflexivity |].
  destruct (@decoded_frame_shape Sample.runtime _ data Hline) as (Hbattery & _ & Hattitude).
  split; [exact Hbattery |].
  vm_compute in Hline. injection Hline as <-.
  repeat apply conj; try reflexivity; discriminate.
Defined.

Lemma decoded_values_come_from_the_line_witness :
  exists data,
    @_parse_telemetry Sample.runtime "SUM:AS:50.5|Alt:120" = Ok (Some data) /\
    f_airspeed data = Some 50.5%float /\
    reads ["AS:50.5"; "Alt:120"] "AS" Sample.float_of_str 50.5%float.
Proof.
  exists cruise_frame.
  assert (Hline : @_parse_telemetry Sample.runtime "SUM:AS:50.5|Alt:120"
                  = Ok (Some cruise_frame)) by (vm_compute; reflexivity).
  split; [exact Hline |]. split; [reflexivity |].
  exact (proj1 (@decoded_values_come_from_the_line Sample.runtime _ _ Hline) _ eq_refl).
Defined.

Lemma mode_decoded_iff_unknown_key_witness :
  exists data,
    @_parse_telemetry Sample.runtime "SUM:MANUAL|AS:50.5|Foo:1" = Ok (Some data) /\
    f_mode data = Some "MANUAL".
Proof.
  destruct (@_parse_telemetry Sample.runtime "SUM:MANUAL|AS:50.5|Foo:1")
    as [[data |] | e] eqn:Hline; try (vm_compute in Hline; discriminate Hline).
  exists data. split; [reflexivity |].
  rewrite (@mode_decoded_iff_unknown_key Sample.runtime _ data Hline). reflexivity.
Defined.

(** ** The link from connect to disconnect *)

(** X16.  [connect] returns whether the link is connected when it is done, and it
    is exactly when the name is a port name and the device opens.  A link
    that was connected is disconnected first, so a failed attempt to change
    the port leaves the link disconnected. *)
Theorem connect_returns_whether_connected (port_name : string) (opened : option string)
    (self : SerialCommunication) :
  let '(self', effects, success) := connect port_name opened self in
  is_connected self' = success /\
  (success = true <->
   opened = None /\ port_name <> EmptyString /\ port_name <> "No Connection") /\
  (success = true ->
   serial_port self' = Some (mkSerial port_name true) /\ current_port self' = port_name /\
   read_timer_active self' = true) /\
  (forall p, serial_port self = Some p -> is_open p = true ->
   firstn 3 effects = [TimerStop; PortClose (port p); ConnectionStatus false "Disconnected"]).
Proof.
  unfold connect.
  assert (Hleft : forall s, is_connected s = true ->
            is_connected (fst (disconnect s)) = false /\
            forall p, serial_port s = Some p ->
              snd (disconnect s)
              = [TimerStop; PortClose (port p); ConnectionStatus false "Disconnected"]).
  { intros s Hs. unfold is_connected, disconnect in *.
    destruct (serial_port s) as [q |]; [| discriminate Hs].
    split; [reflexivity |]. intros p Hp. injection Hp as <-. reflexivity. }
  destruct (is_connected self) eqn:Hconnected.
  - destruct (Hleft self Hconnected) as [Hclosed Heffects].
    destruct (disconnect self) as [self1 closing]. simpl in Hclosed, Heffects.
    destruct (String.eqb port_name EmptyString) eqn:Hempty; simpl.
    + apply String.eqb_eq in Hempty. repeat apply conj; try discriminate.
      * exact Hclosed.
      * intros (_ & Hname & _). contradiction.
      * intros p Hp _. rewrite (Heffects p Hp). reflexivity.
    + apply String.eqb_neq in Hempty.
      destruct (String.eqb port_name "No Connection") eqn:Hnone; simpl.
      * apply String.eqb_eq in Hnone. repeat apply conj; try discriminate.
        -- exact Hclosed.
        -- intros (_ & _ & Hname). contradiction.
        -- intros p Hp _. rewrite (Heffects p Hp). reflexivity.
      * apply String.eqb_neq in Hnone. destruct opened as [err |].
        -- repeat apply conj; try discriminate.
           ++ exact Hclosed.
           ++ intros (Hopened & _). discriminate Hopened.
           ++ intros p Hp _. rewrite (Heffects p Hp). reflexivity.
        -- repeat apply conj; try reflexivity; auto.
           intros p Hp _. rewrite (Heffects p Hp). reflexivity.
  - assert (Hnever : forall p, serial_port self = Some p -> is_open p = true -> False).
    { intros p Hp Hopen. unfold is_connected in Hconnected. rewrite Hp in Hconnected.
      congruence. }
    destruct (String.eqb port_name EmptyString) eqn:Hempty; simpl.
    + apply String.eqb_eq in Hempty. repeat apply conj; try discriminate.
      * exact Hconnected.
      * intros (_ & Hname & _). contradiction.
      * intros p Hp Hopen. destruct (Hnever p Hp Hopen).
    + apply String.eqb_neq in Hempty.
      destruct (String.eqb port_name "No Connection") eqn:Hnone; simpl.
      * apply String.eqb_eq in Hnone. repeat apply conj; try discriminate.
        -- exact Hconnected.
        -- intros (_ & _ & Hname). contradiction.
        -- intros p Hp Hopen. destruct (Hnever p Hp Hopen).
      * apply String.eqb_neq in Hnone. destruct opened as [err |].
        -- repeat apply conj; try discriminate.
           ++ exact Hconnected.
           ++ intros (Hopened & _). discriminate Hopened.
           ++ intros p Hp Hopen. destruct (Hnever p Hp Hopen).
        -- repeat apply conj; try reflexivity; auto.
           intros p Hp Hopen. destruct (Hnever p Hp Hopen).
Qed.

(** Each call keeps the port, the port name and the read timer together. *)
Lemma disconnect_consistent (self : SerialCommunication) :
  consistent self -> consistent (fst (disconnect self)).
Proof.
  intros Hself. unfold disconnect.
  destruct (serial_port self) as [p |] eqn:Hport; simpl.
  - split; reflexivity.
  - exact Hself.
Qed.

Lemma connect_consistent (port_name : string) (opened : option string)
    (self : SerialCommunication) :
  consistent self -> consistent (fst (fst (connect port_name opened self))).
Proof.
  intros Hself. unfold connect.
  assert (Hfirst : consistent
            (fst (if is_connected self then disconnect self else (self, [])))).
  { destruct (is_connected self); [apply disconnect_consistent |]; exact Hself. }
  destruct (if is_connected self then disconnect self else (self, [])) as [self1 closing].
  simpl in Hfirst.
  destruct (String.eqb port_name EmptyString || String.eqb port_name "No Connection");
    [exact Hfirst |].
  destruct opened as [err |]; simpl; [exact Hfirst |].
  repeat apply conj; reflexivity.
Qed.

Lemma on_port_changed_consistent (port_name : string) (opened : option string)
    (self : SerialCommunication) :
  consistent self -> consistent (fst (fst (_on_port_changed port_name opened self))).
Proof.
  intros Hself. unfold _on_port_changed.
  destruct (String.eqb port_name "No Connection").
  - pose proof (disconnect_consistent self Hself) as Hleft.
    destruct (disconnect self) as [self1 effects]. exact Hleft.
  - pose proof (connect_consistent port_name opened self Hself) as Hdone.
    destruct (connect port_name opened self) as [[self1 effects] success]. exact Hdone.
Qed.

Lemma consistent_timer (self : SerialCommunication) :
  consistent self -> read_timer_active self = is_connected self.
Proof.
  unfold consistent, is_connected. destruct (serial_port self) as [p |].
  - intros (Hopen & _ & Htimer). congruence.
  - intros [_ Htimer]. exact Htimer.
Qed.

(** X17.  After every history of calls on a new link, whatever the names and
    whatever the devices do: the read timer runs exactly while the link is
    connected, a port that is held is open and is the one [current_port]
    names, and without a port the name is empty. *)
Theorem link_stays_consistent (calls : list call) :
  let self := run_calls calls in
  read_timer_active self = is_connected self /\
  match serial_port self with
  | Some p => is_open p = true /\ current_port self = port p
  | None => current_port self = EmptyString
  end.
Proof.
  cbv zeta.
  assert (Hall : forall cs self, consistent self -> consistent (fold_left run_call cs self)).
  { induction cs as [| c cs IH]; intros self Hself; simpl; [exact Hself |].
    apply IH. destruct c as [port_name opened | | port_name opened]; simpl.
    - apply connect_consistent. exact Hself.
    - apply disconnect_consistent. exact Hself.
    - apply on_port_changed_consistent. exact Hself. }
  assert (Hnew : consistent new_link) by (split; reflexivity).
  pose proof (Hall calls new_link Hnew) as Hnow. fold (run_calls calls) in Hnow.
  split; [apply consistent_timer; exact Hnow |].
  unfold consistent in Hnow. destruct (serial_port (run_calls calls)) as [p |].
  - destruct Hnow as (Hopen & Hname & _). split; assumption.
  - destruct Hnow as [Hname _]. exact Hname.
Qed.

(** X18.  [send_command] writes nothing on a link that is not connected.  What it
    writes is the command and a line feed, once, and it returns [True] exactly
    when that was written; a write that fails is reported by one status
    change (the link is not closed).  After [disconnect] every command is
    refused without a trace. *)
Theorem send_command_needs_the_link (command : string) (written : option string)
    (self : SerialCommunication) :
  let '(success, traffic) := send_command command written self in
  (is_connected self = false -> success = false /\ traffic = []) /\
  (success = true <-> traffic = [PortWrite (command ++ newline)]) /\
  (success = true <-> is_connected self = true /\ written = None) /\
  (forall err, is_connected self = true -> written = Some err ->
     traffic = [Link (ConnectionStatus false ("Send error: " ++ err))]) /\
  send_command command written (fst (disconnect self)) = (false, []).
Proof.
  assert (Hleft : is_connected (fst (disconnect self)) = false).
  { unfold disconnect, is_connected.
    destruct (serial_port self) as [p |] eqn:Hport; simpl; [| rewrite Hport]; reflexivity. }
  unfold send_command. rewrite Hleft.
  destruct (is_connected self), written as [err |]; simpl;
    repeat apply conj; try reflexivity; try discriminate; auto;
    try (intros [Hyes Hno]; discriminate);
    try (intros e _ He; injection He as <-; reflexivity).
Qed.

(** X19.  [_on_port_changed] tells the chat what the link is like afterwards: the
    messages of a connection and of a failure go with a connected and a
    disconnected link, and choosing [No Connection] leaves the link
    disconnected, with its message also when no port was held (when the link
    itself emits no status change). *)
Theorem port_change_reports_the_link (port_name : string) (opened : option string)
    (self : SerialCommunication) :
  let '(self', effects, message) := _on_port_changed port_name opened self in
  (port_name = "No Connection" ->
   is_connected self' = false /\ message = "📡 Disconnected from COM port" /\
   (serial_port self = None -> effects = [])) /\
  (port_name <> "No Connection" ->
   (is_connected self' = true /\
    message = "📡 Connected to " ++ port_name ++ " - Listening for AirDarwin telemetry") \/
   (is_connected self' = false /\ message = "❌ Failed to connect to " ++ port_name)).
Proof.
  unfold _on_port_changed.
  destruct (String.eqb port_name "No Connection") eqn:Hname.
  - apply String.eqb_eq in Hname.
    assert (Hleft : is_connected (fst (disconnect self)) = false /\
                    (serial_port self = None -> snd (disconnect self) = [])).
    { unfold disconnect, is_connected.
      destruct (serial_port self) as [p |] eqn:Hport; simpl.
      - split; [reflexivity | discriminate].
      - rewrite Hport. split; reflexivity. }
    destruct (disconnect self) as [self1 effects]. simpl in Hleft.
    split; [| contradiction].
    intros _. destruct Hleft as [Hclosed Hsilent]. repeat apply conj; auto.
  - apply String.eqb_neq in Hname.
    assert (Hdone : is_connected (fst (fst (connect port_name opened self)))
                    = snd (connect port_name opened self)).
    { unfold connect.
      assert (Hfirst : is_connected self = true ->
                       is_connected (fst (disconnect self)) = false).
      { unfold disconnect, is_connected.
        destruct (serial_port self) as [p |]; [reflexivity | discriminate]. }
      destruct (is_connected self) eqn:Hconnected.
      - specialize (Hfirst eq_refl). destruct (disconnect self) as [self1 closing].
        simpl in Hfirst.
        destruct (String.eqb port_name EmptyString || String.eqb port_name "No Connection");
          [exact Hfirst |].
        destruct opened as [err |]; [exact Hfirst | reflexivity].
      - destruct (String.eqb port_name EmptyString || String.eqb port_name "No Connection");
          [exact Hconnected |].
        destruct opened as [err |]; [exact Hconnected | reflexivity]. }
    destruct (connect port_name opened self) as [[self1 effects] success]. simpl in Hdone.
    split; [intros Heq; contradiction |].
    intros _. destruct success; [left | right]; split; auto.
Qed.

Section Reading.

Context `{Runtime}.

Variable str_exn : exn -> string.


(** A frame that is delivered is the frame of the line. *)
Lemma delivered_frame_is_decoded (line : string) (self : SerialCommunication) (data : Frame) :
  In (DataReceived data) (_read_data str_exn (Line line) self) ->
  _parse_telemetry line = Ok (Some data).
Proof.
  unfold _read_data.
  destruct (negb (is_connected self)); [intros [] |].
  destruct (String.eqb line EmptyString); [intros [] |].
  destruct (_parse_telemetry line) as [[d |] | e]; simpl.
  - destruct (frame_is_empty d); simpl; [intros [] |].
    intros [Heq | []]. injection Heq as <-. reflexivity.
  - intros [].
  - intros [Heq | []]. discriminate Heq.
Qed.


End Reading.


(** ** From the lists to the display *)

Lemma firstn_2_app {A : Type} (a b x : A) (l : list A) :
  firstn 2 l = [a; b] -> firstn 2 (l ++ [x]) = [a; b].
Proof.
  destruct l as [| c [| d l]]; simpl; try discriminate. auto.
Qed.

Section Display.

Context `{Runtime}.

Variables (level : float) (stalled : bool).

Hypothesis below_15 : flt level 15 = true.

(** The state the critical block starts from: a battery below 15 percent and
    fewer than four satellites. *)
Let low := fun self =>
  battery self = level /\ (gps_sats self <? 4)%Z = true /\
  fle (airspeed self) CRITICAL_MIN_AIRSPEED && armed self = stalled.

Let two_first := fun remaining_time self =>
  int_of_float (level * 0.3) = Ok remaining_time /\
  firstn 2 (critical_alerts self) = [critical_battery remaining_time; GPS_CRITICAL] /\
  (stalled = true -> In STALL_CRITICAL (critical_alerts self)).

Lemma critical_tier_two_first :
  triple (fun self => low self /\ critical_alerts self = []) critical_tier
    (fun _ self => exists remaining_time, two_first remaining_time self) (fun _ => True).
Proof.
  unfold critical_tier.
  eapply triple_bind with
    (Qm := fun _ self => exists remaining_time,
             int_of_float (level * 0.3) = Ok remaining_time /\ low self /\
             critical_alerts self = [critical_battery remaining_time]).
  { apply triple_if_else.
    - eapply triple_bind with
        (Qm := fun r self => int_of_float (level * 0.3) = Ok r /\ low self /\
                             critical_alerts self = []).
      + apply triple_try_get. intros self [[Hlow Hempty] _].
        destruct Hlow as (Hlevel & Hrest). rewrite Hlevel.
        destruct (int_of_float (level * 0.3)); [| exact I].
        repeat apply conj; try reflexivity; try assumption. apply Hrest. apply Hrest.
      + intros remaining_time. unfold append_critical. apply triple_assign.
        intros self (Hminutes & Hlow & Hempty). exists remaining_time.
        repeat apply conj; [exact Hminutes | apply Hlow | apply Hlow | apply Hlow |].
        hud_cbn. rewrite Hempty. reflexivity.
    - intros self [[[Hlevel _] _] Hcond]. rewrite Hlevel in Hcond. congruence. }
  intros _.
  eapply triple_bind with
    (Qm := fun _ self => exists remaining_time,
             int_of_float (level * 0.3) = Ok remaining_time /\ low self /\
             critical_alerts self = [critical_battery remaining_time; GPS_CRITICAL]).
  { unfold append_critical. apply triple_when.
    - apply triple_assign. intros self [(remaining_time & Hminutes & Hlow & Hone) _].
      exists remaining_time.
      repeat apply conj; [exact Hminutes | apply Hlow | apply Hlow | apply Hlow |].
      hud_cbn. rewrite Hone. reflexivity.
    - intros self (remaining_time & _ & (_ & Hfew & _) & _) Hcond. congruence. }
  intros _.
  eapply triple_bind with
    (Qm := fun _ self => exists remaining_time,
             int_of_float (level * 0.3) = Ok remaining_time /\ low self /\
             firstn 2 (critical_alerts self) = [critical_battery remaining_time; GPS_CRITICAL]).
  { unfold append_critical. apply triple_when.
    - apply triple_assign. intros self [(remaining_time & Hminutes & Hlow & Htwo) _].
      exists remaining_time.
      repeat apply conj; [exact Hminutes | apply Hlow | apply Hlow | apply Hlow |].
      hud_cbn. rewrite Htwo. reflexivity.
    - intros self (remaining_time & Hminutes & Hlow & Htwo) _. exists remaining_time.
      repeat apply conj; [exact Hminutes | apply Hlow | apply Hlow | apply Hlow |].
      rewrite Htwo. reflexivity. }
  intros _.
  unfold append_critical. apply triple_when.
  - apply triple_assign. intros self [(remaining_time & Hminutes & Hlow & Htwo) _].
    exists remaining_time. repeat apply conj; [exact Hminutes | |].
    + hud_cbn. apply firstn_2_app. exact Htwo.
    + intros _. hud_cbn. apply in_or_app. right. left. reflexivity.
  - intros self (remaining_time & Hminutes & (_ & _ & Hstalled) & Htwo) Hcond.
    exists remaining_time. repeat apply conj; [exact Hminutes | exact Htwo |].
    intros Hyes. rewrite Hcond in Hstalled. congruence.
Qed.

Lemma smart_telemetry_two_first (now : float) :
  triple low (_analyze_smart_telemetry now)
    (fun _ self => exists remaining_time, two_first remaining_time self) (fun _ => True).
Proof.
  unfold _analyze_smart_telemetry.
  seq (fun self => low self /\ critical_alerts self = []).
  { apply clear_alerts_triple. intros self Hlow. split; [exact Hlow | reflexivity]. }
  seq (fun self => low self /\ critical_alerts self = []).
  { apply performance_calculations_keeps; [| auto].
    repeat apply conj; intros v self Hself; exact Hself. }
  seq (fun self => exists remaining_time, two_first remaining_time self).
  { apply critical_tier_two_first. }
  seq (fun self => exists remaining_time, two_first remaining_time self).
  { apply warning_tier_keeps. intros v self Hself. exact Hself. }
  apply closing_tiers_keep; intros v self Hself; exact Hself.
Qed.

End Display.

Section Drawn.

Context `{Runtime}.

(** X10.  With the battery below 15 percent and fewer than four satellites, the
    two critical alerts that are drawn are the battery alert and the
    satellite alert, whatever the attitude and the airspeed: a stall alert is
    in the critical list and is not drawn.  The header is the one of the
    critical alerts, and no warning is drawn. *)
Theorem stall_alert_is_not_drawn_behind_two_alerts (now : float) (self : ModernHUD) :
  flt (battery self) 15 = true -> (gps_sats self <? 4)%Z = true ->
  outcome (_analyze_smart_telemetry now) self = Ok tt ->
  let self' := after (_analyze_smart_telemetry now) self in
  exists remaining_time,
    int_of_float (battery self * 0.3) = Ok remaining_time /\
    drawn_critical_alerts self' = [critical_battery remaining_time; GPS_CRITICAL] /\
    ~ In STALL_CRITICAL (drawn_critical_alerts self') /\
    ~ In ATTITUDE_CRITICAL (drawn_critical_alerts self') /\
    (fle (airspeed self) CRITICAL_MIN_AIRSPEED && armed self = true ->
     In STALL_CRITICAL (critical_alerts self')) /\
    header_text self' = "🚨 CRITICAL ALERTS" /\
    drawn_warnings self' = [].
Proof.
  intros Hbattery Hfew Hreturns. cbv zeta.
  pose proof (triple_returns _ _ _ _ self
                (smart_telemetry_two_first (battery self)
                   (fle (airspeed self) CRITICAL_MIN_AIRSPEED && armed self) Hbattery now)
                (conj eq_refl (conj Hfew eq_refl)) Hreturns)
    as (remaining_time & Hminutes & Htwo & Hstall).
  exists remaining_time. unfold drawn_critical_alerts, header_text, drawn_warnings.
  rewrite Htwo.
  destruct (critical_alerts (after (_analyze_smart_telemetry now) self)) as [| first rest];
    [discriminate Htwo |].
  repeat apply conj; try reflexivity; try assumption.
  - intros [Heq | [Heq | []]]; discriminate Heq.
  - intros [Heq | [Heq | []]]; discriminate Heq.
Qed.

Variable str_exn : exn -> string.

(** X15.  No frame the link delivers changes the battery of the HUD, for none has
    a battery entry.  So a HUD whose battery is 0, as a new one has it, still
    has it after the frame, and when the analysis runs to its end the first
    critical alert is the critical-battery alert with 0 minutes, the header
    is the one of the critical alerts and no warning is drawn. *)
Theorem delivered_frames_leave_the_battery (line : string) (link : SerialCommunication)
    (data : Frame) (now : float) (hud : ModernHUD) :
  In (DataReceived data) (_read_data str_exn (Line line) link) ->
  let hud' := after (update_from_telemetry now data) hud in
  battery hud' = battery hud /\
  (battery hud = 0 -> outcome (update_from_telemetry now data) hud = Ok tt ->
   hd_error (critical_alerts hud') = Some "🚨 CRITICAL BATTERY: 0min left - LAND NOW" /\
   header_text hud' = "🚨 CRITICAL ALERTS" /\ drawn_warnings hud' = []).
Proof.
  intros Hdelivered. cbv zeta.
  apply delivered_frame_is_decoded in Hdelivered.
  apply decoder_sets_no_battery in Hdelivered.
  assert (Hstored : battery (stored now data hud) = battery hud).
  { unfold stored. cbv zeta. rewrite Hdelivered.
    destruct (f_gps_ok data) as [ok |]; reflexivity. }
  split.
  - apply (update_from_telemetry_keeps (fun s => battery s = battery hud)).
    + repeat apply conj; intros v s Hs; exact Hs.
    + intros v s Hs; exact Hs.
    + intros v s Hs; exact Hs.
    + intros v s Hs; exact Hs.
    + intros v s Hs; exact Hs.
    + intros v s Hs; exact Hs.
    + exact Hstored.
  - intros Hzero Hreturns.
    rewrite outcome_update_from_telemetry in Hreturns.
    rewrite after_update_from_telemetry.
    assert (Hbelow : flt 0 15 = true) by reflexivity.
    assert (Hrun : triple (fun s => battery s = 0)
                     (_analyze_real_data ;; _analyze_smart_telemetry now)
                     (fun _ s => exists remaining_time,
                        int_of_float (0 * 0.3) = Ok remaining_time /\
                        hd_error (critical_alerts s) = Some (critical_battery remaining_time))
                     (fun _ => True)).
    { apply real_then_smart; try (intros v s Hs; exact Hs).
      apply (smart_telemetry_critical_battery now 0 Hbelow). }
    pose proof (triple_returns _ _ _ _ (stored now data hud) Hrun
                  (eq_trans Hstored Hzero) Hreturns)
      as (remaining_time & Hminutes & Hhead).
    vm_compute in Hminutes. injection Hminutes as <-.
    unfold header_text, drawn_warnings.
    destruct (critical_alerts
                (after (_analyze_real_data;; _analyze_smart_telemetry now)
                   (stored now data hud))) as [| first rest];
      [discriminate Hhead |].
    repeat apply conj; try reflexivity. exact Hhead.
Qed.

End Drawn.

Lemma stall_alert_is_not_drawn_behind_two_alerts_witness :
  let self := set_armed true (set_airspeed 20 (set_gps_sats 3 new_hud)) in
  let self' := after (@_analyze_smart_telemetry Sample.runtime 0) self in
  In STALL_CRITICAL (critical_alerts self') /\
  drawn_critical_alerts self' = ["🚨 CRITICAL BATTERY: 0min left - LAND NOW"; GPS_CRITICAL].
Proof.
  destruct (@stall_alert_is_not_drawn_behind_two_alerts Sample.runtime 0
              (set_armed true (set_airspeed 20 (set_gps_sats 3 new_hud)))
              eq_refl eq_refl)
    as (remaining_time & Hminutes & Hdrawn & _ & _ & Hstall & _).
  - vm_compute. reflexivity.
  - vm_compute in Hminutes. injection Hminutes as <-.
    split; [apply Hstall; reflexivity | exact Hdrawn].
Defined.

Lemma delivered_frames_leave_the_battery_witness :
  let link := fst (fst (connect "COM3" None new_link)) in
  let hud' := after (@update_from_telemetry Sample.runtime 0 cruise_frame) new_hud in
  In (DataReceived cruise_frame)
     (@_read_data Sample.runtime (fun _ => EmptyString) (Line "SUM:AS:50.5|Alt:120") link) /\
  battery hud' = 0%float /\
  hd_error (critical_alerts hud') = Some "🚨 CRITICAL BATTERY: 0min left - LAND NOW".
Proof.
  assert (Hdelivered :
    In (DataReceived cruise_frame)
       (@_read_data Sample.runtime (fun _ => EmptyString) (Line "SUM:AS:50.5|Alt:120")
          (fst (fst (connect "COM3" None new_link))))).
  { vm_compute. left. reflexivity. }
  split; [exact Hdelivered |].
  destruct (@delivered_frames_leave_the_battery Sample.runtime (fun _ => EmptyString)
              _ _ _ 0%float new_hud Hdelivered) as [Hbattery Hshown].
  split; [exact Hbattery |].
  apply Hshown; [reflexivity | vm_compute; reflexivity].
Defined.

(** ** The chat *)

Section Chat.

Context `{Unicode}.

(** X20.  Whatever is typed, the chat writes to the port only one of the six
    commands of the autopilot, followed by a line feed: the message itself,
    stripped and in lower case, when that is one of them.  It writes only on
    a connected link, and at most once.  The link is left as it was, except
    by the two words that disconnect it. *)
Theorem chat_writes_only_flight_commands (ask : string -> string) (message : string)
    (written : option string) (serial_comm : SerialCommunication) :
  let cmd := str_lower (str_strip message) in
  let '(serial_comm', traffic, response) :=
    _handle_user_message ask message written serial_comm in
  (forall text, In (PortWrite text) traffic ->
     In cmd ["motor_on"; "motor_off"; "takeoff_start"; "landing_start"; "go_around"; "reset"] /\
     text = cmd ++ newline /\ traffic = [PortWrite text] /\
     is_connected serial_comm = true /\ written = None) /\
  (forall data, ~ In (DataReceived data) traffic) /\
  (serial_comm' = serial_comm \/
   (In cmd ["disconnect"; "bağlantıyı kes"] /\ serial_comm' = fst (disconnect serial_comm) /\
    traffic = map Link (snd (disconnect serial_comm)))).
Proof.
  cbv zeta. unfold _handle_user_message.
  set (cmd := str_lower (str_strip message)).
  assert (Hsent : forall command,
            In command ["motor_on"; "motor_off"; "takeoff_start"; "landing_start";
                        "go_around"; "reset"] ->
            cmd = command ->
            let '(serial_comm', traffic, response) :=
              if is_connected serial_comm then
                let '(success, traffic) := send_command command written serial_comm in
                (serial_comm, traffic,
                 if success then "✅ Command '" ++ cmd ++ "' sent to AirDarwin autopilot"
                 else "❌ Failed to send command '" ++ cmd ++ "'")
              else
                (serial_comm, [],
                 "📡 Not connected - Select COM port to connect to AirDarwin first") in
            (forall text, In (PortWrite text) traffic ->
               In cmd ["motor_on"; "motor_off"; "takeoff_start"; "landing_start";
                       "go_around"; "reset"] /\
               text = cmd ++ newline /\ traffic = [PortWrite text] /\
               is_connected serial_comm = true /\ written = None) /\
            (forall data, ~ In (DataReceived data) traffic) /\
            (serial_comm' = serial_comm \/
             (In cmd ["disconnect"; "bağlantıyı kes"] /\
              serial_comm' = fst (disconnect serial_comm) /\
              traffic = map Link (snd (disconnect serial_comm))))).
  { intros command Hcommand Hcmd. unfold send_command.
    destruct (is_connected serial_comm).
    - destruct written as [err |]; repeat apply conj.
      + intros text [Heq | []]. discriminate Heq.
      + intros data [Heq | []]. discriminate Heq.
      + left. reflexivity.
      + intros text [Heq | []]. injection Heq as <-. rewrite Hcmd.
        repeat apply conj; try reflexivity. exact Hcommand.
      + intros data [Heq | []]. discriminate Heq.
      + left. reflexivity.
    - repeat apply conj.
      + intros text [].
      + intros data [].
      + left. reflexivity. }
  unfold dict_lookup, airdarwin_commands. cbn [find fst snd option_map].
  destruct (String.eqb cmd "motor_on") eqn:H1.
  { apply String.eqb_eq in H1. cbn [option_map snd]. apply Hsent; [simpl; auto 10 | exact H1]. }
  destruct (String.eqb cmd "motor_off") eqn:H2.
  { apply String.eqb_eq in H2. cbn [option_map snd]. apply Hsent; [simpl; auto 10 | exact H2]. }
  destruct (String.eqb cmd "takeoff_start") eqn:H3.
  { apply String.eqb_eq in H3. cbn [option_map snd]. apply Hsent; [simpl; auto 10 | exact H3]. }
  destruct (String.eqb cmd "landing_start") eqn:H4.
  { apply String.eqb_eq in H4. cbn [option_map snd]. apply Hsent; [simpl; auto 10 | exact H4]. }
  destruct (String.eqb cmd "go_around") eqn:H5.
  { apply String.eqb_eq in H5. cbn [option_map snd]. apply Hsent; [simpl; auto 10 | exact H5]. }
  destruct (String.eqb cmd "reset") eqn:H6.
  { apply String.eqb_eq in H6. cbn [option_map snd]. apply Hsent; [simpl; auto 10 | exact H6]. }
  cbn [option_map].
  assert (Hquiet :
            (forall text, In (PortWrite text) (@nil io) ->
               In cmd ["motor_on"; "motor_off"; "takeoff_start"; "landing_start";
                       "go_around"; "reset"] /\
               text = cmd ++ newline /\ @nil io = [PortWrite text] /\
               is_connected serial_comm = true /\ written = None) /\
            (forall data, ~ In (DataReceived data) (@nil io)) /\
            (serial_comm = serial_comm \/
             (In cmd ["disconnect"; "bağlantıyı kes"] /\
              serial_comm = fst (disconnect serial_comm) /\
              @nil io = map Link (snd (disconnect serial_comm))))).
  { repeat apply conj; [intros text [] | intros data [] | left; reflexivity]. }
  destruct (existsb (String.eqb cmd) ["connect"; "bağlan"]); [exact Hquiet |].
  destruct (existsb (String.eqb cmd) ["disconnect"; "bağlantıyı kes"]) eqn:Hleave.
  { apply existsb_exists in Hleave as (word & Hword & Heq). apply String.eqb_eq in Heq.
    subst word. destruct (disconnect serial_comm) as [left_link effects]. simpl.
    repeat apply conj.
    - intros text Hin. apply in_map_iff in Hin as (e & He & _). discriminate He.
    - intros data Hin. apply in_map_iff in Hin as (e & He & _). discriminate He.
    - right. repeat apply conj; [exact Hword | reflexivity | reflexivity]. }
  destruct (existsb (String.eqb cmd) ["status"; "durum"]); [exact Hquiet |].
  destruct (existsb (String.eqb cmd) ["help"; "yardım"]); [exact Hquiet |].
  destruct (str_ends_with "?" (str_strip message)
            || any_word_in ["nedir"; "nasıl"; "ne"; "niye"; "hangi"; "kaç"] cmd);
    exact Hquiet.
Qed.


(** No command is the beginning of another. *)
Lemma command_completes_to_itself (text : string) :
  In text commands -> filter (String.prefix text) commands = [text].
Proof.
  intros Hin. simpl in Hin.
  repeat (destruct Hin as [<- | Hin]; [vm_compute; reflexivity |]).
  destruct Hin.
Qed.

Lemma list_index_in_range {A : Type} (l : list A) (i : Z) :
  (0 <= i < Z.of_nat (List.length l))%Z -> exists a, list_index l i = Some a /\ In a l.
Proof.
  intros Hrange. unfold list_index.
  destruct (0 <=? i)%Z eqn:Hsign; [| apply Z.leb_gt in Hsign; lia].
  destruct (nth_error l (Z.to_nat i)) as [a |] eqn:Hnth.
  - exists a. split; [reflexivity |]. apply nth_error_In in Hnth. exact Hnth.
  - apply nth_error_None in Hnth. lia.
Qed.

(** X21.  [Tab] never fails, and it does not cycle: a second [Tab] leaves the text
    the first one made, because the text is then a whole command and no
    command begins another.  The text after [Tab] is the text before it or a
    command that begins with it in lower case. *)
Theorem tab_completion_does_not_cycle (self : ModernComposer) :
  (forall cmd, In cmd commands -> str_lower cmd = cmd) ->
  exists once twice,
    _handle_tab_completion self = Some once /\
    _handle_tab_completion once = Some twice /\
    text_input twice = text_input once /\
    (text_input once = text_input self \/
     (In (text_input once) commands /\
      String.prefix (str_lower (text_input self)) (text_input once) = true)).
Proof.
  intros Hlower.
  assert (Hcommand : forall s,
            In (text_input s) commands ->
            exists t, _handle_tab_completion s = Some t /\ text_input t = text_input s).
  { intros s Hin. unfold _handle_tab_completion.
    destruct (String.eqb (text_input s) EmptyString) eqn:Hempty; [eauto |].
    rewrite (Hlower _ Hin). rewrite (command_completes_to_itself _ Hin).
    destruct (negb (String.eqb (current_completion s) (text_input s))); cbn.
    - eauto.
    - rewrite Z.mod_1_r. cbn. eauto. }
  unfold _handle_tab_completion at 1.
  destruct (String.eqb (text_input self) EmptyString) eqn:Hempty.
  { exists self, self. unfold _handle_tab_completion. rewrite Hempty. auto. }
  destruct (filter (String.prefix (str_lower (text_input self))) commands)
    as [| first rest] eqn:Hmatches.
  { eexists. eexists. split; [reflexivity |].
    unfold _handle_tab_completion. cbn [text_input]. rewrite Hempty, Hmatches.
    cbn [text_input]. auto. }
  set (matches := first :: rest) in *.
  assert (Hindex : forall i, (0 <= i < Z.of_nat (List.length matches))%Z ->
            exists text, list_index matches i = Some text /\ In text commands /\
                         String.prefix (str_lower (text_input self)) text = true).
  { intros i Hi. destruct (list_index_in_range matches i Hi) as (text & Hsome & Hin).
    exists text. split; [exact Hsome |]. rewrite <- Hmatches in Hin.
    apply filter_In in Hin. exact Hin. }
  destruct (negb (String.eqb (current_completion self) (text_input self))).
  - cbn [completion_index current_completion text_input].
    destruct (Hindex 0%Z) as (text & Hsome & Hin & Hprefix).
    { unfold matches. simpl List.length. lia. }
    rewrite Hsome.
    destruct (Hcommand {| text_input := text; current_completion := text_input self;
                          completion_index := 0 |} Hin) as (twice & Htwice & Hsame).
    eexists. exists twice. split; [reflexivity |]. split; [exact Htwice |].
    split; [exact Hsame |]. right. split; assumption.
  - cbn [completion_index current_completion text_input].
    destruct (Hindex ((completion_index self + 1) mod Z.of_nat (List.length matches))%Z)
      as (text & Hsome & Hin & Hprefix).
    { apply Z.mod_pos_bound. unfold matches. simpl List.length. lia. }
    rewrite Hsome.
    destruct (Hcommand {| text_input := text; current_completion := current_completion self;
                          completion_index :=
                            ((completion_index self + 1)
                             mod Z.of_nat (List.length matches))%Z |} Hin)
      as (twice & Htwice & Hsame).
    eexists. exists twice. split; [reflexivity |]. split; [exact Htwice |].
    split; [exact Hsame |]. right. split; assumption.
Qed.

(** X22.  The answer for the safety state [EMERGENCY] is never given: a question
    that names it names the flight mode [EMERGENCY], which is asked for
    first.  A question that names a flight mode is answered with the first
    such mode of the knowledge base, whatever else it names. *)
Theorem fallback_never_answers_emergency_state (question : string) :
  _fallback_response question <> "🛡️ EMERGENCY: Acil durum. İmha prosedürü başlatılabilir." /\
  (forall mode description,
     find (fun entry => str_contains (str_lower (fst entry)) (str_lower question)) flight_modes
     = Some (mode, description) ->
     _fallback_response question = "🎯 " ++ mode ++ ": " ++ description).
Proof.
  split.
  2: { intros mode description Hfound. unfold _fallback_response. cbv zeta.
       rewrite Hfound. reflexivity. }
  unfold _fallback_response. cbv zeta.
  destruct (find (fun entry => str_contains (str_lower (fst entry)) (str_lower question))
              flight_modes) as [[mode description] |] eqn:Hmode.
  { cbn. discriminate. }
  assert (Hnot : str_contains (str_lower "EMERGENCY") (str_lower question) = false).
  { apply (find_none _ _ Hmode ("EMERGENCY", "Acil durum modu. İmha prosedürü aktif.")).
    simpl. auto 10. }
  unfold safety_states. cbn [find fst].
  repeat match goal with
         | |- context [if str_contains (str_lower ?name) (str_lower question) then _ else _] =>
             destruct (str_contains (str_lower name) (str_lower question)) eqn:?
         end; try (cbn; discriminate); try congruence.
  destruct (find (fun entry => str_contains (fst entry) (str_lower question)) command_help)
    as [[cmd description] |].
  { cbn. discriminate. }
  repeat match goal with
         | |- context [if any_word_in ?words ?text then _ else _] =>
             destruct (any_word_in words text)
         end; discriminate.
Qed.

End Chat.

Lemma tab_completion_does_not_cycle_witness :
  let typed := {| text_input := "mo"; current_completion := EmptyString;
                  completion_index := -1 |} in
  exists once twice,
    @_handle_tab_completion AsciiText.unicode typed = Some once /\
    @_handle_tab_completion AsciiText.unicode once = Some twice /\
    text_input once = "motor_on" /\ text_input twice = "motor_on".
Proof.
  destruct (@tab_completion_does_not_cycle AsciiText.unicode
              {| text_input := "mo"; current_completion := EmptyString;
                 completion_index := -1 |})
    as (once & twice & Honce & Htwice & Hsame & _).
  - intros cmd Hin. simpl in Hin.
    repeat (destruct Hin as [<- | Hin]; [reflexivity |]). destruct Hin.
  - exists once, twice. split; [exact Honce |]. split; [exact Htwice |].
    vm_compute in Honce. injection Honce as <-. split; [reflexivity | exact Hsame].
Defined.

(** ** The mode in the chat and the typing of a message *)

Section Announced.

Context `{Runtime}.

(** X23.  [_handle_telemetry_data] announces a mode in the chat only for a frame
    that has one, only when it differs from the mode announced last (from the
    empty text when none was), and only when the HUD took the frame without
    raising; it then remembers that mode.  Without an announcement the
    remembered mode stays.  After a call that returns, a frame with the same
    mode announces nothing. *)
Theorem mode_is_announced_on_change_only (now : float) (data : Frame) (hud : ModernHUD)
    (_last_mode : option string) :
  let '(returned, hud', _last_mode', chat) := _handle_telemetry_data now data hud _last_mode in
  hud' = after (update_from_telemetry now data) hud /\
  (forall text, In text chat ->
     exists mode, f_mode data = Some mode /\ mode <> dict_get _last_mode EmptyString /\
                  chat = ["🎯 Flight mode changed to: " ++ mode] /\
                  _last_mode' = Some mode /\ returned = Ok tt) /\
  (chat = [] -> _last_mode' = _last_mode) /\
  (returned = Ok tt ->
   forall now2 data2 hud2,
     f_mode data2 = f_mode data ->
     snd (_handle_telemetry_data now2 data2 hud2 _last_mode') = []).
Proof.
  unfold _handle_telemetry_data, after.
  destruct (update_from_telemetry now data hud) as [[[] | e] hud1]; simpl.
  2: { repeat apply conj; [reflexivity | intros text [] | reflexivity | discriminate]. }
  destruct (f_mode data) as [mode |] eqn:Hmode.
  - destruct (String.eqb mode (dict_get _last_mode EmptyString)) eqn:Hsame; simpl.
    + repeat apply conj; [reflexivity | intros text [] | reflexivity |].
      intros _ now2 data2 hud2 ->.
      destruct (update_from_telemetry now2 data2 hud2) as [[[] | e] hud3]; [| reflexivity].
      rewrite Hsame. reflexivity.
    + repeat apply conj; [reflexivity | | discriminate |].
      * intros text _. exists mode. apply String.eqb_neq in Hsame.
        repeat apply conj; try reflexivity. exact Hsame.
      * intros _ now2 data2 hud2 ->.
        destruct (update_from_telemetry now2 data2 hud2) as [[[] | e] hud3]; [| reflexivity].
        simpl. rewrite String.eqb_refl. reflexivity.
  - repeat apply conj; [reflexivity | intros text [] | reflexivity |].
    intros _ now2 data2 hud2 ->.
    destruct (update_from_telemetry now2 data2 hud2) as [[[] | e] hud3]; reflexivity.
Qed.

End Announced.

Section Typing.

Context {char : Type}.

Lemma typing_state (text : list char) (n : nat) :
  let self := Nat.iter n _type_next_char (_start_typing (new_message text false)) in
  full_text self = text /\
  displayed_text self = firstn n text /\
  char_index self = Z.of_nat (Nat.min n (List.length text)) /\
  typing_timer_active self = (n <=? List.length text)%nat.
Proof.
  cbv zeta. induction n as [| n (Hfull & Hshown & Hindex & Htimer)].
  - simpl. repeat apply conj; reflexivity.
  - rewrite Nat.iter_succ.
    set (self := Nat.iter n _type_next_char (_start_typing (new_message text false))) in *.
    unfold _type_next_char. rewrite Hfull, Hindex.
    destruct (Z.of_nat (Nat.min n (List.length text)) <? Z.of_nat (List.length text))%Z
      eqn:Hmore.
    + apply Z.ltb_lt in Hmore. cbn [full_text displayed_text char_index typing_timer_active].
      assert (Hn : (n < List.length text)%nat) by lia.
      repeat apply conj.
      * reflexivity.
      * unfold slice_to.
        destruct (0 <=? Z.of_nat (Nat.min n (List.length text)) + 1)%Z eqn:Hsign;
          [| apply Z.leb_gt in Hsign; lia].
        f_equal. lia.
      * lia.
      * rewrite Htimer. apply Nat.leb_le in Hn as Hle.
        assert (Hle' : (n <=? List.length text)%nat = true) by (apply Nat.leb_le; lia).
        rewrite Hle'. symmetry. apply Nat.leb_le. lia.
    + apply Z.ltb_ge in Hmore. cbn [full_text displayed_text char_index typing_timer_active].
      assert (Hn : (List.length text <= n)%nat) by lia.
      repeat apply conj.
      * reflexivity.
      * rewrite Hshown. rewrite !firstn_all2 by lia. reflexivity.
      * lia.
      * symmetry. apply Nat.leb_gt. lia.
Qed.

(** X24.  The typing of a message that is not the user's: after [n] runs of
    [_type_next_char] the text on display is the first [n] characters of the
    message; the timer is stopped by the first run after the last character,
    and from then on the whole message is on display, unchanged. *)
Theorem typing_shows_the_whole_text (text : list char) (n : nat) :
  let self := Nat.iter n _type_next_char (_start_typing (new_message text false)) in
  displayed_text self = firstn n text /\
  (typing_timer_active self = true <-> (n <= List.length text)%nat) /\
  ((List.length text <= n)%nat -> displayed_text self = text) /\
  (typing_timer_active self = false -> _type_next_char self = self).
Proof.
  cbv zeta. destruct (typing_state text n) as (Hfull & Hshown & Hindex & Htimer).
  cbv zeta in *.
  set (self := Nat.iter n _type_next_char (_start_typing (new_message text false))) in *.
  repeat apply conj.
  - exact Hshown.
  - rewrite Htimer. apply Nat.leb_le.
  - intros Hle. rewrite Htimer. apply Nat.leb_le. exact Hle.
  - intros Hdone. rewrite Hshown. apply firstn_all2. exact Hdone.
  - intros Hstopped. rewrite Htimer in Hstopped. apply Nat.leb_gt in Hstopped.
    clearbody self. destruct self as [full shown index timer]. simpl in *. subst.
    unfold _type_next_char. simpl.
    assert (Hmore : (Z.of_nat (Nat.min n (List.length text))
                     <? Z.of_nat (List.length text))%Z = false)
      by (apply Z.ltb_ge; lia).
    rewrite Hmore. f_equal. symmetry. apply Nat.leb_gt. exact Hstopped.
Qed.

End Typing.
